(** * The code generation backend of the compiler (src/codegen.cpp)

    A shallow embedding of the parts of [codegen.cpp] that weave runtime
    safety checks into the lowered code, drive the emission of a module
    and pick the Darwin deployment target, together with the properties
    of them that the specification states.

    The backend library (LLVM, reached through its C API) is a black box
    for the compiler.  It is modelled here by a recording builder: every
    API call that places something into a function body is logged with
    the basic block the builder was positioned at, and module-level
    objects (functions, globals) are kept in the module.  Handles of
    instructions and basic blocks are drawn from counters, so two
    distinct calls never return the same handle.  Debug locations that
    the builder attaches to instructions are not represented; the
    debug-declare records are. *)

From Stdlib Require Import ZArith List String Ascii Lia Bool DecimalString.
From stdpp Require Import base option list gmap strings.

Local Open Scope string_scope.
Local Open Scope list_scope.
Set Warnings "-register-all".

(** ** The backend library *)

Module LLVM.

Inductive LLVMIntPredicate :=
| LLVMIntEQ | LLVMIntNE
| LLVMIntUGT | LLVMIntUGE | LLVMIntULT | LLVMIntULE
| LLVMIntSGT | LLVMIntSGE | LLVMIntSLT | LLVMIntSLE.

Inductive LLVMRealPredicate :=
| LLVMRealOEQ | LLVMRealONE | LLVMRealOLT | LLVMRealOGT
| LLVMRealOLE | LLVMRealOGE.

Inductive LLVMLinkage :=
| LLVMExternalLinkage | LLVMInternalLinkage | LLVMPrivateLinkage.

Inductive LLVMAttribute :=
| LLVMAlwaysInlineAttribute | LLVMNoInlineAttribute | LLVMNakedAttribute
| LLVMNoReturnAttribute | LLVMNoUnwindAttribute | LLVMStructRetAttribute
| LLVMNoAliasAttribute | LLVMReadOnlyAttribute | ZigLLVMNonNullAttr
| ZigLLVMStringAttr (key : string) (value : option string).

(** Types are built by value; [LLVMNamedStruct] stands for a type the
    type registry created under a name (its body is not needed here). *)
Inductive LLVMTypeRef :=
| LLVMVoidType
| LLVMIntType (bits : nat)
| LLVMRealType (bits : nat)
| LLVMPointerType (element : LLVMTypeRef) (address_space : nat)
| LLVMArrayType (element : LLVMTypeRef) (count : N)
| LLVMStructType (elements : list LLVMTypeRef) (packed : bool)
| LLVMFunctionType (ret : LLVMTypeRef) (params : list LLVMTypeRef)
                   (is_var_arg : bool)
| LLVMNamedStruct (name : string).

Definition LLVMInt1Type := LLVMIntType 1.
Definition LLVMInt8Type := LLVMIntType 8.
Definition LLVMInt32Type := LLVMIntType 32.

(** Values.  Constants are built by value; [LLVMInstrResult] is the
    result of the instruction with that handle, [LLVMGlobalVar] the
    global with that index in the module, [LLVMFunction] the function
    of that name. *)
Inductive LLVMValue :=
| LLVMConstInt (ty : LLVMTypeRef) (n : Z) (sign_extend : bool)
| LLVMConstNull (ty : LLVMTypeRef)
| LLVMConstAllOnes (ty : LLVMTypeRef)
| LLVMGetUndef (ty : LLVMTypeRef)
| LLVMConstString (str : string) (len : nat) (dont_null_terminate : bool)
| LLVMConstBitCast (v : LLVMValue) (ty : LLVMTypeRef)
| LLVMConstStruct (fields : list (option LLVMValue)) (packed : bool)
| LLVMConstNamedStruct (ty : LLVMTypeRef) (fields : list (option LLVMValue))
| LLVMConstArray (elem_ty : LLVMTypeRef) (elems : list (option LLVMValue))
| LLVMConstInlineAsm (ty : LLVMTypeRef) (asm_string constraints : string)
                     (has_side_effects is_align_stack : bool)
| LLVMGetParam (fn : LLVMValue) (index : nat)
| LLVMFunction (name : string)
| LLVMGlobalVar (index : nat)
| LLVMInstrResult (handle : nat).

(** A [LLVMValueRef] may be the null pointer. *)
Definition LLVMValueRef := option LLVMValue.
Definition LLVMBasicBlockRef := option nat.

Inductive LLVMBinaryOp :=
| Add | NSWAdd | NUWAdd | FAdd
| Sub | NSWSub | NUWSub | FSub
| Mul | NSWMul | NUWMul | FMul
| SDiv | UDiv | ExactSDiv | ExactUDiv | FDiv
| SRem | URem | FRem
| Shl | NSWShl | NUWShl | AShr | LShr
| And | Or | Xor.

(** The instructions the modelled lowerings build; the constructor
    [LLVMBuildX] stands for one call of the API function of that name
    ([LLVMBuildBinary op] for [LLVMBuildAdd], [LLVMBuildNSWAdd], ...). *)
Inductive LLVMInstr :=
| LLVMBuildCall (fn : LLVMValueRef) (args : list LLVMValueRef)
| LLVMBuildExtractValue (agg : LLVMValueRef) (index : nat)
| LLVMBuildCondBr (cond : LLVMValueRef) (then_bb else_bb : LLVMBasicBlockRef)
| LLVMBuildBr (dest : LLVMBasicBlockRef)
| LLVMBuildUnreachable
| LLVMBuildRet (v : LLVMValueRef)
| LLVMBuildRetVoid
| LLVMBuildICmp (pred : LLVMIntPredicate) (lhs rhs : LLVMValueRef)
| LLVMBuildFCmp (pred : LLVMRealPredicate) (lhs rhs : LLVMValueRef)
| LLVMBuildBinary (op : LLVMBinaryOp) (lhs rhs : LLVMValueRef)
| LLVMBuildLoad (ptr : LLVMValueRef)
| LLVMBuildStore (v ptr : LLVMValueRef)
| LLVMBuildBitCast (v : LLVMValueRef) (ty : LLVMTypeRef)
| LLVMBuildInBoundsGEP (ptr : LLVMValueRef) (indices : list LLVMValueRef)
| LLVMBuildPhi (ty : LLVMTypeRef)
| LLVMBuildAlloca (ty : LLVMTypeRef) (name : string).

(** Debug-info handles. *)
Inductive ZigLLVMDIScope :=
| DIFileScope
| DITypeScope
| DISubprogram (parent : ZigLLVMDIScope) (line : nat)
| DILexicalBlock (parent : ZigLLVMDIScope) (line column : nat).

Record ZigLLVMDILocation := ZigLLVMGetDebugLoc {
  loc_line : nat; loc_column : nat; loc_scope : ZigLLVMDIScope }.

(** What the builder did to function bodies, in order. *)
Inductive LLVMOp :=
| OpAppendBasicBlock (fn : LLVMValueRef) (name : string) (bb : nat)
| OpBuild (at_block : LLVMBasicBlockRef) (handle : nat) (instr : LLVMInstr)
| OpAddIncoming (phi : LLVMValueRef) (values : list LLVMValueRef)
                (blocks : list LLVMBasicBlockRef) (count : nat)
| OpInsertDeclareAtEnd (storage : LLVMValueRef) (var_info : option nat)
                       (debug_loc : ZigLLVMDILocation)
                       (block : LLVMBasicBlockRef)
| OpSetAlignment (v : LLVMValueRef) (bytes : nat).

Record Builder := mkBuilder {
  insert_block : LLVMBasicBlockRef;
  next_value : nat;
  next_block : nat;
  emitted : list LLVMOp }.

Record LLVMGlobal := mkGlobal {
  global_name : string;
  global_type : LLVMTypeRef;
  global_initializer : LLVMValueRef;
  global_linkage : LLVMLinkage;
  global_constant : bool;
  global_unnamed_addr : bool }.

Record LLVMFunctionDecl := mkFunctionDecl {
  function_name : string;
  function_type : LLVMTypeRef;
  function_linkage : LLVMLinkage;
  function_call_conv : nat;
  function_attrs : list LLVMAttribute;
  (* attributes by index: 0 is the return value, i+1 parameter i *)
  function_index_attrs : list (nat * LLVMAttribute) }.

Record Module := mkModule {
  functions : list LLVMFunctionDecl;
  globals : list LLVMGlobal }.

End LLVM.
Export LLVM.

(** ** The analysed program, as the backend receives it *)

(** [AsmToken], [AsmOutput], [AsmInput] and the asm expression of an
    [AstNode] (parser data the lowering of inline assembly reads). *)
Inductive AsmTokenId := AsmTokenIdTemplate | AsmTokenIdPercent | AsmTokenIdVar.

Record AsmToken := mkAsmToken {
  tok_id : AsmTokenId; tok_start : nat; tok_end : nat }.

Record AsmOutput := mkAsmOutput {
  out_asm_symbolic_name : string;
  out_constraint : string;
  (* [return_type != nullptr] *)
  out_has_return_type : bool }.

Record AsmInput := mkAsmInput {
  in_asm_symbolic_name : string;
  in_constraint : string }.

Record AstNodeAsmExpr := mkAsmExpr {
  asm_template : string;
  token_list : list AsmToken;
  is_volatile : bool;
  output_list : list AsmOutput;
  input_list : list AsmInput;
  clobber_list : list string }.

(** The node type is the constructor of the node's data. *)
Inductive AstNodeData :=
| NodeTypeErrorValueDecl (name : string)
| NodeTypeVariableDeclaration (is_extern : bool)
| NodeTypeAsmExpr (asm_expr : AstNodeAsmExpr)
| NodeTypeOther.

Record AstNode := mkAstNode {
  line : nat; column : nat; data : AstNodeData }.

(** A scope pointer is the chain it starts: the scope itself, then its
    parent, and so on; the null pointer is the empty chain. *)
Inductive ScopeNode :=
| ScopeIdDecls (source_node : AstNode) (safety_set_node : option AstNode)
               (safety_off : bool) (has_container_type : bool)
| ScopeIdBlock (source_node : AstNode) (safety_set_node : option AstNode)
               (safety_off : bool)
| ScopeIdFnDef (source_node : AstNode) (proto_line : nat)
| ScopeIdDefer (source_node : AstNode)
| ScopeIdVarDecl (source_node : AstNode)
| ScopeIdLoop (source_node : AstNode)
| ScopeIdCImport (source_node : AstNode).

Definition Scope := list ScopeNode.

Inductive TypeTableEntryId :=
| TypeTableEntryIdInvalid | TypeTableEntryIdVar | TypeTableEntryIdMetaType
| TypeTableEntryIdVoid | TypeTableEntryIdBool | TypeTableEntryIdUnreachable
| TypeTableEntryIdInt | TypeTableEntryIdFloat | TypeTableEntryIdPointer
| TypeTableEntryIdArray | TypeTableEntryIdStruct
| TypeTableEntryIdNumLitFloat | TypeTableEntryIdNumLitInt
| TypeTableEntryIdUndefLit | TypeTableEntryIdNullLit
| TypeTableEntryIdMaybe | TypeTableEntryIdErrorUnion
| TypeTableEntryIdPureError | TypeTableEntryIdEnum | TypeTableEntryIdUnion
| TypeTableEntryIdFn | TypeTableEntryIdTypeDecl | TypeTableEntryIdNamespace
| TypeTableEntryIdBlock | TypeTableEntryIdBoundFn.

#[global] Instance TypeTableEntryId_eq_dec : EqDecision TypeTableEntryId.
Proof. solve_decision. Defined.

(** A type of the source language.  The members of the [data] union that
    the modelled code reads are plain fields. *)
Record TypeTableEntry := mkType {
  type_id : nat;                      (* identity of the (memoised) entry *)
  id : TypeTableEntryId;
  type_ref : LLVMTypeRef;
  zero_bits : bool;
  integral_is_signed : bool;          (* data.integral.is_signed *)
  integral_bit_count : nat;           (* data.integral.bit_count *)
  enumeration_gen_field_count : nat;  (* data.enumeration.gen_field_count *)
  pointer_is_const : bool }.          (* data.pointer.is_const *)

(** Modelled from the spec: [type_has_bits] of analyze.cpp, which is not
    part of the source at hand; a type carries "a zero_bits flag (true =>
    type occupies no storage)". *)
Definition type_has_bits (type_entry : TypeTableEntry) : bool :=
  negb (zero_bits type_entry).

Inductive ConstValSpecial :=
| ConstValSpecialRuntime | ConstValSpecialStatic
| ConstValSpecialUndef | ConstValSpecialZeroes.

(** A compile-time value.  Its payload is only read by the constant
    emitter, which is kept abstract (see [gen_const_val] below); the two
    cached handles [llvm_value] and [llvm_global] live in the state, under
    the value's identity [const_id]. *)
Record ConstExprValue := mkConst {
  const_id : nat;
  special : ConstValSpecial }.

(** The header every IR instruction starts with.  The result handle
    [llvm_value] lives in the state, under [debug_id]. *)
Record IrInstruction := mkIrInstruction {
  debug_id : nat;
  scope : Scope;
  source_node : AstNode;
  type_entry : TypeTableEntry;
  static_value : ConstExprValue;
  ref_count : nat }.

Definition SIZE_MAX : N := 18446744073709551615%N.

(** A variable.  Its [value_ref] and [di_loc_var] are assigned by the
    function driver; they live in the state, under [var_id]. *)
Record VariableTableEntry := mkVar {
  var_id : nat;
  var_name : string;
  var_type : TypeTableEntry;
  var_value : ConstExprValue;         (* value, of a global *)
  var_ref_count : nat;
  decl_node : option AstNode;
  parent_scope : Scope;
  gen_is_const : bool;
  is_inline : bool;
  src_arg_index : N;
  gen_arg_index : N }.

Inductive IrBinOp :=
| IrBinOpInvalid
| IrBinOpBoolOr | IrBinOpBoolAnd
| IrBinOpCmpEq | IrBinOpCmpNotEq | IrBinOpCmpLessThan
| IrBinOpCmpGreaterThan | IrBinOpCmpLessOrEq | IrBinOpCmpGreaterOrEq
| IrBinOpBinOr | IrBinOpBinXor | IrBinOpBinAnd
| IrBinOpBitShiftLeft | IrBinOpBitShiftLeftWrap | IrBinOpBitShiftRight
| IrBinOpAdd | IrBinOpAddWrap | IrBinOpSub | IrBinOpSubWrap
| IrBinOpMult | IrBinOpMultWrap | IrBinOpDiv | IrBinOpMod
| IrBinOpArrayCat | IrBinOpArrayMult.

(** The payloads of the instructions whose lowering is modelled.  An
    operand is the header of the instruction it points to; a basic block
    is referred to by its identity. *)
Record IrInstructionReturn := mkReturn {
  return_base : IrInstruction; return_value : IrInstruction }.

Record IrInstructionDeclVar := mkDeclVar {
  decl_var_base : IrInstruction;
  decl_var : VariableTableEntry;
  init_value : IrInstruction }.

Record IrInstructionBinOp := mkBinOp {
  bin_op_base : IrInstruction;
  op_id : IrBinOp;
  op1 : IrInstruction;
  op2 : IrInstruction;
  safety_check_on : bool }.

Record IrInstructionCondBr := mkCondBr {
  cond_br_base : IrInstruction;
  condition : IrInstruction;
  then_block : nat;
  else_block : nat }.

Record IrInstructionBr := mkBr {
  br_base : IrInstruction; dest_block : nat }.

Record IrInstructionPhi := mkPhi {
  phi_base : IrInstruction;
  incoming_count : nat;
  incoming_blocks : list nat;
  incoming_values : list IrInstruction }.

Record IrInstructionAsm := mkAsm {
  asm_base : IrInstruction;
  asm_input_list : list IrInstruction;
  output_vars : list (option VariableTableEntry);
  return_count : nat }.

Record IrInstructionErrName := mkErrName {
  err_name_base : IrInstruction; err_name_value : IrInstruction }.

(** [tmp_ptr] is assigned by the function driver; it lives in the state,
    under the instruction's [debug_id]. *)
Record IrInstructionRef := mkRef {
  ref_base : IrInstruction; ref_value : IrInstruction }.

(** An instruction with its tag.  [IrInstructionIdNoCodegen] stands for
    the tags that never reach the backend (Const, TypeOf, ...) and
    [IrInstructionIdTodo] for those the backend has no lowering for yet
    (SwitchVar, ContainerInitList, StructInit, EnumTag).  The remaining
    opcodes of the source (casts, unary operations, loads and stores,
    element and field pointers, calls, switches) are outside the modelled
    fragment. *)
Inductive IrInstr :=
| IrInstructionIdReturn (i : IrInstructionReturn)
| IrInstructionIdDeclVar (i : IrInstructionDeclVar)
| IrInstructionIdBinOp (i : IrInstructionBinOp)
| IrInstructionIdUnreachable (base : IrInstruction)
| IrInstructionIdCondBr (i : IrInstructionCondBr)
| IrInstructionIdBr (i : IrInstructionBr)
| IrInstructionIdPhi (i : IrInstructionPhi)
| IrInstructionIdAsm (i : IrInstructionAsm)
| IrInstructionIdErrName (i : IrInstructionErrName)
| IrInstructionIdRef (i : IrInstructionRef)
| IrInstructionIdNoCodegen (base : IrInstruction)
| IrInstructionIdTodo (base : IrInstruction).

Definition instr_base (instruction : IrInstr) : IrInstruction :=
  match instruction with
  | IrInstructionIdReturn i => return_base i
  | IrInstructionIdDeclVar i => decl_var_base i
  | IrInstructionIdBinOp i => bin_op_base i
  | IrInstructionIdUnreachable b => b
  | IrInstructionIdCondBr i => cond_br_base i
  | IrInstructionIdBr i => br_base i
  | IrInstructionIdPhi i => phi_base i
  | IrInstructionIdAsm i => asm_base i
  | IrInstructionIdErrName i => err_name_base i
  | IrInstructionIdRef i => ref_base i
  | IrInstructionIdNoCodegen b => b
  | IrInstructionIdTodo b => b
  end.

(** A basic block.  Its [llvm_block] and [llvm_exit_block] handles live in
    the state, under [bb_id]. *)
Record IrBasicBlock := mkBasicBlock {
  bb_id : nat;
  name_hint : string;
  bb_ref_count : nat;
  instruction_list : list IrInstr }.

Inductive FnInline := FnInlineAuto | FnInlineAlways | FnInlineNever.

Record FnGenParamInfo := mkGenParam {
  gen_index : N;
  is_byval : bool;
  gen_type : TypeTableEntry;
  is_noalias : bool }.                (* param_info[i].is_noalias *)

(** The [data.fn] member of a function's type entry. *)
Record FnTypeData := mkFnType {
  return_type : TypeTableEntry;
  is_extern : bool;
  is_naked : bool;
  calling_convention : nat;
  raw_type_ref : LLVMTypeRef;
  gen_param_info : list FnGenParamInfo }.   (* param_count entries *)

Record FnTableEntry := mkFn {
  fn_id : nat;
  symbol_name : string;
  internal_linkage : bool;
  fn_inline : FnInline;
  is_test : bool;
  fn_type : FnTypeData;
  basic_block_list : list IrBasicBlock;     (* analyzed_executable *)
  alloca_list : list IrInstr;
  variable_list : list VariableTableEntry;
  fndef_scope : Scope }.

(** ** The target *)

(** The enumerators of [ZigLLVM_ArchType] and [ZigLLVM_OSType]
    (zig_llvm.hpp) that the source names; [..._other n] stands for every
    other enumerator. *)
Inductive ZigLLVM_ArchType :=
| ZigLLVM_arm | ZigLLVM_aarch64 | ZigLLVM_thumb
| ZigLLVM_ArchType_other (n : nat).

Inductive ZigLLVM_OSType :=
| ZigLLVM_Darwin | ZigLLVM_MacOSX | ZigLLVM_IOS
| ZigLLVM_OSType_other (n : nat).

Record ZigTarget := mkTarget {
  arch : ZigLLVM_ArchType; os : ZigLLVM_OSType }.

(** The process environment, as [getenv] sees it. *)
Definition Environ := string -> option string.

(** ** The code generator's state *)

Record BuiltinFnEntry := mkBuiltinFn {
  builtin_name : string;
  builtin_ref_count : nat;
  fn_val : LLVMValueRef }.

Record LLVMTargetData := mkTargetData {
  LLVMStoreSizeOfType : LLVMTypeRef -> N;
  ZigLLVMGetPrefTypeAlignment : LLVMTypeRef -> nat }.

(** What is fixed before code generation starts. *)
Record CodeGenConfig := mkConfig {
  is_release_build : bool;
  is_test_build : bool;
  strip_debug_symbols : bool;
  g_generate_error_name_table : bool;
  error_decls : list (option AstNode);
  errors : list string;
  test_fn_count : nat;
  global_vars : list VariableTableEntry;
  fn_protos : list FnTableEntry;
  fn_defs : list FnTableEntry;
  main_fn : option nat;
  entry_usize : TypeTableEntry;       (* builtin_types.entry_usize *)
  entry_isize : TypeTableEntry;
  entry_u8 : TypeTableEntry;
  entry_f64 : TypeTableEntry;
  entry_i32 : TypeTableEntry;
  pointer_size_bytes : nat;
  target_data_ref : LLVMTargetData;
  is_native_target : bool;
  zig_target : ZigTarget;
  mmacosx_version_min : option string;
  mios_version_min : option string }.

(** The module and the handles cached on compile-time values and on
    function table entries: what the constant emitter works on. *)
Record ConstState := mkConstState {
  module : Module;
  const_llvm_value : gmap nat LLVMValue;
  const_llvm_global : gmap nat LLVMValue;
  fn_llvm_values : gmap nat LLVMValue }.

(** The handles cached on instructions, basic blocks and variables. *)
Record IrHandles := mkIrHandles {
  instr_llvm_value : gmap nat LLVMValue;
  instr_tmp_ptr : gmap nat LLVMValue;
  bb_llvm_block : gmap nat nat;
  bb_llvm_exit_block : gmap nat nat;
  var_value_ref : gmap nat LLVMValue;
  var_di_loc_var : gmap nat nat }.

Record Intrinsics := mkIntrinsics {
  trap_fn_val : LLVMValueRef;
  memcpy_fn_val : LLVMValueRef;
  memset_fn_val : LLVMValueRef;
  (* [0-signed,1-unsigned][0-add,1-sub,2-mul][0-8,1-16,2-32,3-64] *)
  int_overflow_fns : gmap (nat * nat * nat) LLVMValue;
  err_name_table : LLVMValueRef;
  builtin_fn_table : list BuiltinFnEntry }.

Record CurFn := mkCurFn {
  cur_fn : option FnTableEntry;
  cur_fn_val : LLVMValueRef;
  cur_ret_ptr : LLVMValueRef }.

Record CodeGen := mkCodeGen {
  config : CodeGenConfig;
  builder : Builder;
  consts : ConstState;
  handles : IrHandles;
  intrinsics : Intrinsics;
  cur : CurFn;
  stderr : string }.

(** The collaborators whose code is not part of the source at hand:
    queries of the semantic analyser (analyze.cpp, ir.cpp), the type the
    backend library gave a value, and the constant emitter.  The constant
    emitter [gen_const_val] is part of codegen.cpp; it folds a compile-time
    value into a constant and, for pointers, promotes the pointee to a
    global.  It never touches the builder, which its type records: it works
    on the [ConstState] alone.  [None] stands for an abort. *)
Class Collaborators := {
  handle_is_ptr : TypeTableEntry -> bool;
  get_memcpy_align : TypeTableEntry -> N;
  get_slice_type : TypeTableEntry -> bool -> TypeTableEntry;
  structure_field_type : TypeTableEntry -> nat -> TypeTableEntry;
  get_pointer_to_type : TypeTableEntry -> bool -> TypeTableEntry;
  (* the import a scope belongs to; [None] is the null pointer *)
  get_scope_import : Scope -> option nat;
  ir_has_side_effects : IrInstr -> bool;
  (* buffer.hpp: does the buffer hold exactly the [len] bytes at [mem]? *)
  buf_eql_mem : string -> string -> N -> bool;
  LLVMTypeOf : LLVMValue -> LLVMTypeRef;
  gen_const_val : TypeTableEntry -> ConstExprValue -> ConstState ->
                  option (LLVMValueRef * ConstState) }.

(** ** The monad of the code generator

    A step of the code generator transforms the state and returns a
    value, aborts ([zig_unreachable], [zig_panic], a failed [assert]), or
    ends the process with an exit status. *)
Inductive Result (A : Type) : Type :=
| Ok (a : A) (g : CodeGen)
| Abort
| Exit (status : Z) (g : CodeGen).
Arguments Ok {A} a g.
Arguments Abort {A}.
Arguments Exit {A} status g.

Definition M (A : Type) : Type := CodeGen -> Result A.

Definition ret {A} (a : A) : M A := fun g => Ok a g.

Definition bind {A B} (c : M A) (k : A -> M B) : M B :=
  fun g => match c g with
           | Ok a g' => k a g'
           | Abort => Abort
           | Exit status g' => Exit status g'
           end.

Notation "x <- c ;; k" := (bind c (fun x => k))
  (at level 100, c at next level, right associativity).
Notation "c ;; k" := (bind c (fun _ => k))
  (at level 100, right associativity).

Definition zig_unreachable {A} : M A := fun _ => Abort.
Definition zig_panic {A} : M A := fun _ => Abort.
Definition assert (b : bool) : M unit :=
  fun g => if b then Ok tt g else Abort.
Definition exit {A} (status : Z) : M A := fun g => Exit status g.

Definition get : M CodeGen := fun g => Ok g g.
Definition modify (f : CodeGen -> CodeGen) : M unit := fun g => Ok tt (f g).

Definition with_builder (f : Builder -> Builder) (g : CodeGen) : CodeGen :=
  mkCodeGen (config g) (f (builder g)) (consts g) (handles g)
            (intrinsics g) (cur g) (stderr g).
Definition with_consts (f : ConstState -> ConstState) (g : CodeGen) : CodeGen :=
  mkCodeGen (config g) (builder g) (f (consts g)) (handles g)
            (intrinsics g) (cur g) (stderr g).
Definition with_handles (f : IrHandles -> IrHandles) (g : CodeGen) : CodeGen :=
  mkCodeGen (config g) (builder g) (consts g) (f (handles g))
            (intrinsics g) (cur g) (stderr g).
Definition with_intrinsics (f : Intrinsics -> Intrinsics) (g : CodeGen)
  : CodeGen :=
  mkCodeGen (config g) (builder g) (consts g) (handles g)
            (f (intrinsics g)) (cur g) (stderr g).
Definition with_cur (f : CurFn -> CurFn) (g : CodeGen) : CodeGen :=
  mkCodeGen (config g) (builder g) (consts g) (handles g)
            (intrinsics g) (f (cur g)) (stderr g).
Definition with_config (f : CodeGenConfig -> CodeGenConfig) (g : CodeGen)
  : CodeGen :=
  mkCodeGen (f (config g)) (builder g) (consts g) (handles g)
            (intrinsics g) (cur g) (stderr g).

(** [fprintf(stderr, ...)] *)
Definition fprintf_stderr (msg : string) : M unit :=
  modify (fun g => mkCodeGen (config g) (builder g) (consts g) (handles g)
                             (intrinsics g) (cur g) (stderr g +:+ msg)).

(** Storing a possibly null handle in a field of the object [k]. *)
Definition store_handle {A} (k : nat) (v : option A) (m : gmap nat A)
  : gmap nat A :=
  match v with Some x => <[k := x]> m | None => delete k m end.

(** ** The operations of the backend library *)

Definition emit (op : LLVMOp) (b : Builder) : Builder :=
  mkBuilder (insert_block b) (next_value b) (next_block b) (emitted b ++ [op]).

(** [LLVMAppendBasicBlock(fn, name)]: a new, empty block at the end of
    the function. *)
Definition LLVMAppendBasicBlock (fn : LLVMValueRef) (name : string)
  : M LLVMBasicBlockRef :=
  fun g =>
    let bb := next_block (builder g) in
    Ok (Some bb)
       (with_builder
          (fun b => mkBuilder (insert_block b) (next_value b) (S bb)
                              (emitted b ++ [OpAppendBasicBlock fn name bb]))
          g).

Definition LLVMPositionBuilderAtEnd (bb : LLVMBasicBlockRef) : M unit :=
  modify (with_builder
            (fun b => mkBuilder bb (next_value b) (next_block b) (emitted b))).

Definition LLVMGetInsertBlock : M LLVMBasicBlockRef :=
  fun g => Ok (insert_block (builder g)) g.

(** One call of an instruction builder: the instruction is placed at the
    end of the block the builder is positioned at and its handle is
    returned. *)
Definition build (instr : LLVMInstr) : M LLVMValueRef :=
  fun g =>
    let h := next_value (builder g) in
    Ok (Some (LLVMInstrResult h))
       (with_builder
          (fun b => mkBuilder (insert_block b) (S h) (next_block b)
                              (emitted b ++ [OpBuild (insert_block b) h instr]))
          g).

Definition LLVMAddIncoming (phi : LLVMValueRef) (values : list LLVMValueRef)
    (blocks : list LLVMBasicBlockRef) (count : nat) : M unit :=
  modify (with_builder (emit (OpAddIncoming phi values blocks count))).

Definition ZigLLVMInsertDeclareAtEnd (storage : LLVMValueRef)
    (var_info : option nat) (debug_loc : ZigLLVMDILocation)
    (block : LLVMBasicBlockRef) : M unit :=
  modify (with_builder
            (emit (OpInsertDeclareAtEnd storage var_info debug_loc block))).

Definition LLVMSetAlignment (v : LLVMValueRef) (bytes : nat) : M unit :=
  modify (with_builder (emit (OpSetAlignment v bytes))).

(** Module-level objects. *)
Definition with_module (f : Module -> Module) (c : ConstState) : ConstState :=
  mkConstState (f (module c)) (const_llvm_value c) (const_llvm_global c)
               (fn_llvm_values c).

Definition add_function (name : string) (ty : LLVMTypeRef) (m : Module)
  : Module :=
  mkModule (functions m ++ [mkFunctionDecl name ty LLVMExternalLinkage 0 [] []])
           (globals m).

Definition add_global (ty : LLVMTypeRef) (name : string) (m : Module)
  : Module :=
  mkModule (functions m)
           (globals m ++ [mkGlobal name ty None LLVMExternalLinkage false false]).

Definition alter_global (f : LLVMGlobal -> LLVMGlobal) (i : nat) (m : Module)
  : Module :=
  mkModule (functions m) (alter f i (globals m)).

Definition alter_function (f : LLVMFunctionDecl -> LLVMFunctionDecl)
    (name : string) (m : Module) : Module :=
  mkModule (map (fun d => if String.eqb (function_name d) name then f d else d)
                (functions m))
           (globals m).

Definition LLVMAddFunction (name : string) (ty : LLVMTypeRef)
  : M LLVMValueRef :=
  fun g => Ok (Some (LLVMFunction name))
              (with_consts (with_module (add_function name ty)) g).

Definition LLVMDeleteFunction (fn : LLVMValueRef) : M unit :=
  match fn with
  | Some (LLVMFunction name) =>
      modify (with_consts (with_module (fun m =>
        mkModule (filter (fun d => function_name d <> name) (functions m))
                 (globals m))))
  | _ => zig_unreachable
  end.

Definition LLVMAddGlobal (ty : LLVMTypeRef) (name : string) : M LLVMValueRef :=
  fun g => Ok (Some (LLVMGlobalVar (length (globals (module (consts g))))))
              (with_consts (with_module (add_global ty name)) g).

Definition set_initializer (init : LLVMValueRef) (gl : LLVMGlobal) :=
  mkGlobal (global_name gl) (global_type gl) init (global_linkage gl)
           (global_constant gl) (global_unnamed_addr gl).
Definition set_global_linkage (l : LLVMLinkage) (gl : LLVMGlobal) :=
  mkGlobal (global_name gl) (global_type gl) (global_initializer gl) l
           (global_constant gl) (global_unnamed_addr gl).
Definition set_global_constant (c : bool) (gl : LLVMGlobal) :=
  mkGlobal (global_name gl) (global_type gl) (global_initializer gl)
           (global_linkage gl) c (global_unnamed_addr gl).
Definition set_unnamed_addr (u : bool) (gl : LLVMGlobal) :=
  mkGlobal (global_name gl) (global_type gl) (global_initializer gl)
           (global_linkage gl) (global_constant gl) u.

Definition on_global (f : LLVMGlobal -> LLVMGlobal) (v : LLVMValueRef)
  : M unit :=
  match v with
  | Some (LLVMGlobalVar i) => modify (with_consts (with_module (alter_global f i)))
  | _ => zig_unreachable
  end.

Definition LLVMSetInitializer (v init : LLVMValueRef) : M unit :=
  on_global (set_initializer init) v.
Definition LLVMSetGlobalConstant (v : LLVMValueRef) (c : bool) : M unit :=
  on_global (set_global_constant c) v.
Definition LLVMSetUnnamedAddr (v : LLVMValueRef) (u : bool) : M unit :=
  on_global (set_unnamed_addr u) v.

Definition set_function_linkage (l : LLVMLinkage) (d : LLVMFunctionDecl) :=
  mkFunctionDecl (function_name d) (function_type d) l (function_call_conv d)
                 (function_attrs d) (function_index_attrs d).
Definition set_function_call_conv (cc : nat) (d : LLVMFunctionDecl) :=
  mkFunctionDecl (function_name d) (function_type d) (function_linkage d) cc
                 (function_attrs d) (function_index_attrs d).
Definition add_function_attr (a : LLVMAttribute) (d : LLVMFunctionDecl) :=
  mkFunctionDecl (function_name d) (function_type d) (function_linkage d)
                 (function_call_conv d) (function_attrs d ++ [a])
                 (function_index_attrs d).
Definition add_index_attr (i : nat) (a : LLVMAttribute) (d : LLVMFunctionDecl) :=
  mkFunctionDecl (function_name d) (function_type d) (function_linkage d)
                 (function_call_conv d) (function_attrs d)
                 (function_index_attrs d ++ [(i, a)]).

Definition on_function (f : LLVMFunctionDecl -> LLVMFunctionDecl)
    (v : LLVMValueRef) : M unit :=
  match v with
  | Some (LLVMFunction name) =>
      modify (with_consts (with_module (alter_function f name)))
  | _ => zig_unreachable
  end.

(** [LLVMSetLinkage] applies to globals and to functions. *)
Definition LLVMSetLinkage (v : LLVMValueRef) (l : LLVMLinkage) : M unit :=
  match v with
  | Some (LLVMFunction _) => on_function (set_function_linkage l) v
  | _ => on_global (set_global_linkage l) v
  end.
Definition LLVMSetFunctionCallConv (v : LLVMValueRef) (cc : nat) : M unit :=
  on_function (set_function_call_conv cc) v.
Definition LLVMAddFunctionAttr (v : LLVMValueRef) (a : LLVMAttribute) : M unit :=
  on_function (add_function_attr a) v.
Definition ZigLLVMAddFunctionAttr (v : LLVMValueRef) (key : string)
    (value : option string) : M unit :=
  on_function (add_function_attr (ZigLLVMStringAttr key value)) v.
Definition ZigLLVMAddNonNullAttr (v : LLVMValueRef) (i : nat) : M unit :=
  on_function (add_index_attr i ZigLLVMNonNullAttr) v.
(** [LLVMAddAttribute(LLVMGetParam(fn, i), a)] *)
Definition LLVMAddAttribute (arg : LLVMValueRef) (a : LLVMAttribute) : M unit :=
  match arg with
  | Some (LLVMGetParam fn i) => on_function (add_index_attr (S i) a) (Some fn)
  | _ => zig_unreachable
  end.

Definition LLVMGetTypeKind_is_pointer (ty : LLVMTypeRef) : bool :=
  match ty with LLVMPointerType _ _ => true | _ => false end.

(** ** codegen.cpp *)

(** *** Creation of the code generator *)

Definition buf_create_from_str (str : string) : string := str.

(** The fields of the generator that [codegen_create] and
    [init_darwin_native] assign. *)
Definition set_versions_min (osx ios : option string) (g : CodeGenConfig)
  : CodeGenConfig :=
  mkConfig (is_release_build g) (is_test_build g) (strip_debug_symbols g)
    (g_generate_error_name_table g) (error_decls g) (errors g)
    (test_fn_count g) (global_vars g) (fn_protos g) (fn_defs g) (main_fn g)
    (entry_usize g) (entry_isize g) (entry_u8 g) (entry_f64 g) (entry_i32 g)
    (pointer_size_bytes g) (target_data_ref g) (is_native_target g)
    (zig_target g) osx ios.

Definition set_target (native : bool) (t : ZigTarget) (g : CodeGenConfig)
  : CodeGenConfig :=
  mkConfig (is_release_build g) (is_test_build g) (strip_debug_symbols g)
    (g_generate_error_name_table g) (error_decls g) (errors g)
    (test_fn_count g) (global_vars g) (fn_protos g) (fn_defs g) (main_fn g)
    (entry_usize g) (entry_isize g) (entry_u8 g) (entry_f64 g) (entry_i32 g)
    (pointer_size_bytes g) (target_data_ref g) native t
    (mmacosx_version_min g) (mios_version_min g).

Definition init_darwin_native (getenv : Environ) (g : CodeGenConfig)
  : CodeGenConfig :=
  let osx_target := getenv "MACOSX_DEPLOYMENT_TARGET" in
  let ios_target := getenv "IPHONEOS_DEPLOYMENT_TARGET" in
  (* Allow conflicts among OSX and iOS, but choose the default platform. *)
  let '(osx_target, ios_target) :=
    match osx_target, ios_target with
    | Some _, Some _ =>
        match arch (zig_target g) with
        | ZigLLVM_arm | ZigLLVM_aarch64 | ZigLLVM_thumb => (None, ios_target)
        | _ => (osx_target, None)
        end
    | _, _ => (osx_target, ios_target)
    end in
  match osx_target with
  | Some osx =>
      set_versions_min (Some (buf_create_from_str osx)) (mios_version_min g) g
  | None =>
      match ios_target with
      | Some ios =>
          set_versions_min (mmacosx_version_min g)
                           (Some (buf_create_from_str ios)) g
      | None => g
      end
  end.

(** [codegen_create]: the fields it sets that the modelled code reads.
    The freshly allocated generator is zeroed; [blank] carries the fields
    that later passes fill in (types, target data), which [codegen_create]
    does not touch.  [native] is what [get_native_target] reports. *)
Definition codegen_create (getenv : Environ) (native : ZigTarget)
    (target : option ZigTarget) (blank : CodeGenConfig) : CodeGenConfig :=
  let g :=
    mkConfig false false (strip_debug_symbols blank) false
      [None]                          (* the error.Ok value *)
      [] 0 [] [] [] None
      (entry_usize blank) (entry_isize blank) (entry_u8 blank)
      (entry_f64 blank) (entry_i32 blank) (pointer_size_bytes blank)
      (target_data_ref blank) false (zig_target blank) None None in
  match target with
  | Some t =>
      (* cross compiling *)
      set_target false t g
  | None =>
      (* native compilation *)
      let g := set_target true native g in
      match os (zig_target g) with
      | ZigLLVM_Darwin | ZigLLVM_MacOSX | ZigLLVM_IOS =>
          init_darwin_native getenv g
      | _ => g
      end
  end.

(** *** Safety checks *)

Fixpoint safety_walk (scope : Scope) : bool :=
  match scope with
  | [] => true
  | ScopeIdBlock _ safety_set_node safety_off :: parent =>
      match safety_set_node with
      | Some _ => negb safety_off
      | None => safety_walk parent
      end
  | ScopeIdDecls _ safety_set_node safety_off _ :: parent =>
      match safety_set_node with
      | Some _ => negb safety_off
      | None => safety_walk parent
      end
  | _ :: parent => safety_walk parent
  end.

Definition ir_want_debug_safety (g : CodeGen) (instruction : IrInstruction)
  : bool :=
  if is_release_build (config g) then false
  else safety_walk (scope instruction).

Definition gen_debug_safety_crash : M unit :=
  g <- get ;;
  build (LLVMBuildCall (trap_fn_val (intrinsics g)) []) ;;
  build LLVMBuildUnreachable ;;
  ret tt.

Definition add_bounds_check (target_val : LLVMValueRef)
    (lower_pred : LLVMIntPredicate) (lower_value : LLVMValueRef)
    (upper_pred : LLVMIntPredicate) (upper_value : LLVMValueRef) : M unit :=
  match lower_value, upper_value with
  | None, None => ret tt
  | _, _ =>
      let '(lower_pred, lower_value, upper_value) :=
        match upper_value, lower_value with
        | Some _, None => (upper_pred, upper_value, None)
        | _, _ => (lower_pred, lower_value, upper_value)
        end in
      g <- get ;;
      bounds_check_fail_block <-
        LLVMAppendBasicBlock (cur_fn_val (cur g)) "BoundsCheckFail" ;;
      ok_block <- LLVMAppendBasicBlock (cur_fn_val (cur g)) "BoundsCheckOk" ;;
      lower_ok_block <-
        match upper_value with
        | Some _ => LLVMAppendBasicBlock (cur_fn_val (cur g)) "FirstBoundsCheckOk"
        | None => ret ok_block
        end ;;
      lower_ok_val <- build (LLVMBuildICmp lower_pred target_val lower_value) ;;
      build (LLVMBuildCondBr lower_ok_val lower_ok_block
                             bounds_check_fail_block) ;;
      LLVMPositionBuilderAtEnd bounds_check_fail_block ;;
      gen_debug_safety_crash ;;
      match upper_value with
      | Some _ =>
          LLVMPositionBuilderAtEnd lower_ok_block ;;
          upper_ok_val <-
            build (LLVMBuildICmp upper_pred target_val upper_value) ;;
          build (LLVMBuildCondBr upper_ok_val ok_block
                                 bounds_check_fail_block) ;;
          ret tt
      | None => ret tt
      end ;;
      LLVMPositionBuilderAtEnd ok_block
  end.

(** *** Overflow-checked arithmetic *)

Inductive AddSubMul := AddSubMulAdd | AddSubMulSub | AddSubMulMul.

Definition AddSubMul_index (op : AddSubMul) : nat :=
  match op with AddSubMulAdd => 0 | AddSubMulSub => 1 | AddSubMulMul => 2 end.

Definition bits_index (size_in_bits : nat) : M nat :=
  match size_in_bits with
  | 8 => ret 0
  | 16 => ret 1
  | 32 => ret 2
  | 64 => ret 3
  | _ => zig_unreachable
  end.

(** [%zu] of [printf] *)
Definition zu (n : nat) : string := NilZero.string_of_uint (Nat.to_uint n).

Definition is_Int (type_entry : TypeTableEntry) : bool :=
  match id type_entry with TypeTableEntryIdInt => true | _ => false end.

(** The source also asserts [LLVMGetIntrinsicID(fn_val)]: the name built
    here is always that of an intrinsic of the backend library. *)
Definition get_arithmetic_overflow_fn (type_entry : TypeTableEntry)
    (signed_name unsigned_name : string) : M LLVMValueRef :=
  assert (is_Int type_entry) ;;
  let signed_str :=
    if integral_is_signed type_entry then signed_name else unsigned_name in
  let llvm_name :=
    "llvm." +:+ signed_str +:+ ".with.overflow.i"
            +:+ zu (integral_bit_count type_entry) in
  let return_elem_types := [type_ref type_entry; LLVMInt1Type] in
  let param_types := [type_ref type_entry; type_ref type_entry] in
  let return_struct_type := LLVMStructType return_elem_types false in
  let fn_type := LLVMFunctionType return_struct_type param_types false in
  LLVMAddFunction llvm_name fn_type.

Definition set_int_overflow_fn (k : nat * nat * nat) (v : LLVMValueRef)
    (i : Intrinsics) : Intrinsics :=
  mkIntrinsics (trap_fn_val i) (memcpy_fn_val i) (memset_fn_val i)
    (match v with
     | Some x => <[k := x]> (int_overflow_fns i)
     | None => delete k (int_overflow_fns i)
     end)
    (err_name_table i) (builtin_fn_table i).

Definition get_int_overflow_fn (type_entry : TypeTableEntry)
    (add_sub_mul : AddSubMul) : M LLVMValueRef :=
  assert (is_Int type_entry) ;;
  let index0 := if integral_is_signed type_entry then 0 else 1 in
  let index1 := AddSubMul_index add_sub_mul in
  index2 <- bits_index (integral_bit_count type_entry) ;;
  g <- get ;;
  match int_overflow_fns (intrinsics g) !! (index0, index1, index2) with
  | Some fn => ret (Some fn)
  | None =>
      fn <- match add_sub_mul with
            | AddSubMulAdd => get_arithmetic_overflow_fn type_entry "sadd" "uadd"
            | AddSubMulSub => get_arithmetic_overflow_fn type_entry "ssub" "usub"
            | AddSubMulMul => get_arithmetic_overflow_fn type_entry "smul" "umul"
            end ;;
      modify (with_intrinsics
                (set_int_overflow_fn (index0, index1, index2) fn)) ;;
      ret fn
  end.

Definition gen_overflow_op (type_entry : TypeTableEntry) (op : AddSubMul)
    (val1 val2 : LLVMValueRef) : M LLVMValueRef :=
  fn_val <- get_int_overflow_fn type_entry op ;;
  let params := [val1; val2] in
  result_struct <- build (LLVMBuildCall fn_val params) ;;
  result <- build (LLVMBuildExtractValue result_struct 0) ;;
  overflow_bit <- build (LLVMBuildExtractValue result_struct 1) ;;
  g <- get ;;
  fail_block <- LLVMAppendBasicBlock (cur_fn_val (cur g)) "OverflowFail" ;;
  ok_block <- LLVMAppendBasicBlock (cur_fn_val (cur g)) "OverflowOk" ;;
  build (LLVMBuildCondBr overflow_bit fail_block ok_block) ;;
  LLVMPositionBuilderAtEnd fail_block ;;
  gen_debug_safety_crash ;;
  LLVMPositionBuilderAtEnd ok_block ;;
  ret result.

Definition gen_overflow_shl_op (type_entry : TypeTableEntry)
    (val1 val2 : LLVMValueRef) : M LLVMValueRef :=
  assert (is_Int type_entry) ;;
  result <- build (LLVMBuildBinary Shl val1 val2) ;;
  orig_val <-
    (if integral_is_signed type_entry
     then build (LLVMBuildBinary AShr result val2)
     else build (LLVMBuildBinary LShr result val2)) ;;
  ok_bit <- build (LLVMBuildICmp LLVMIntEQ val1 orig_val) ;;
  g <- get ;;
  ok_block <- LLVMAppendBasicBlock (cur_fn_val (cur g)) "OverflowOk" ;;
  fail_block <- LLVMAppendBasicBlock (cur_fn_val (cur g)) "OverflowFail" ;;
  build (LLVMBuildCondBr ok_bit ok_block fail_block) ;;
  LLVMPositionBuilderAtEnd fail_block ;;
  gen_debug_safety_crash ;;
  LLVMPositionBuilderAtEnd ok_block ;;
  ret result.

Definition gen_div (want_debug_safety : bool) (val1 val2 : LLVMValueRef)
    (type_entry : TypeTableEntry) (exact : bool) : M LLVMValueRef :=
  (if want_debug_safety then
     let zero := Some (LLVMConstNull (type_ref type_entry)) in
     is_zero_bit <-
       match id type_entry with
       | TypeTableEntryIdInt => build (LLVMBuildICmp LLVMIntEQ val2 zero)
       | TypeTableEntryIdFloat => build (LLVMBuildFCmp LLVMRealOEQ val2 zero)
       | _ => zig_unreachable
       end ;;
     g <- get ;;
     ok_block <- LLVMAppendBasicBlock (cur_fn_val (cur g)) "DivZeroOk" ;;
     fail_block <- LLVMAppendBasicBlock (cur_fn_val (cur g)) "DivZeroFail" ;;
     build (LLVMBuildCondBr is_zero_bit fail_block ok_block) ;;
     LLVMPositionBuilderAtEnd fail_block ;;
     gen_debug_safety_crash ;;
     LLVMPositionBuilderAtEnd ok_block
   else ret tt) ;;
  match id type_entry with
  | TypeTableEntryIdFloat =>
      assert (negb exact) ;;
      build (LLVMBuildBinary FDiv val1 val2)
  | _ =>
      assert (is_Int type_entry) ;;
      if exact then
        (if want_debug_safety then
           remainder_val <-
             (if integral_is_signed type_entry
              then build (LLVMBuildBinary SRem val1 val2)
              else build (LLVMBuildBinary URem val1 val2)) ;;
           let zero := Some (LLVMConstNull (type_ref type_entry)) in
           ok_bit <- build (LLVMBuildICmp LLVMIntEQ remainder_val zero) ;;
           g <- get ;;
           ok_block <- LLVMAppendBasicBlock (cur_fn_val (cur g)) "DivExactOk" ;;
           fail_block <-
             LLVMAppendBasicBlock (cur_fn_val (cur g)) "DivExactFail" ;;
           build (LLVMBuildCondBr ok_bit ok_block fail_block) ;;
           LLVMPositionBuilderAtEnd fail_block ;;
           gen_debug_safety_crash ;;
           LLVMPositionBuilderAtEnd ok_block
         else ret tt) ;;
        (if integral_is_signed type_entry
         then build (LLVMBuildBinary ExactSDiv val1 val2)
         else build (LLVMBuildBinary ExactUDiv val1 val2))
      else
        (if integral_is_signed type_entry
         then build (LLVMBuildBinary SDiv val1 val2)
         else build (LLVMBuildBinary UDiv val1 val2))
  end.

Definition cmp_op_to_int_predicate (cmp_op : IrBinOp) (is_signed : bool)
  : M LLVMIntPredicate :=
  match cmp_op with
  | IrBinOpCmpEq => ret LLVMIntEQ
  | IrBinOpCmpNotEq => ret LLVMIntNE
  | IrBinOpCmpLessThan => ret (if is_signed then LLVMIntSLT else LLVMIntULT)
  | IrBinOpCmpGreaterThan => ret (if is_signed then LLVMIntSGT else LLVMIntUGT)
  | IrBinOpCmpLessOrEq => ret (if is_signed then LLVMIntSLE else LLVMIntULE)
  | IrBinOpCmpGreaterOrEq => ret (if is_signed then LLVMIntSGE else LLVMIntUGE)
  | _ => zig_unreachable
  end.

Definition cmp_op_to_real_predicate (cmp_op : IrBinOp) : M LLVMRealPredicate :=
  match cmp_op with
  | IrBinOpCmpEq => ret LLVMRealOEQ
  | IrBinOpCmpNotEq => ret LLVMRealONE
  | IrBinOpCmpLessThan => ret LLVMRealOLT
  | IrBinOpCmpGreaterThan => ret LLVMRealOGT
  | IrBinOpCmpLessOrEq => ret LLVMRealOLE
  | IrBinOpCmpGreaterOrEq => ret LLVMRealOGE
  | _ => zig_unreachable
  end.

(** *** Handles cached on the program's objects *)

Definition set_instr_llvm_value (k : nat) (v : LLVMValueRef) (h : IrHandles) :=
  mkIrHandles (store_handle k v (instr_llvm_value h)) (instr_tmp_ptr h)
    (bb_llvm_block h) (bb_llvm_exit_block h) (var_value_ref h)
    (var_di_loc_var h).
Definition set_instr_tmp_ptr (k : nat) (v : LLVMValueRef) (h : IrHandles) :=
  mkIrHandles (instr_llvm_value h) (store_handle k v (instr_tmp_ptr h))
    (bb_llvm_block h) (bb_llvm_exit_block h) (var_value_ref h)
    (var_di_loc_var h).
Definition set_bb_llvm_block (k : nat) (v : LLVMBasicBlockRef) (h : IrHandles) :=
  mkIrHandles (instr_llvm_value h) (instr_tmp_ptr h)
    (store_handle k v (bb_llvm_block h)) (bb_llvm_exit_block h)
    (var_value_ref h) (var_di_loc_var h).
Definition set_bb_llvm_exit_block (k : nat) (v : LLVMBasicBlockRef)
    (h : IrHandles) :=
  mkIrHandles (instr_llvm_value h) (instr_tmp_ptr h) (bb_llvm_block h)
    (store_handle k v (bb_llvm_exit_block h)) (var_value_ref h)
    (var_di_loc_var h).
Definition set_var_value_ref (k : nat) (v : LLVMValueRef) (h : IrHandles) :=
  mkIrHandles (instr_llvm_value h) (instr_tmp_ptr h) (bb_llvm_block h)
    (bb_llvm_exit_block h) (store_handle k v (var_value_ref h))
    (var_di_loc_var h).
Definition set_var_di_loc_var (k : nat) (v : option nat) (h : IrHandles) :=
  mkIrHandles (instr_llvm_value h) (instr_tmp_ptr h) (bb_llvm_block h)
    (bb_llvm_exit_block h) (var_value_ref h)
    (store_handle k v (var_di_loc_var h)).

Definition set_const_llvm_value (k : nat) (v : LLVMValueRef) (c : ConstState) :=
  mkConstState (module c) (store_handle k v (const_llvm_value c))
    (const_llvm_global c) (fn_llvm_values c).
Definition set_const_llvm_global (k : nat) (v : LLVMValueRef) (c : ConstState) :=
  mkConstState (module c) (const_llvm_value c)
    (store_handle k v (const_llvm_global c)) (fn_llvm_values c).
Definition set_fn_llvm_value (k : nat) (v : LLVMValueRef) (c : ConstState) :=
  mkConstState (module c) (const_llvm_value c) (const_llvm_global c)
    (store_handle k v (fn_llvm_values c)).

(** [var->value_ref], [bb->llvm_block], ... *)
Definition value_ref (g : CodeGen) (var : VariableTableEntry) : LLVMValueRef :=
  var_value_ref (handles g) !! var_id var.
Definition di_loc_var (g : CodeGen) (var : VariableTableEntry) : option nat :=
  var_di_loc_var (handles g) !! var_id var.
Definition llvm_block (g : CodeGen) (bb : nat) : LLVMBasicBlockRef :=
  bb_llvm_block (handles g) !! bb.
Definition llvm_exit_block (g : CodeGen) (bb : nat) : LLVMBasicBlockRef :=
  bb_llvm_exit_block (handles g) !! bb.
Definition llvm_value (g : CodeGen) (instruction : IrInstruction)
  : LLVMValueRef :=
  instr_llvm_value (handles g) !! debug_id instruction.
Definition tmp_ptr (g : CodeGen) (instruction : IrInstruction) : LLVMValueRef :=
  instr_tmp_ptr (handles g) !! debug_id instruction.
Definition const_val_llvm_value (g : CodeGen) (const_val : ConstExprValue)
  : LLVMValueRef :=
  const_llvm_value (consts g) !! const_id const_val.
Definition const_val_llvm_global (g : CodeGen) (const_val : ConstExprValue)
  : LLVMValueRef :=
  const_llvm_global (consts g) !! const_id const_val.

(** *** Debug scopes *)

(** [get_di_scope] materialises the debug scope of a lexical scope and
    memoises it on the scope; the memo only saves work, so the model
    computes the handle from the chain.  Attaching the subprogram to the
    function it describes is not represented. *)
Fixpoint get_di_scope (scope : Scope) : option ZigLLVMDIScope :=
  match scope with
  | [] => None
  | ScopeIdCImport _ :: _ => None                  (* zig_unreachable *)
  | ScopeIdFnDef _ proto_line :: parent =>
      match parent with
      | [] => None                                 (* assert(scope->parent) *)
      | _ => p ← get_di_scope parent; Some (DISubprogram p (proto_line + 1))
      end
  | ScopeIdDecls _ _ _ has_container_type :: parent =>
      match parent with
      | [] => Some DIFileScope
      | _ => if has_container_type then Some DITypeScope else None
      end
  | ScopeIdBlock src _ _ :: parent
  | ScopeIdDefer src :: parent
  | ScopeIdVarDecl src :: parent
  | ScopeIdLoop src :: parent =>
      match parent with
      | [] => None                                 (* assert(scope->parent) *)
      | _ => p ← get_di_scope parent;
             Some (DILexicalBlock p (line src + 1) (column src + 1))
      end
  end.

Definition lift_option {A} (o : option A) : M A :=
  match o with Some a => ret a | None => zig_unreachable end.

Definition gen_var_debug_decl (var : VariableTableEntry) : M unit :=
  source_node <- lift_option (decl_node var) ;;
  di_scope <- lift_option (get_di_scope (parent_scope var)) ;;
  let debug_loc :=
    ZigLLVMGetDebugLoc (line source_node + 1) (column source_node + 1)
                       di_scope in
  g <- get ;;
  block <- LLVMGetInsertBlock ;;
  ZigLLVMInsertDeclareAtEnd (value_ref g var) (di_loc_var g var) debug_loc block.

Section Lowering.
Context `{Collaborators}.

(** *** Constants *)

Definition gen_const_val_M (type_entry : TypeTableEntry)
    (const_val : ConstExprValue) : M LLVMValueRef :=
  fun g =>
    match gen_const_val type_entry const_val (consts g) with
    | Some (v, c) => Ok v (with_consts (fun _ => c) g)
    | None => Abort
    end.

Definition render_const_val (type_entry : TypeTableEntry)
    (const_val : ConstExprValue) : M unit :=
  g <- get ;;
  match const_val_llvm_value g const_val with
  | None =>
      v <- gen_const_val_M type_entry const_val ;;
      modify (with_consts (set_const_llvm_value (const_id const_val) v))
  | Some _ => ret tt
  end ;;
  g <- get ;;
  match const_val_llvm_global g const_val with
  | Some gl => LLVMSetInitializer (Some gl) (const_val_llvm_value g const_val)
  | None => ret tt
  end.

Definition render_const_val_global (type_entry : TypeTableEntry)
    (const_val : ConstExprValue) : M unit :=
  g <- get ;;
  match const_val_llvm_global g const_val with
  | None =>
      global_value <- LLVMAddGlobal (type_ref type_entry) EmptyString ;;
      LLVMSetLinkage global_value LLVMInternalLinkage ;;
      LLVMSetGlobalConstant global_value true ;;
      LLVMSetUnnamedAddr global_value true ;;
      modify (with_consts
                (set_const_llvm_global (const_id const_val) global_value))
  | Some _ => ret tt
  end ;;
  g <- get ;;
  match const_val_llvm_value g const_val with
  | Some v => LLVMSetInitializer (const_val_llvm_global g const_val) (Some v)
  | None => ret tt
  end.

Definition is_Runtime (s : ConstValSpecial) : bool :=
  match s with ConstValSpecialRuntime => true | _ => false end.

Definition is_nonnull {A} (o : option A) : bool :=
  match o with Some _ => true | None => false end.

(** *** Reading an operand *)

Definition ir_llvm_value (instruction : IrInstruction) : M LLVMValueRef :=
  if negb (type_has_bits (type_entry instruction)) then ret None
  else
    g <- get ;;
    match llvm_value g instruction with
    | None =>
        assert (negb (is_Runtime (special (static_value instruction)))) ;;
        render_const_val (type_entry instruction) (static_value instruction) ;;
        (if handle_is_ptr (type_entry instruction) then
           render_const_val_global (type_entry instruction)
                                   (static_value instruction) ;;
           g <- get ;;
           modify (with_handles
                     (set_instr_llvm_value (debug_id instruction)
                        (const_val_llvm_global g (static_value instruction))))
         else
           g <- get ;;
           modify (with_handles
                     (set_instr_llvm_value (debug_id instruction)
                        (const_val_llvm_value g (static_value instruction))))) ;;
        g <- get ;;
        assert (is_nonnull (llvm_value g instruction))
    | Some _ => ret tt
    end ;;
    g <- get ;;
    if negb (is_Runtime (special (static_value instruction))) then
      match id (type_entry instruction) with
      | TypeTableEntryIdPointer =>
          build (LLVMBuildLoad
                   (const_val_llvm_global g (static_value instruction)))
      | _ => ret (llvm_value g instruction)
      end
    else ret (llvm_value g instruction).

(** *** Assignment *)

Definition LLVMTypeOf_ref (v : LLVMValueRef) : M LLVMTypeRef :=
  match v with Some x => ret (LLVMTypeOf x) | None => zig_unreachable end.

Definition gen_struct_memcpy (src dest : LLVMValueRef)
    (type_entry : TypeTableEntry) : M LLVMValueRef :=
  assert (handle_is_ptr type_entry) ;;
  src_type <- LLVMTypeOf_ref src ;;
  assert (LLVMGetTypeKind_is_pointer src_type) ;;
  dest_type <- LLVMTypeOf_ref dest ;;
  assert (LLVMGetTypeKind_is_pointer dest_type) ;;
  let ptr_u8 := LLVMPointerType LLVMInt8Type 0 in
  src_ptr <- build (LLVMBuildBitCast src ptr_u8) ;;
  dest_ptr <- build (LLVMBuildBitCast dest ptr_u8) ;;
  g <- get ;;
  let usize := entry_usize (config g) in
  let size_bytes :=
    LLVMStoreSizeOfType (target_data_ref (config g)) (type_ref type_entry) in
  let align_bytes := get_memcpy_align type_entry in
  assert (0 <? size_bytes)%N ;;
  assert (0 <? align_bytes)%N ;;
  let params := [
    dest_ptr;
    src_ptr;
    Some (LLVMConstInt (type_ref usize) (Z.of_N size_bytes) false);
    Some (LLVMConstInt LLVMInt32Type (Z.of_N align_bytes) false);
    Some (LLVMConstNull LLVMInt1Type)       (* is volatile *)
  ] in
  build (LLVMBuildCall (memcpy_fn_val (intrinsics g)) params).

Definition gen_assign_raw (target_ref value : LLVMValueRef)
    (op1_type op2_type : TypeTableEntry) : M LLVMValueRef :=
  if negb (type_has_bits op1_type) then ret None
  else if handle_is_ptr op1_type then
    assert (Nat.eqb (type_id op1_type) (type_id op2_type)) ;;
    gen_struct_memcpy value target_ref op1_type
  else
    build (LLVMBuildStore value target_ref) ;;
    ret None.

(** *** Lowering of instructions *)

Definition ir_render_return (return_instruction : IrInstructionReturn)
  : M LLVMValueRef :=
  value <- ir_llvm_value (return_value return_instruction) ;;
  g <- get ;;
  cur_fn <- lift_option (cur_fn (cur g)) ;;
  let return_type := return_type (fn_type cur_fn) in
  let is_extern := is_extern (fn_type cur_fn) in
  (if handle_is_ptr return_type then
     if is_extern then
       by_val_value <- build (LLVMBuildLoad value) ;;
       build (LLVMBuildRet by_val_value)
     else
       assert (is_nonnull (cur_ret_ptr (cur g))) ;;
       gen_assign_raw (cur_ret_ptr (cur g)) value return_type
                      (type_entry (return_value return_instruction)) ;;
       build LLVMBuildRetVoid
   else build (LLVMBuildRet value)) ;;
  ret None.

Definition ir_render_bin_op (bin_op_instruction : IrInstructionBinOp)
  : M LLVMValueRef :=
  let op_id := op_id bin_op_instruction in
  let op1 := op1 bin_op_instruction in
  let op2 := op2 bin_op_instruction in
  assert (Nat.eqb (type_id (type_entry op1)) (type_id (type_entry op2))) ;;
  g <- get ;;
  let want_debug_safety :=
    safety_check_on bin_op_instruction &&
    ir_want_debug_safety g (bin_op_base bin_op_instruction) in
  op1_value <- ir_llvm_value op1 ;;
  op2_value <- ir_llvm_value op2 ;;
  let is_signed := integral_is_signed (type_entry op1) in
  match op_id with
  | IrBinOpInvalid | IrBinOpArrayCat | IrBinOpArrayMult => zig_unreachable
  | IrBinOpBoolOr => build (LLVMBuildBinary Or op1_value op2_value)
  | IrBinOpBoolAnd => build (LLVMBuildBinary And op1_value op2_value)
  | IrBinOpCmpEq | IrBinOpCmpNotEq | IrBinOpCmpLessThan
  | IrBinOpCmpGreaterThan | IrBinOpCmpLessOrEq | IrBinOpCmpGreaterOrEq =>
      match id (type_entry op1) with
      | TypeTableEntryIdFloat =>
          pred <- cmp_op_to_real_predicate op_id ;;
          build (LLVMBuildFCmp pred op1_value op2_value)
      | TypeTableEntryIdInt =>
          pred <- cmp_op_to_int_predicate op_id is_signed ;;
          build (LLVMBuildICmp pred op1_value op2_value)
      | TypeTableEntryIdEnum =>
          match enumeration_gen_field_count (type_entry op1) with
          | 0 =>
              pred <- cmp_op_to_int_predicate op_id false ;;
              build (LLVMBuildICmp pred op1_value op2_value)
          | _ => zig_unreachable
          end
      | TypeTableEntryIdPureError | TypeTableEntryIdPointer
      | TypeTableEntryIdBool =>
          pred <- cmp_op_to_int_predicate op_id false ;;
          build (LLVMBuildICmp pred op1_value op2_value)
      | _ => zig_unreachable
      end
  | IrBinOpAdd | IrBinOpAddWrap =>
      match id (type_entry op1) with
      | TypeTableEntryIdFloat => build (LLVMBuildBinary FAdd op1_value op2_value)
      | TypeTableEntryIdInt =>
          let is_wrapping :=
            match op_id with IrBinOpAddWrap => true | _ => false end in
          if is_wrapping then build (LLVMBuildBinary Add op1_value op2_value)
          else if want_debug_safety then
            gen_overflow_op (type_entry op1) AddSubMulAdd op1_value op2_value
          else if is_signed then
            build (LLVMBuildBinary NSWAdd op1_value op2_value)
          else build (LLVMBuildBinary NUWAdd op1_value op2_value)
      | _ => zig_unreachable
      end
  | IrBinOpBinOr => build (LLVMBuildBinary Or op1_value op2_value)
  | IrBinOpBinXor => build (LLVMBuildBinary Xor op1_value op2_value)
  | IrBinOpBinAnd => build (LLVMBuildBinary And op1_value op2_value)
  | IrBinOpBitShiftLeft | IrBinOpBitShiftLeftWrap =>
      assert (is_Int (type_entry op1)) ;;
      let is_wrapping :=
        match op_id with IrBinOpBitShiftLeftWrap => true | _ => false end in
      if is_wrapping then build (LLVMBuildBinary Shl op1_value op2_value)
      else if want_debug_safety then
        gen_overflow_shl_op (type_entry op1) op1_value op2_value
      else if is_signed then
        build (LLVMBuildBinary NSWShl op1_value op2_value)
      else build (LLVMBuildBinary NUWShl op1_value op2_value)
  | IrBinOpBitShiftRight =>
      assert (is_Int (type_entry op1)) ;;
      if is_signed then build (LLVMBuildBinary AShr op1_value op2_value)
      else build (LLVMBuildBinary LShr op1_value op2_value)
  | IrBinOpSub | IrBinOpSubWrap =>
      match id (type_entry op1) with
      | TypeTableEntryIdFloat => build (LLVMBuildBinary FSub op1_value op2_value)
      | TypeTableEntryIdInt =>
          let is_wrapping :=
            match op_id with IrBinOpSubWrap => true | _ => false end in
          if is_wrapping then build (LLVMBuildBinary Sub op1_value op2_value)
          else if want_debug_safety then
            gen_overflow_op (type_entry op1) AddSubMulSub op1_value op2_value
          else if is_signed then
            build (LLVMBuildBinary NSWSub op1_value op2_value)
          else build (LLVMBuildBinary NUWSub op1_value op2_value)
      | _ => zig_unreachable
      end
  | IrBinOpMult | IrBinOpMultWrap =>
      match id (type_entry op1) with
      | TypeTableEntryIdFloat => build (LLVMBuildBinary FMul op1_value op2_value)
      | TypeTableEntryIdInt =>
          let is_wrapping :=
            match op_id with IrBinOpMultWrap => true | _ => false end in
          if is_wrapping then build (LLVMBuildBinary Mul op1_value op2_value)
          else if want_debug_safety then
            gen_overflow_op (type_entry op1) AddSubMulMul op1_value op2_value
          else if is_signed then
            build (LLVMBuildBinary NSWMul op1_value op2_value)
          else build (LLVMBuildBinary NUWMul op1_value op2_value)
      | _ => zig_unreachable
      end
  | IrBinOpDiv =>
      gen_div want_debug_safety op1_value op2_value (type_entry op1) false
  | IrBinOpMod =>
      match id (type_entry op1) with
      | TypeTableEntryIdFloat => build (LLVMBuildBinary FRem op1_value op2_value)
      | _ =>
          assert (is_Int (type_entry op1)) ;;
          if is_signed then build (LLVMBuildBinary SRem op1_value op2_value)
          else build (LLVMBuildBinary URem op1_value op2_value)
      end
  end.

Definition ir_render_unreachable (unreachable_instruction : IrInstruction)
  : M LLVMValueRef :=
  g <- get ;;
  (if ir_want_debug_safety g unreachable_instruction
      || is_test_build (config g)
   then gen_debug_safety_crash
   else build LLVMBuildUnreachable ;; ret tt) ;;
  ret None.

Definition ir_render_cond_br (cond_br_instruction : IrInstructionCondBr)
  : M LLVMValueRef :=
  cond <- ir_llvm_value (condition cond_br_instruction) ;;
  g <- get ;;
  build (LLVMBuildCondBr cond
           (llvm_block g (then_block cond_br_instruction))
           (llvm_block g (else_block cond_br_instruction))) ;;
  ret None.

Definition ir_render_br (br_instruction : IrInstructionBr) : M LLVMValueRef :=
  g <- get ;;
  build (LLVMBuildBr (llvm_block g (dest_block br_instruction))) ;;
  ret None.

Definition ir_render_decl_var (decl_var_instruction : IrInstructionDeclVar)
  : M LLVMValueRef :=
  let var := decl_var decl_var_instruction in
  if negb (type_has_bits (var_type var)) then ret None
  else if Nat.eqb (var_ref_count var) 0 then ret None
  else
    let init_value := init_value decl_var_instruction in
    let const_val := static_value init_value in
    let have_init_expr :=
      match special const_val with
      | ConstValSpecialRuntime | ConstValSpecialStatic => true
      | _ => false
      end in
    let want_zeroes :=
      match special const_val with
      | ConstValSpecialZeroes => true
      | _ => false
      end in
    (if have_init_expr then
       value <- ir_llvm_value init_value ;;
       g <- get ;;
       gen_assign_raw (value_ref g var) value (var_type var)
                      (type_entry init_value) ;;
       ret tt
     else
       let ignore_uninit := false in
       (* handle runtime stack allocation *)
       g <- get ;;
       let want_safe :=
         ir_want_debug_safety g (decl_var_base decl_var_instruction) in
       if negb ignore_uninit && (want_safe || want_zeroes) then
         let usize := entry_usize (config g) in
         let size_bytes :=
           LLVMStoreSizeOfType (target_data_ref (config g))
                               (type_ref (var_type var)) in
         let align_bytes := get_memcpy_align (var_type var) in
         (* memset uninitialized memory to 0xa *)
         let ptr_u8 := LLVMPointerType LLVMInt8Type 0 in
         let fill_char :=
           Some (LLVMConstInt LLVMInt8Type
                   (if want_zeroes then 0x00 else 0xaa)%Z false) in
         dest_ptr <- build (LLVMBuildBitCast (value_ref g var) ptr_u8) ;;
         let byte_count :=
           Some (LLVMConstInt (type_ref usize) (Z.of_N size_bytes) false) in
         let align_in_bytes :=
           Some (LLVMConstInt LLVMInt32Type (Z.of_N align_bytes) false) in
         let params := [
           dest_ptr;
           fill_char;
           byte_count;
           align_in_bytes;
           Some (LLVMConstNull LLVMInt1Type)   (* is volatile *)
         ] in
         build (LLVMBuildCall (memset_fn_val (intrinsics g)) params) ;;
         ret tt
       else ret tt) ;;
    gen_var_debug_decl var ;;
    ret None.

(** The loop of [ir_render_phi] over the [incoming_count] entries of the
    two arrays; reading past the end of an array is an abort. *)
Fixpoint phi_incoming (count : nat) (values : list IrInstruction)
    (blocks : list nat) : M (list LLVMValueRef * list LLVMBasicBlockRef) :=
  match count with
  | 0 => ret ([], [])
  | S count' =>
      match values, blocks with
      | value :: values', block :: blocks' =>
          incoming_value <- ir_llvm_value value ;;
          g <- get ;;
          let incoming_block := llvm_exit_block g block in
          rest <- phi_incoming count' values' blocks' ;;
          ret (incoming_value :: fst rest, incoming_block :: snd rest)
      | _, _ => zig_unreachable
      end
  end.

Definition ir_render_phi (instruction : IrInstructionPhi) : M LLVMValueRef :=
  phi <- build (LLVMBuildPhi (type_ref (type_entry (phi_base instruction)))) ;;
  incoming <- phi_incoming (incoming_count instruction)
                           (incoming_values instruction)
                           (incoming_blocks instruction) ;;
  LLVMAddIncoming phi (fst incoming) (snd incoming)
                  (incoming_count instruction) ;;
  ret phi.

Definition ir_render_ref (instruction : IrInstructionRef) : M LLVMValueRef :=
  value <- ir_llvm_value (ref_value instruction) ;;
  if handle_is_ptr (type_entry (ref_value instruction)) then ret value
  else
    g <- get ;;
    build (LLVMBuildStore value (tmp_ptr g (ref_base instruction))) ;;
    ret (tmp_ptr g (ref_base instruction)).

Definition ir_render_err_name (instruction : IrInstructionErrName)
  : M LLVMValueRef :=
  g <- get ;;
  assert (g_generate_error_name_table (config g)) ;;
  if Nat.eqb (length (error_decls (config g))) 1 then
    build LLVMBuildUnreachable ;;
    ret None
  else
    err_val <- ir_llvm_value (err_name_value instruction) ;;
    g <- get ;;
    (if ir_want_debug_safety g (err_name_base instruction) then
       err_type <- LLVMTypeOf_ref err_val ;;
       let zero := Some (LLVMConstNull err_type) in
       let end_val :=
         Some (LLVMConstInt err_type
                 (Z.of_nat (length (error_decls (config g)))) false) in
       add_bounds_check err_val LLVMIntNE zero LLVMIntULT end_val
     else ret tt) ;;
    g <- get ;;
    let indices := [
      Some (LLVMConstNull (type_ref (entry_usize (config g))));
      err_val
    ] in
    build (LLVMBuildInBoundsGEP (err_name_table (intrinsics g)) indices).

(** *** Inline assembly *)

(** The memory from the address [buf_ptr(s) + offset] on. *)
Fixpoint buf_ptr_at (s : string) (offset : nat) : string :=
  match offset, s with
  | 0, _ => s
  | S n, String _ s' => buf_ptr_at s' n
  | S _, EmptyString => EmptyString
  end.

Definition size_t_sub (a b : N) : N :=
  Z.to_N ((Z.of_N a - Z.of_N b) mod 2 ^ 64).

Fixpoint find_asm_index_outputs (ptr : string) (len : N)
    (outputs : list AsmOutput) (result : N) : N + N :=
  match outputs with
  | [] => inr result
  | asm_output :: rest =>
      if buf_eql_mem (out_asm_symbolic_name asm_output) ptr len
      then inl result
      else find_asm_index_outputs ptr len rest (result + 1)%N
  end.

Fixpoint find_asm_index_inputs (ptr : string) (len : N)
    (inputs : list AsmInput) (result : N) : N :=
  match inputs with
  | [] => SIZE_MAX
  | asm_input :: rest =>
      if buf_eql_mem (in_asm_symbolic_name asm_input) ptr len
      then result
      else find_asm_index_inputs ptr len rest (result + 1)%N
  end.

Definition find_asm_index (asm_expr : AstNodeAsmExpr) (tok : AsmToken) : N :=
  let ptr := buf_ptr_at (asm_template asm_expr) (tok_start tok + 2) in
  let len :=
    size_t_sub (size_t_sub (N.of_nat (tok_end tok)) (N.of_nat (tok_start tok)))
               2 in
  match find_asm_index_outputs ptr len (output_list asm_expr) 0%N with
  | inl result => result
  | inr result => find_asm_index_inputs ptr len (input_list asm_expr) result
  end.

(** The bytes of the template from [offset] on, [count] of them, with
    every [$] doubled.  The byte right after the template is its NUL
    terminator; reading further is an abort. *)
Fixpoint asm_template_bytes (src_template : string) (offset count : nat)
    (llvm_template : string) : M string :=
  match count with
  | 0 => ret llvm_template
  | S count' =>
      c <- match String.get offset src_template with
           | Some c => ret c
           | None =>
               if Nat.eqb offset (String.length src_template)
               then ret Ascii.zero else zig_unreachable
           end ;;
      asm_template_bytes src_template (S offset) count'
        (if Ascii.eqb c "$" then llvm_template +:+ "$$"
         else llvm_template +:+ String c EmptyString)
  end.

Fixpoint asm_template_tokens (asm_expr : AstNodeAsmExpr)
    (tokens : list AsmToken) (llvm_template : string) : M string :=
  match tokens with
  | [] => ret llvm_template
  | asm_token :: rest =>
      llvm_template <-
        match tok_id asm_token with
        | AsmTokenIdTemplate =>
            asm_template_bytes (asm_template asm_expr) (tok_start asm_token)
              (tok_end asm_token - tok_start asm_token) llvm_template
        | AsmTokenIdPercent => ret (llvm_template +:+ "%")
        | AsmTokenIdVar =>
            let index := find_asm_index asm_expr asm_token in
            assert (index <? SIZE_MAX)%N ;;
            ret (llvm_template +:+ "$" +:+ zu (N.to_nat index))
        end ;;
      asm_template_tokens asm_expr rest llvm_template
  end.

Definition string_tail (s : string) : string :=
  match s with String _ s' => s' | EmptyString => EmptyString end.

Definition starts_with_eq (s : string) : bool :=
  match s with String c _ => Ascii.eqb c "=" | EmptyString => false end.

Definition comma_if_more (total_index total_constraint_count : nat)
    (constraint_buf : string) : string :=
  if Nat.ltb (total_index + 1) total_constraint_count
  then constraint_buf +:+ "," else constraint_buf.

(** The state of the three loops over outputs, inputs and clobbers: the
    constraint string, [total_index] and the parameters written so far
    ([param_index] is their number). *)
Record AsmParams := mkAsmParams {
  constraint_buf : string;
  total_index : nat;
  param_types : list LLVMTypeRef;
  param_values : list LLVMValueRef }.

Fixpoint asm_outputs (instruction : IrInstructionAsm)
    (total_constraint_count : nat) (outputs : list AsmOutput) (i : nat)
    (st : AsmParams) : M AsmParams :=
  match outputs with
  | [] => ret st
  | asm_output :: rest =>
      let is_return := out_has_return_type asm_output in
      assert (starts_with_eq (out_constraint asm_output)) ;;
      let buf :=
        if is_return
        then constraint_buf st +:+ "=" +:+ string_tail (out_constraint asm_output)
        else constraint_buf st +:+ "=*"
                               +:+ string_tail (out_constraint asm_output) in
      let buf := comma_if_more (total_index st) total_constraint_count buf in
      st' <-
        (if negb is_return then
           slot <- lift_option (output_vars instruction !! i) ;;
           variable <- lift_option slot ;;
           g <- get ;;
           ty <- LLVMTypeOf_ref (value_ref g variable) ;;
           ret (mkAsmParams buf (total_index st + 1)
                            (param_types st ++ [ty])
                            (param_values st ++ [value_ref g variable]))
         else
           ret (mkAsmParams buf (total_index st + 1) (param_types st)
                            (param_values st))) ;;
      asm_outputs instruction total_constraint_count rest (i + 1) st'
  end.

Fixpoint asm_inputs (instruction : IrInstructionAsm)
    (total_constraint_count : nat) (inputs : list AsmInput) (i : nat)
    (st : AsmParams) : M AsmParams :=
  match inputs with
  | [] => ret st
  | asm_input :: rest =>
      ir_input <- lift_option (asm_input_list instruction !! i) ;;
      let buf := constraint_buf st +:+ in_constraint asm_input in
      let buf := comma_if_more (total_index st) total_constraint_count buf in
      value <- ir_llvm_value ir_input ;;
      asm_inputs instruction total_constraint_count rest (i + 1)
        (mkAsmParams buf (total_index st + 1)
           (param_types st ++ [type_ref (type_entry ir_input)])
           (param_values st ++ [value]))
  end.

Fixpoint asm_clobbers (total_constraint_count : nat) (clobbers : list string)
    (st : AsmParams) : AsmParams :=
  match clobbers with
  | [] => st
  | clobber_buf :: rest =>
      let buf := constraint_buf st +:+ "~{" +:+ clobber_buf +:+ "}" in
      let buf := comma_if_more (total_index st) total_constraint_count buf in
      asm_clobbers total_constraint_count rest
        (mkAsmParams buf (total_index st + 1) (param_types st)
                     (param_values st))
  end.

(** The two parameter arrays have [input_and_output_count] slots.  The
    loops write them from slot 0 on; writing past the end, or leaving a
    slot without a type, is undefined behaviour and modelled as an abort. *)
Definition ir_render_asm (instruction : IrInstructionAsm) : M LLVMValueRef :=
  let asm_node := source_node (asm_base instruction) in
  match data asm_node with
  | NodeTypeAsmExpr asm_expr =>
      llvm_template <-
        asm_template_tokens asm_expr (token_list asm_expr) EmptyString ;;
      assert (Nat.eqb (return_count instruction) 0
              || Nat.eqb (return_count instruction) 1) ;;
      let total_constraint_count :=
        length (output_list asm_expr) + length (input_list asm_expr)
        + length (clobber_list asm_expr) in
      let input_and_output_count :=
        size_t_sub (N.of_nat (length (output_list asm_expr)
                              + length (input_list asm_expr)))
                   (N.of_nat (return_count instruction)) in
      st <- asm_outputs instruction total_constraint_count
                        (output_list asm_expr) 0 (mkAsmParams EmptyString 0 [] []) ;;
      st <- asm_inputs instruction total_constraint_count
                       (input_list asm_expr) 0 st ;;
      let st := asm_clobbers total_constraint_count (clobber_list asm_expr) st in
      assert (N.eqb (N.of_nat (length (param_values st)))
                    input_and_output_count) ;;
      let ret_type :=
        if Nat.eqb (return_count instruction) 0 then LLVMVoidType
        else type_ref (type_entry (asm_base instruction)) in
      let function_type := LLVMFunctionType ret_type (param_types st) false in
      let is_volatile :=
        is_volatile asm_expr || Nat.eqb (length (output_list asm_expr)) 0 in
      let asm_fn :=
        Some (LLVMConstInlineAsm function_type llvm_template
                                 (constraint_buf st) is_volatile false) in
      build (LLVMBuildCall asm_fn (param_values st))
  | _ => zig_unreachable     (* assert(asm_node->type == NodeTypeAsmExpr) *)
  end.

(** *** The instruction walk *)

Definition set_debug_location (instruction : IrInstruction) : M unit :=
  match scope instruction with
  | [] => zig_unreachable                          (* assert(scope) *)
  | _ => lift_option (get_di_scope (scope instruction)) ;; ret tt
  end.

Definition ir_render_instruction (instruction : IrInstr) : M LLVMValueRef :=
  set_debug_location (instr_base instruction) ;;
  match instruction with
  | IrInstructionIdNoCodegen _ => zig_unreachable
  | IrInstructionIdReturn i => ir_render_return i
  | IrInstructionIdDeclVar i => ir_render_decl_var i
  | IrInstructionIdBinOp i => ir_render_bin_op i
  | IrInstructionIdUnreachable i => ir_render_unreachable i
  | IrInstructionIdCondBr i => ir_render_cond_br i
  | IrInstructionIdBr i => ir_render_br i
  | IrInstructionIdAsm i => ir_render_asm i
  | IrInstructionIdPhi i => ir_render_phi i
  | IrInstructionIdRef i => ir_render_ref i
  | IrInstructionIdErrName i => ir_render_err_name i
  | IrInstructionIdTodo _ => zig_panic
  end.

Fixpoint ir_render_instructions (instructions : list IrInstr) : M unit :=
  match instructions with
  | [] => ret tt
  | instruction :: rest =>
      (if Nat.eqb (ref_count (instr_base instruction)) 0
          && negb (ir_has_side_effects instruction)
       then ret tt
       else
         v <- ir_render_instruction instruction ;;
         modify (with_handles
                   (set_instr_llvm_value
                      (debug_id (instr_base instruction)) v))) ;;
      ir_render_instructions rest
  end.

Definition ir_render_block (current_block : IrBasicBlock) : M unit :=
  assert (Nat.ltb 0 (bb_ref_count current_block)) ;;
  g <- get ;;
  assert (is_nonnull (llvm_block g (bb_id current_block))) ;;
  LLVMPositionBuilderAtEnd (llvm_block g (bb_id current_block)) ;;
  ir_render_instructions (instruction_list current_block) ;;
  exit_block <- LLVMGetInsertBlock ;;
  modify (with_handles (set_bb_llvm_exit_block (bb_id current_block) exit_block)).

Fixpoint ir_render_blocks (blocks : list IrBasicBlock) : M unit :=
  match blocks with
  | [] => ret tt
  | current_block :: rest =>
      ir_render_block current_block ;; ir_render_blocks rest
  end.

Definition ir_render (fn_entry : FnTableEntry) : M unit :=
  assert (Nat.ltb 0 (length (basic_block_list fn_entry))) ;;
  ir_render_blocks (basic_block_list fn_entry).

(** *** The module driver *)

Fixpoint for_each {A} (l : list A) (body : A -> M unit) : M unit :=
  match l with
  | [] => ret tt
  | x :: rest => body x ;; for_each rest body
  end.

Definition fn_llvm_value (fn_table_entry : FnTableEntry) : M LLVMValueRef :=
  g <- get ;;
  match fn_llvm_values (consts g) !! fn_id fn_table_entry with
  | Some v => ret (Some v)
  | None =>
      let symbol_name :=
        if negb (internal_linkage fn_table_entry)
        then symbol_name fn_table_entry
        else "_" +:+ symbol_name fn_table_entry in
      let fn_type := fn_type fn_table_entry in
      v <- LLVMAddFunction symbol_name (raw_type_ref fn_type) ;;
      modify (with_consts (set_fn_llvm_value (fn_id fn_table_entry) v)) ;;
      match fn_inline fn_table_entry with
      | FnInlineAlways => LLVMAddFunctionAttr v LLVMAlwaysInlineAttribute
      | FnInlineNever => LLVMAddFunctionAttr v LLVMNoInlineAttribute
      | FnInlineAuto => ret tt
      end ;;
      (if is_naked fn_type then LLVMAddFunctionAttr v LLVMNakedAttribute
       else ret tt) ;;
      LLVMSetLinkage v (if internal_linkage fn_table_entry
                        then LLVMInternalLinkage else LLVMExternalLinkage) ;;
      match id (return_type fn_type) with
      | TypeTableEntryIdUnreachable =>
          LLVMAddFunctionAttr v LLVMNoReturnAttribute
      | _ => ret tt
      end ;;
      LLVMSetFunctionCallConv v (calling_convention fn_type) ;;
      (if negb (is_extern fn_type)
       then LLVMAddFunctionAttr v LLVMNoUnwindAttribute else ret tt) ;;
      (if negb (is_release_build (config g))
          && match fn_inline fn_table_entry with
             | FnInlineAlways => false | _ => true end
       then
         ZigLLVMAddFunctionAttr v "no-frame-pointer-elim" (Some "true") ;;
         ZigLLVMAddFunctionAttr v "no-frame-pointer-elim-non-leaf" None
       else ret tt) ;;
      ret v
  end.

Definition create_builtin_fn (name : string) (builtin_ref_count : nat)
    (fn_val : LLVMValueRef) : M unit :=
  modify (with_intrinsics (fun i =>
    mkIntrinsics (trap_fn_val i) (memcpy_fn_val i) (memset_fn_val i)
      (int_overflow_fns i) (err_name_table i)
      (builtin_fn_table i ++ [mkBuiltinFn name builtin_ref_count fn_val]))).

Definition set_trap_fn_val (v : LLVMValueRef) (i : Intrinsics) :=
  mkIntrinsics v (memcpy_fn_val i) (memset_fn_val i)
    (int_overflow_fns i) (err_name_table i) (builtin_fn_table i).
Definition set_memcpy_fn_val (v : LLVMValueRef) (i : Intrinsics) :=
  mkIntrinsics (trap_fn_val i) v (memset_fn_val i)
    (int_overflow_fns i) (err_name_table i) (builtin_fn_table i).
Definition set_memset_fn_val (v : LLVMValueRef) (i : Intrinsics) :=
  mkIntrinsics (trap_fn_val i) (memcpy_fn_val i) v
    (int_overflow_fns i) (err_name_table i) (builtin_fn_table i).
Definition set_err_name_table (v : LLVMValueRef) (i : Intrinsics) :=
  mkIntrinsics (trap_fn_val i) (memcpy_fn_val i) (memset_fn_val i)
    (int_overflow_fns i) v (builtin_fn_table i).

(** [define_builtin_fns]: the entries of the builtin function table; five
    of them are backed by an intrinsic of the backend library.  (The
    source asserts [LLVMGetIntrinsicID] of each of the five.) *)
Definition define_builtin_fns : M unit :=
  g <- get ;;
  (let fn_type := LLVMFunctionType LLVMVoidType [] false in
   fn_val <- LLVMAddFunction "llvm.debugtrap" fn_type ;;
   create_builtin_fn "breakpoint" 1 fn_val ;;
   modify (with_intrinsics (set_trap_fn_val fn_val))) ;;
  (let return_type := get_pointer_to_type (entry_u8 (config g)) true in
   let fn_type :=
     LLVMFunctionType (type_ref return_type)
                      [type_ref (entry_i32 (config g))] false in
   fn_val <- LLVMAddFunction "llvm.returnaddress" fn_type ;;
   create_builtin_fn "returnAddress" 0 fn_val) ;;
  (let return_type := get_pointer_to_type (entry_u8 (config g)) true in
   let fn_type :=
     LLVMFunctionType (type_ref return_type)
                      [type_ref (entry_i32 (config g))] false in
   fn_val <- LLVMAddFunction "llvm.frameaddress" fn_type ;;
   create_builtin_fn "frameAddress" 0 fn_val) ;;
  (let param_types := [
     LLVMPointerType LLVMInt8Type 0;
     LLVMPointerType LLVMInt8Type 0;
     LLVMIntType (pointer_size_bytes (config g) * 8);
     LLVMInt32Type;
     LLVMInt1Type ] in
   let fn_type := LLVMFunctionType LLVMVoidType param_types false in
   let name :=
     "llvm.memcpy.p0i8.p0i8.i" +:+ zu (pointer_size_bytes (config g) * 8) in
   fn_val <- LLVMAddFunction name fn_type ;;
   create_builtin_fn "memcpy" 1 fn_val ;;
   modify (with_intrinsics (set_memcpy_fn_val fn_val))) ;;
  (let param_types := [
     LLVMPointerType LLVMInt8Type 0;
     LLVMInt8Type;
     LLVMIntType (pointer_size_bytes (config g) * 8);
     LLVMInt32Type;
     LLVMInt1Type ] in
   let fn_type := LLVMFunctionType LLVMVoidType param_types false in
   let name := "llvm.memset.p0i8.i" +:+ zu (pointer_size_bytes (config g) * 8) in
   fn_val <- LLVMAddFunction name fn_type ;;
   create_builtin_fn "memset" 1 fn_val ;;
   modify (with_intrinsics (set_memset_fn_val fn_val))) ;;
  for_each
    ["sizeOf"; "alignOf"; "maxValue"; "minValue"; "memberCount"; "typeOf";
     "addWithOverflow"; "subWithOverflow"; "mulWithOverflow";
     "shlWithOverflow"; "cInclude"; "cDefine"; "cUndef"; "compileVar";
     "staticEval"; "ctz"; "clz"; "import"; "cImport"; "errorName";
     "embedFile"; "cmpxchg"; "fence"; "divExact"; "truncate";
     "compileError"; "intType"; "unreachable"; "setFnTest"; "setFnVisible";
     "setDebugSafety"]
    (fun name => create_builtin_fn name 0 None).

Definition delete_unused_builtin_fns : M unit :=
  g <- get ;;
  for_each (builtin_fn_table (intrinsics g)) (fun builtin_fn =>
    if Nat.eqb (builtin_ref_count builtin_fn) 0
       && is_nonnull (fn_val builtin_fn)
    then LLVMDeleteFunction (fn_val builtin_fn)
    else ret tt).

Definition should_skip_fn_codegen (g : CodeGen) (fn_entry : FnTableEntry)
  : bool :=
  if is_test_build (config g) then
    if is_test fn_entry then false
    else match main_fn (config g) with
         | Some main => Nat.eqb (fn_id fn_entry) main
         | None => false
         end
  else if is_test fn_entry then true
  else false.

Definition LLVMConstBitCast_ref (v : LLVMValueRef) (ty : LLVMTypeRef)
  : M LLVMValueRef :=
  match v with
  | Some x => ret (Some (LLVMConstBitCast x ty))
  | None => zig_unreachable
  end.

Definition gen_test_fn_val (fn_entry : FnTableEntry) : M LLVMValueRef :=
  (* Must match TestFn struct from test_runner.zig *)
  let fn_name := symbol_name fn_entry in
  let str_init := LLVMConstString fn_name (String.length fn_name) true in
  str_global_val <- LLVMAddGlobal (LLVMTypeOf str_init) EmptyString ;;
  LLVMSetInitializer str_global_val (Some str_init) ;;
  LLVMSetLinkage str_global_val LLVMPrivateLinkage ;;
  LLVMSetGlobalConstant str_global_val true ;;
  LLVMSetUnnamedAddr str_global_val true ;;
  g <- get ;;
  let len_val :=
    Some (LLVMConstInt (type_ref (entry_usize (config g)))
                       (Z.of_nat (String.length fn_name)) false) in
  let ptr_type := LLVMPointerType (type_ref (entry_u8 (config g))) 0 in
  name_ptr <- LLVMConstBitCast_ref str_global_val ptr_type ;;
  let name_fields := [name_ptr; len_val] in
  let name_val := Some (LLVMConstStruct name_fields false) in
  fn_val <- fn_llvm_value fn_entry ;;
  let fields := [name_val; fn_val] in
  ret (Some (LLVMConstStruct fields false)).

(** The loop of [generate_error_name_table] over the declared errors,
    from tag 1 on. *)
Fixpoint error_name_values (str_type u8_ptr_type : TypeTableEntry)
    (decls : list (option AstNode)) : M (list LLVMValueRef) :=
  match decls with
  | [] => ret []
  | error_decl_node :: rest =>
      error_decl_node <- lift_option error_decl_node ;;
      match data error_decl_node with
      | NodeTypeErrorValueDecl name =>
          let str_init := LLVMConstString name (String.length name) true in
          str_global <- LLVMAddGlobal (LLVMTypeOf str_init) EmptyString ;;
          LLVMSetInitializer str_global (Some str_init) ;;
          LLVMSetLinkage str_global LLVMPrivateLinkage ;;
          LLVMSetGlobalConstant str_global true ;;
          LLVMSetUnnamedAddr str_global true ;;
          g <- get ;;
          str_ptr <- LLVMConstBitCast_ref str_global (type_ref u8_ptr_type) ;;
          let fields := [
            str_ptr;
            Some (LLVMConstInt (type_ref (entry_usize (config g)))
                               (Z.of_nat (String.length name)) false)
          ] in
          let value := Some (LLVMConstNamedStruct (type_ref str_type) fields) in
          values <- error_name_values str_type u8_ptr_type rest ;;
          ret (value :: values)
      | _ => zig_unreachable
      end
  end.

Definition generate_error_name_table : M unit :=
  g <- get ;;
  if negb (g_generate_error_name_table (config g))
     || Nat.eqb (length (error_decls (config g))) 1
  then ret tt
  else
    assert (Nat.ltb 0 (length (error_decls (config g)))) ;;
    let str_type := get_slice_type (entry_u8 (config g)) true in
    let u8_ptr_type := structure_field_type str_type 0 in
    let value0 := Some (LLVMGetUndef (type_ref str_type)) in
    values <- error_name_values str_type u8_ptr_type
                                (tail (error_decls (config g))) ;;
    let err_name_table_init :=
      LLVMConstArray (type_ref str_type) (value0 :: values) in
    table <- LLVMAddGlobal (LLVMTypeOf err_name_table_init) "err_name_table" ;;
    modify (with_intrinsics (set_err_name_table table)) ;;
    LLVMSetInitializer table (Some err_name_table_init) ;;
    LLVMSetLinkage table LLVMPrivateLinkage ;;
    LLVMSetGlobalConstant table true ;;
    LLVMSetUnnamedAddr table true.

Definition build_all_basic_blocks (fn : FnTableEntry) : M unit :=
  assert (Nat.ltb 0 (length (basic_block_list fn))) ;;
  for_each (basic_block_list fn) (fun bb =>
    fn_val <- fn_llvm_value fn ;;
    block <- LLVMAppendBasicBlock fn_val (name_hint bb) ;;
    modify (with_handles (set_bb_llvm_block (bb_id bb) block))) ;;
  match basic_block_list fn with
  | entry_bb :: _ =>
      g <- get ;;
      LLVMPositionBuilderAtEnd (llvm_block g (bb_id entry_bb))
  | [] => zig_unreachable
  end.

(** [gen_global_var] only creates debug information, which is not
    represented; what remains are its aborts. *)
Definition gen_global_var (var : VariableTableEntry) : M unit :=
  assert (gen_is_const var) ;;
  lift_option (get_scope_import (parent_scope var)) ;;
  lift_option (get_di_scope (parent_scope var)) ;;
  ret tt.

Definition is_NodeTypeVariableDeclaration (node : AstNode) : bool :=
  match data node with NodeTypeVariableDeclaration _ => true | _ => false end.

Definition variable_declaration_is_extern (node : AstNode) : bool :=
  match data node with NodeTypeVariableDeclaration e => e | _ => false end.

(** Generate module level variables *)
Definition gen_module_level_variable (var : VariableTableEntry) : M unit :=
  match id (var_type var) with
  | TypeTableEntryIdNumLitFloat =>
      (* Generate debug info for it but that's it. *)
      assert (negb (is_Runtime (special (var_value var)))) ;;
      gen_global_var var
  | TypeTableEntryIdNumLitInt =>
      (* Generate debug info for it but that's it. *)
      assert (negb (is_Runtime (special (var_value var)))) ;;
      gen_global_var var
  | _ =>
      if negb (type_has_bits (var_type var)) then ret tt
      else
        decl_node <- lift_option (decl_node var) ;;
        assert (is_NodeTypeVariableDeclaration decl_node) ;;
        global_value <-
          (if variable_declaration_is_extern decl_node then
             global_value <-
               LLVMAddGlobal (type_ref (var_type var)) (var_name var) ;;
             (* TODO debug info for the extern variable *)
             LLVMSetLinkage global_value LLVMExternalLinkage ;;
             ret global_value
           else
             render_const_val (var_type var) (var_value var) ;;
             render_const_val_global (var_type var) (var_value var) ;;
             g <- get ;;
             let global_value := const_val_llvm_global g (var_value var) in
             (* TODO debug info for function pointers *)
             (if gen_is_const var
                 && match id (var_type var) with
                    | TypeTableEntryIdFn => false | _ => true end
              then gen_global_var var else ret tt) ;;
             ret global_value) ;;
        LLVMSetGlobalConstant global_value (gen_is_const var) ;;
        modify (with_handles (set_var_value_ref (var_id var) global_value))
  end.

(** set parameter attributes *)
Definition gen_param_attrs (fn_val : LLVMValueRef) (gen_info : FnGenParamInfo)
  : M unit :=
  let gen_index := gen_index gen_info in
  let is_byval := is_byval gen_info in
  if N.eqb gen_index SIZE_MAX then ret tt
  else
    let param_type := gen_type gen_info in
    fn <- lift_option fn_val ;;
    let argument_val := Some (LLVMGetParam fn (N.to_nat gen_index)) in
    (if is_noalias gen_info
     then LLVMAddAttribute argument_val LLVMNoAliasAttribute else ret tt) ;;
    (if match id param_type with
        | TypeTableEntryIdPointer => pointer_is_const param_type
        | _ => false
        end || is_byval
     then LLVMAddAttribute argument_val LLVMReadOnlyAttribute else ret tt) ;;
    match id param_type with
    | TypeTableEntryIdPointer =>
        ZigLLVMAddNonNullAttr fn_val (N.to_nat gen_index + 1)
    | _ => ret tt
    end.

(** Generate function prototypes; [test_fn_vals] has [test_fn_count]
    slots in a test build and is the null pointer otherwise. *)
Fixpoint gen_fn_protos (protos : list FnTableEntry)
    (test_fn_vals : list LLVMValueRef) : M (list LLVMValueRef) :=
  match protos with
  | [] => ret test_fn_vals
  | fn_table_entry :: rest =>
      g <- get ;;
      if should_skip_fn_codegen g fn_table_entry
      then gen_fn_protos rest test_fn_vals
      else
        let fn_type := fn_type fn_table_entry in
        fn_val <- fn_llvm_value fn_table_entry ;;
        (if negb (type_has_bits (return_type fn_type)) then
           ret tt                       (* nothing to do *)
         else
           match id (return_type fn_type) with
           | TypeTableEntryIdPointer => ZigLLVMAddNonNullAttr fn_val 0
           | _ =>
               if handle_is_ptr (return_type fn_type)
                  && negb (is_extern fn_type)
               then
                 fn <- lift_option fn_val ;;
                 let first_arg := Some (LLVMGetParam fn 0) in
                 LLVMAddAttribute first_arg LLVMStructRetAttribute ;;
                 ZigLLVMAddNonNullAttr fn_val 1
               else ret tt
           end) ;;
        for_each (gen_param_info fn_type) (gen_param_attrs fn_val) ;;
        test_fn_vals <-
          (if is_test fn_table_entry then
             assert (is_test_build (config g)
                     && Nat.ltb (length test_fn_vals)
                                (test_fn_count (config g))) ;;
             v <- gen_test_fn_val fn_table_entry ;;
             ret (test_fn_vals ++ [v])
           else ret test_fn_vals) ;;
        gen_fn_protos rest test_fn_vals
  end.

(** Generate the list of test function pointers. *)
Definition gen_test_fn_list (test_fn_vals : list LLVMValueRef) : M unit :=
  g <- get ;;
  if is_test_build (config g) then
    (if Nat.eqb (test_fn_count (config g)) 0 then
       fprintf_stderr ("No tests to run." +:+ String "010" EmptyString) ;;
       exit 0
     else ret tt) ;;
    assert (Nat.ltb 0 (test_fn_count (config g))) ;;
    assert (Nat.eqb (length test_fn_vals) (test_fn_count (config g))) ;;
    first <- lift_option (head test_fn_vals) ;;
    first_type <- LLVMTypeOf_ref first ;;
    let test_fn_array_init := LLVMConstArray first_type test_fn_vals in
    test_fn_array_val <- LLVMAddGlobal (LLVMTypeOf test_fn_array_init) EmptyString ;;
    LLVMSetInitializer test_fn_array_val (Some test_fn_array_init) ;;
    LLVMSetLinkage test_fn_array_val LLVMInternalLinkage ;;
    LLVMSetGlobalConstant test_fn_array_val true ;;
    LLVMSetUnnamedAddr test_fn_array_val true ;;
    let len_val :=
      Some (LLVMConstInt (type_ref (entry_usize (config g)))
                         (Z.of_nat (test_fn_count (config g))) false) in
    let ptr_type := LLVMPointerType first_type 0 in
    array_ptr <- LLVMConstBitCast_ref test_fn_array_val ptr_type ;;
    let fields := [array_ptr; len_val] in
    let test_fn_slice_init := LLVMConstStruct fields false in
    test_fn_slice_val <-
      LLVMAddGlobal (LLVMTypeOf test_fn_slice_init) "zig_test_fn_list" ;;
    LLVMSetInitializer test_fn_slice_val (Some test_fn_slice_init) ;;
    LLVMSetLinkage test_fn_slice_val LLVMExternalLinkage ;;
    LLVMSetGlobalConstant test_fn_slice_val true ;;
    LLVMSetUnnamedAddr test_fn_slice_val true
  else ret tt.

(** allocate temporary stack data *)
Definition gen_alloca (instruction : IrInstr) : M unit :=
  match instruction with
  | IrInstructionIdRef ref_instruction =>
      slot <- build (LLVMBuildAlloca
                       (type_ref (type_entry (ref_base ref_instruction))) EmptyString) ;;
      modify (with_handles
                (set_instr_tmp_ptr (debug_id (ref_base ref_instruction)) slot))
  | _ => zig_unreachable
  end.

(** create debug variable declarations for variables and allocate all
    local variables; the debug variable created for a variable is
    identified with the variable. *)
Definition gen_variable (fn_table_entry : FnTableEntry) (fn : LLVMValueRef)
    (import : option nat) (var : VariableTableEntry) : M unit :=
  if negb (type_has_bits (var_type var)) then ret tt
  else if is_inline var then ret tt
  else if N.eqb (src_arg_index var) SIZE_MAX then
    v <- build (LLVMBuildAlloca (type_ref (var_type var)) (var_name var)) ;;
    modify (with_handles (set_var_value_ref (var_id var) v)) ;;
    g <- get ;;
    let align_bytes :=
      ZigLLVMGetPrefTypeAlignment (target_data_ref (config g))
                                  (type_ref (var_type var)) in
    LLVMSetAlignment v align_bytes ;;
    lift_option (get_di_scope (parent_scope var)) ;;
    lift_option import ;;
    lift_option (decl_node var) ;;
    modify (with_handles (set_var_di_loc_var (var_id var) (Some (var_id var))))
  else
    assert (negb (N.eqb (gen_arg_index var) SIZE_MAX)) ;;
    (if handle_is_ptr (var_type var) then
       lift_option (gen_param_info (fn_type fn_table_entry)
                      !! N.to_nat (src_arg_index var)) ;;
       fn <- lift_option fn ;;
       modify (with_handles
                 (set_var_value_ref (var_id var)
                    (Some (LLVMGetParam fn (N.to_nat (gen_arg_index var))))))
     else
       v <- build (LLVMBuildAlloca (type_ref (var_type var)) (var_name var)) ;;
       modify (with_handles (set_var_value_ref (var_id var) v)) ;;
       g <- get ;;
       let align_bytes :=
         ZigLLVMGetPrefTypeAlignment (target_data_ref (config g))
                                     (type_ref (var_type var)) in
       LLVMSetAlignment v align_bytes) ;;
    lift_option (get_di_scope (parent_scope var)) ;;
    lift_option import ;;
    lift_option (decl_node var) ;;
    modify (with_handles (set_var_di_loc_var (var_id var) (Some (var_id var)))).

(** create debug variable declarations for parameters; rely on the first
    variables in the variable_list being parameters. *)
Fixpoint gen_param_decls (fn_table_entry : FnTableEntry) (fn : LLVMValueRef)
    (params : list FnGenParamInfo) (next_var_i : nat) : M unit :=
  match params with
  | [] => ret tt
  | info :: rest =>
      if N.eqb (gen_index info) SIZE_MAX
      then gen_param_decls fn_table_entry fn rest next_var_i
      else
        variable <- lift_option (variable_list fn_table_entry !! next_var_i) ;;
        assert (negb (N.eqb (src_arg_index variable) SIZE_MAX)) ;;
        g <- get ;;
        assert (is_nonnull (value_ref g variable)) ;;
        (if negb (handle_is_ptr (var_type variable)) then
           fn' <- lift_option fn ;;
           build (LLVMBuildStore
                    (Some (LLVMGetParam fn' (N.to_nat (gen_arg_index variable))))
                    (value_ref g variable)) ;;
           ret tt
         else ret tt) ;;
        gen_var_debug_decl variable ;;
        gen_param_decls fn_table_entry fn rest (next_var_i + 1)
  end.

(** Generate one function definition. *)
Definition gen_fn_def (fn_table_entry : FnTableEntry) : M unit :=
  g <- get ;;
  if should_skip_fn_codegen g fn_table_entry then ret tt
  else
    fn <- fn_llvm_value fn_table_entry ;;
    cur_ret_ptr <-
      (if handle_is_ptr (return_type (fn_type fn_table_entry)) then
         fn' <- lift_option fn ;; ret (Some (LLVMGetParam fn' 0))
       else ret None) ;;
    modify (with_cur (fun _ => mkCurFn (Some fn_table_entry) fn cur_ret_ptr)) ;;
    build_all_basic_blocks fn_table_entry ;;
    for_each (alloca_list fn_table_entry) gen_alloca ;;
    let import := get_scope_import (fndef_scope fn_table_entry) in
    for_each (variable_list fn_table_entry)
             (gen_variable fn_table_entry fn import) ;;
    gen_param_decls fn_table_entry fn
                    (gen_param_info (fn_type fn_table_entry)) 0 ;;
    ir_render fn_table_entry.

(** The steps of [do_code_gen] up to the list of test functions. *)
Definition do_code_gen_prologue : M (list LLVMValueRef) :=
  g <- get ;;
  assert (Nat.eqb (length (errors (config g))) 0) ;;
  delete_unused_builtin_fns ;;
  generate_error_name_table ;;
  for_each (global_vars (config g)) gen_module_level_variable ;;
  gen_fn_protos (fn_protos (config g)) [].

(** Finalising the debug information, dumping and verifying the module
    are not represented. *)
Definition do_code_gen : M unit :=
  test_fn_vals <- do_code_gen_prologue ;;
  gen_test_fn_list test_fn_vals ;;
  g <- get ;;
  (* Generate function definitions. *)
  for_each (fn_defs (config g)) gen_fn_def ;;
  assert (Nat.eqb (length (errors (config g))) 0).

End Lowering.

(** ** Notions the properties are stated with *)

(** The [safety_off] of a scope that sets the safety flag explicitly: a
    [Block] or [Decls] scope whose [safety_set_node] is set. *)
Definition explicit_safety_off (node : ScopeNode) : option bool :=
  match node with
  | ScopeIdBlock _ (Some _) safety_off => Some safety_off
  | ScopeIdDecls _ (Some _) safety_off _ => Some safety_off
  | _ => None
  end.

Definition is_darwin (t : ZigTarget) : bool :=
  match os t with
  | ZigLLVM_Darwin | ZigLLVM_MacOSX | ZigLLVM_IOS => true
  | _ => false
  end.

Definition is_arm_family (a : ZigLLVM_ArchType) : bool :=
  match a with
  | ZigLLVM_arm | ZigLLVM_aarch64 | ZigLLVM_thumb => true
  | _ => false
  end.

(** What the lowering of one construct added to the function bodies. *)
Definition emitted_by (g g' : CodeGen) (ops : list LLVMOp) : Prop :=
  emitted (builder g') = emitted (builder g) ++ ops.

Definition calls (name : string) (op : LLVMOp) : bool :=
  match op with
  | OpBuild _ _ (LLVMBuildCall (Some (LLVMFunction f)) _) => String.eqb f name
  | _ => false
  end.

Definition is_icmp (op : LLVMOp) : bool :=
  match op with OpBuild _ _ (LLVMBuildICmp _ _ _) => true | _ => false end.

Definition is_cond_br (op : LLVMOp) : bool :=
  match op with OpBuild _ _ (LLVMBuildCondBr _ _ _) => true | _ => false end.

Definition count_ops (p : LLVMOp -> bool) (ops : list LLVMOp) : nat :=
  length (List.filter p ops).

(** The two instructions of a fail block. *)
Definition crash_ops (g : CodeGen) (fail_block v : nat) : list LLVMOp :=
  [OpBuild (Some fail_block) v (LLVMBuildCall (trap_fn_val (intrinsics g)) []);
   OpBuild (Some fail_block) (S v) LLVMBuildUnreachable].

(** The code of a check against one bound: the compare and the branch
    are placed where the builder stands; the fail block traps. *)
Definition one_bound_ops (g : CodeGen) (pred : LLVMIntPredicate)
    (target_val bound : LLVMValueRef) : list LLVMOp :=
  let here := insert_block (builder g) in
  let fail_block := next_block (builder g) in
  let ok_block := S fail_block in
  let v := next_value (builder g) in
  [OpAppendBasicBlock (cur_fn_val (cur g)) "BoundsCheckFail" fail_block;
   OpAppendBasicBlock (cur_fn_val (cur g)) "BoundsCheckOk" ok_block;
   OpBuild here v (LLVMBuildICmp pred target_val bound);
   OpBuild here (S v)
     (LLVMBuildCondBr (Some (LLVMInstrResult v)) (Some ok_block)
                      (Some fail_block))]
  ++ crash_ops g fail_block (S (S v)).

(** The code of a check against both bounds: the lower compare where the
    builder stands, the upper compare in the block the lower branch
    goes to when the lower check passed, one fail block for both. *)
Definition two_bounds_ops (g : CodeGen) (lower_pred upper_pred : LLVMIntPredicate)
    (target_val lower upper : LLVMValueRef) : list LLVMOp :=
  let here := insert_block (builder g) in
  let fail_block := next_block (builder g) in
  let ok_block := S fail_block in
  let lower_ok_block := S ok_block in
  let v := next_value (builder g) in
  [OpAppendBasicBlock (cur_fn_val (cur g)) "BoundsCheckFail" fail_block;
   OpAppendBasicBlock (cur_fn_val (cur g)) "BoundsCheckOk" ok_block;
   OpAppendBasicBlock (cur_fn_val (cur g)) "FirstBoundsCheckOk" lower_ok_block;
   OpBuild here v (LLVMBuildICmp lower_pred target_val lower);
   OpBuild here (S v)
     (LLVMBuildCondBr (Some (LLVMInstrResult v)) (Some lower_ok_block)
                      (Some fail_block))]
  ++ crash_ops g fail_block (S (S v))
  ++ [OpBuild (Some lower_ok_block) (S (S (S (S v))))
        (LLVMBuildICmp upper_pred target_val upper);
      OpBuild (Some lower_ok_block) (S (S (S (S (S v)))))
        (LLVMBuildCondBr (Some (LLVMInstrResult (S (S (S (S v))))))
                         (Some ok_block) (Some fail_block))].

(** Frames: what a step of the code generator is known to leave alone.
    [steps R c] says that every run of [c] that returns relates the
    state before to the state after by [R]. *)
Definition steps (R : CodeGen -> CodeGen -> Prop) {A} (c : M A) : Prop :=
  forall g a g', c g = Ok a g' -> R g g'.

(** Reading an operand that is not a static pointer touches neither the
    builder nor the handles of the basic blocks. *)
Definition operand_frame (g g' : CodeGen) : Prop :=
  config g' = config g /\ intrinsics g' = intrinsics g /\ cur g' = cur g
  /\ builder g' = builder g
  /\ bb_llvm_block (handles g') = bb_llvm_block (handles g)
  /\ bb_llvm_exit_block (handles g') = bb_llvm_exit_block (handles g)
  /\ var_value_ref (handles g') = var_value_ref (handles g)
  /\ var_di_loc_var (handles g') = var_di_loc_var (handles g)
  /\ stderr g' = stderr g.

(** Lowering an instruction only adds to what was emitted and keeps the
    handles of the basic blocks and of the variables. *)
Definition lowering_frame (g g' : CodeGen) : Prop :=
  config g' = config g
  /\ bb_llvm_block (handles g') = bb_llvm_block (handles g)
  /\ bb_llvm_exit_block (handles g') = bb_llvm_exit_block (handles g)
  /\ var_value_ref (handles g') = var_value_ref (handles g)
  /\ var_di_loc_var (handles g') = var_di_loc_var (handles g)
  /\ exists ops, emitted (builder g') = emitted (builder g) ++ ops.

(** The steps of the module driver before the function definitions emit
    nothing into a function body and print nothing. *)
Definition prologue_frame (g g' : CodeGen) : Prop :=
  config g' = config g /\ builder g' = builder g /\ stderr g' = stderr g.

(** The name of the overflow intrinsic kept in slot
    [index0][index1][index2] of [int_overflow_fns]. *)
Definition overflow_fn_name (index0 index1 index2 : nat) : string :=
  "llvm." +:+ (if Nat.eqb index0 0 then "s" else "u")
          +:+ match index1 with 0 => "add" | 1 => "sub" | _ => "mul" end
          +:+ ".with.overflow.i"
          +:+ zu (match index2 with 0 => 8 | 1 => 16 | 2 => 32 | _ => 64 end).

(** The memo table of the overflow intrinsics holds, in each slot that
    is filled, the intrinsic of that slot. *)
Definition overflow_fns_ok (g : CodeGen) : Prop :=
  forall index0 index1 index2 fn,
    int_overflow_fns (intrinsics g) !! (index0, index1, index2) = Some fn ->
    fn = LLVMFunction (overflow_fn_name index0 index1 index2).

(** The code of an overflow-checked operation: the call of the
    intrinsic, the two extractions and the branch where the builder
    stands, and the fail block. *)
Definition overflow_op_ops (g : CodeGen) (fn_val val1 val2 : LLVMValueRef)
  : list LLVMOp :=
  let here := insert_block (builder g) in
  let fail_block := next_block (builder g) in
  let ok_block := S fail_block in
  let v := next_value (builder g) in
  [OpBuild here v (LLVMBuildCall fn_val [val1; val2]);
   OpBuild here (S v) (LLVMBuildExtractValue (Some (LLVMInstrResult v)) 0);
   OpBuild here (S (S v)) (LLVMBuildExtractValue (Some (LLVMInstrResult v)) 1);
   OpAppendBasicBlock (cur_fn_val (cur g)) "OverflowFail" fail_block;
   OpAppendBasicBlock (cur_fn_val (cur g)) "OverflowOk" ok_block;
   OpBuild here (S (S (S v)))
     (LLVMBuildCondBr (Some (LLVMInstrResult (S (S v))))
                      (Some fail_block) (Some ok_block))]
  ++ crash_ops g fail_block (S (S (S (S v)))).

(** The private, constant, unnamed-address global that holds the bytes
    of a name (without a terminating NUL). *)
Definition name_global `{Collaborators} (name : string) : LLVMGlobal :=
  let str_init := LLVMConstString name (String.length name) true in
  mkGlobal EmptyString (LLVMTypeOf str_init) (Some str_init) LLVMPrivateLinkage
           true true.

(** The slice struct of an error name: a pointer to the global with index
    [global_index] and the length of the name. *)
Definition error_name_slice `{Collaborators} (g : CodeGen) (name : string)
    (global_index : nat) : LLVMValueRef :=
  let str_type := get_slice_type (entry_u8 (config g)) true in
  let u8_ptr_type := structure_field_type str_type 0 in
  Some (LLVMConstNamedStruct (type_ref str_type)
          [Some (LLVMConstBitCast (LLVMGlobalVar global_index)
                                  (type_ref u8_ptr_type));
           Some (LLVMConstInt (type_ref (entry_usize (config g)))
                              (Z.of_nat (String.length name)) false)]).

(** An entry of the error declaration list that declares the error
    [name]. *)
Definition declares_error (decl : option AstNode) (name : string) : Prop :=
  exists node, decl = Some node /\ data node = NodeTypeErrorValueDecl name.

(** The instruction walk lowers an instruction unless it is unreferenced
    and free of side effects. *)
Definition lowered `{Collaborators} (instruction : IrInstr) : bool :=
  negb (Nat.eqb (ref_count (instr_base instruction)) 0
        && negb (ir_has_side_effects instruction)).

(** ** Sample programs *)

Module Sample.

Definition node : AstNode := mkAstNode 3 4 NodeTypeOther.

Definition i32 : TypeTableEntry :=
  mkType 1 TypeTableEntryIdInt (LLVMIntType 32) false true 32 0 false.
Definition u8 : TypeTableEntry :=
  mkType 2 TypeTableEntryIdInt (LLVMIntType 8) false false 8 0 false.
Definition usize : TypeTableEntry :=
  mkType 3 TypeTableEntryIdInt (LLVMIntType 64) false false 64 0 false.
Definition isize : TypeTableEntry :=
  mkType 4 TypeTableEntryIdInt (LLVMIntType 64) false true 64 0 false.
Definition f64 : TypeTableEntry :=
  mkType 5 TypeTableEntryIdFloat (LLVMRealType 64) false false 0 0 false.
Definition u8_ptr : TypeTableEntry :=
  mkType 6 TypeTableEntryIdPointer (LLVMPointerType (LLVMIntType 8) 0)
         false false 0 0 true.
Definition str : TypeTableEntry :=
  mkType 7 TypeTableEntryIdStruct (LLVMNamedStruct "[]u8") false false 0 0
         false.
Definition u16 : TypeTableEntry :=
  mkType 8 TypeTableEntryIdInt (LLVMIntType 16) false false 16 0 false.
Definition void : TypeTableEntry :=
  mkType 9 TypeTableEntryIdVoid LLVMVoidType true false 0 0 false.

Definition target_data : LLVMTargetData :=
  mkTargetData (fun _ => 4%N) (fun _ => 4).

#[local] Instance collaborators : Collaborators := {|
  handle_is_ptr t :=
    match id t with
    | TypeTableEntryIdStruct | TypeTableEntryIdArray => true
    | _ => false
    end;
  get_memcpy_align _ := 4%N;
  get_slice_type _ _ := str;
  structure_field_type _ _ := u8_ptr;
  get_pointer_to_type _ _ := u8_ptr;
  get_scope_import _ := Some 0;
  ir_has_side_effects _ := true;
  buf_eql_mem buf mem len :=
    N.eqb (N.of_nat (String.length buf)) len
    && String.eqb buf (substring 0 (String.length buf) mem);
  LLVMTypeOf v :=
    match v with
    | LLVMConstInt ty _ _ | LLVMConstNull ty | LLVMConstAllOnes ty
    | LLVMGetUndef ty | LLVMConstBitCast _ ty | LLVMConstNamedStruct ty _ =>
        ty
    | LLVMConstString _ len dont_null_terminate =>
        LLVMArrayType LLVMInt8Type
          (N.of_nat (if dont_null_terminate then len else S len))
    | LLVMConstArray ty elems => LLVMArrayType ty (N.of_nat (length elems))
    | LLVMConstStruct _ packed => LLVMStructType [] packed
    | LLVMInstrResult _ => LLVMIntType 16
    | _ => LLVMPointerType LLVMInt8Type 0
    end;
  gen_const_val t _ c := Some (Some (LLVMConstNull (type_ref t)), c)
|}.

Definition native_x86 : ZigTarget :=
  mkTarget (ZigLLVM_ArchType_other 0) ZigLLVM_MacOSX.
Definition native_arm : ZigTarget := mkTarget ZigLLVM_aarch64 ZigLLVM_IOS.

Definition blank : CodeGenConfig :=
  mkConfig false false false false [] [] 0 [] [] [] None
           usize isize u8 f64 i32 8 target_data false native_x86 None None.

(** A debug build with no declared errors. *)
Definition debug_config : CodeGenConfig :=
  codegen_create (fun _ => None) native_x86 None blank.

Definition with_release (b : bool) (g : CodeGenConfig) : CodeGenConfig :=
  mkConfig b (is_test_build g) (strip_debug_symbols g)
    (g_generate_error_name_table g) (error_decls g) (errors g)
    (test_fn_count g) (global_vars g) (fn_protos g) (fn_defs g) (main_fn g)
    (entry_usize g) (entry_isize g) (entry_u8 g) (entry_f64 g) (entry_i32 g)
    (pointer_size_bytes g) (target_data_ref g) (is_native_target g)
    (zig_target g) (mmacosx_version_min g) (mios_version_min g).

Definition with_test (b : bool) (g : CodeGenConfig) : CodeGenConfig :=
  mkConfig (is_release_build g) b (strip_debug_symbols g)
    (g_generate_error_name_table g) (error_decls g) (errors g)
    (test_fn_count g) (global_vars g) (fn_protos g) (fn_defs g) (main_fn g)
    (entry_usize g) (entry_isize g) (entry_u8 g) (entry_f64 g) (entry_i32 g)
    (pointer_size_bytes g) (target_data_ref g) (is_native_target g)
    (zig_target g) (mmacosx_version_min g) (mios_version_min g).

Definition with_errors (flag : bool) (decls : list (option AstNode))
    (g : CodeGenConfig) : CodeGenConfig :=
  mkConfig (is_release_build g) (is_test_build g) (strip_debug_symbols g)
    flag decls (errors g)
    (test_fn_count g) (global_vars g) (fn_protos g) (fn_defs g) (main_fn g)
    (entry_usize g) (entry_isize g) (entry_u8 g) (entry_f64 g) (entry_i32 g)
    (pointer_size_bytes g) (target_data_ref g) (is_native_target g)
    (zig_target g) (mmacosx_version_min g) (mios_version_min g).

Definition with_fns (protos defs : list FnTableEntry) (g : CodeGenConfig)
  : CodeGenConfig :=
  mkConfig (is_release_build g) (is_test_build g) (strip_debug_symbols g)
    (g_generate_error_name_table g) (error_decls g) (errors g)
    (test_fn_count g) (global_vars g) protos defs (main_fn g)
    (entry_usize g) (entry_isize g) (entry_u8 g) (entry_f64 g) (entry_i32 g)
    (pointer_size_bytes g) (target_data_ref g) (is_native_target g)
    (zig_target g) (mmacosx_version_min g) (mios_version_min g).

(** The generator before [define_builtin_fns]. *)
Definition fresh (c : CodeGenConfig) : CodeGen :=
  mkCodeGen c (mkBuilder None 0 0 [])
    (mkConstState (mkModule [] []) ∅ ∅ ∅)
    (mkIrHandles ∅ ∅ ∅ ∅ ∅ ∅)
    (mkIntrinsics None None None ∅ None [])
    (mkCurFn None None None) EmptyString.

(** The generator once the builtin functions are defined. *)
Definition start (c : CodeGenConfig) : CodeGen :=
  match define_builtin_fns (fresh c) with
  | Ok _ g => g
  | _ => fresh c
  end.

Definition file_scope : Scope := [ScopeIdDecls node None false false].
Definition fn_scope : Scope := ScopeIdFnDef node 1 :: file_scope.

(** A block that switches safety on explicitly, inside a function. *)
Definition safety_on_block : Scope :=
  ScopeIdBlock node (Some node) false :: fn_scope.
Definition plain_block : Scope := ScopeIdBlock node None false :: fn_scope.

Definition runtime (k : nat) : ConstExprValue := mkConst k ConstValSpecialRuntime.

Definition operand (k : nat) (t : TypeTableEntry) : IrInstruction :=
  mkIrInstruction k plain_block node t (runtime k) 1.

Definition in_scope (k : nat) (s : Scope) (t : TypeTableEntry) : IrInstruction :=
  mkIrInstruction k s node t (runtime k) 1.

(** The state a run ends in. *)
Definition state_after {A} (c : M A) (g : CodeGen) : CodeGen :=
  match c g with
  | Ok _ g' => g'
  | Exit _ g' => g'
  | Abort => g
  end.

(** Two operands that were lowered before: their values are cached. *)
Definition with_operands (g : CodeGen) : CodeGen :=
  with_handles (fun h =>
    set_instr_llvm_value 1 (Some (LLVMInstrResult 100))
      (set_instr_llvm_value 2 (Some (LLVMInstrResult 101)) h)) g.

Definition debug_state : CodeGen := with_operands (start debug_config).

(** [%3 = add i32 %1, %2], with and without the instruction's own
    safety flag. *)
Definition add_i32 (safety_check_on : bool) : IrInstructionBinOp :=
  mkBinOp (operand 3 i32) IrBinOpAdd (operand 1 i32) (operand 2 i32)
          safety_check_on.

(** [var x: i32 = undefined], referenced [refs] times. *)
Definition var_x (refs : nat) : VariableTableEntry :=
  mkVar 7 "x" i32 (runtime 8) refs (Some node) plain_block false false
        SIZE_MAX SIZE_MAX.

Definition decl_x (refs : nat) : IrInstructionDeclVar :=
  mkDeclVar (operand 9 void) (var_x refs)
            (mkIrInstruction 4 plain_block node i32
                             (mkConst 4 ConstValSpecialUndef) 1).

(** A program that declares the errors [OutOfMemory] and [Overflow]. *)
Definition error_decl (name : string) : option AstNode :=
  Some (mkAstNode 0 0 (NodeTypeErrorValueDecl name)).

Definition errors_config : CodeGenConfig :=
  with_errors true [None; error_decl "OutOfMemory"; error_decl "Overflow"]
              debug_config.

Definition errors_state : CodeGen :=
  with_operands (state_after generate_error_name_table (start errors_config)).

(** A program that declares no error but refers to error names. *)
Definition no_errors_state : CodeGen :=
  with_operands (start (with_errors true [None] debug_config)).

Definition err_name : IrInstructionErrName :=
  mkErrName (operand 3 str) (operand 1 u16).

(** [asm ("syscall" : [ret] "={rax}" (-> usize) : [number] "{rax}" (%1)
    : "rcx", "r11")]: not marked volatile, one output. *)
Definition syscall_expr : AstNodeAsmExpr :=
  mkAsmExpr "syscall" [mkAsmToken AsmTokenIdTemplate 0 7] false
            [mkAsmOutput "ret" "={rax}" true]
            [mkAsmInput "number" "{rax}"]
            ["rcx"; "r11"].

Definition syscall : IrInstructionAsm :=
  mkAsm (mkIrInstruction 3 plain_block
                         (mkAstNode 1 1 (NodeTypeAsmExpr syscall_expr))
                         usize (runtime 3) 1)
        [operand 1 usize] [None] 1.

(** A test build without test functions. *)
Definition no_tests_state : CodeGen :=
  start (with_test true debug_config).

(** A function of two blocks, [Entry] with a checked add and [Merge]
    with a phi of the sum:
    [Entry: %3 = add i32 %1, %2; br Merge]
    [Merge: %5 = phi i32 [%3, Entry]; return %5]. *)
Definition entry_block : IrBasicBlock :=
  mkBasicBlock 0 "Entry" 1
    [IrInstructionIdBinOp (add_i32 true);
     IrInstructionIdBr (mkBr (operand 4 void) 1)].

Definition sum_phi : IrInstructionPhi :=
  mkPhi (operand 5 i32) 1 [0] [operand 3 i32].

Definition merge_block : IrBasicBlock :=
  mkBasicBlock 1 "Merge" 1
    [IrInstructionIdPhi sum_phi;
     IrInstructionIdReturn (mkReturn (operand 6 void) (operand 5 i32))].

Definition fn_of (blocks : list IrBasicBlock) : FnTableEntry :=
  mkFn 0 "add" false FnInlineAuto false
       (mkFnType i32 false false 0
                 (LLVMFunctionType (LLVMIntType 32)
                                   [LLVMIntType 32; LLVMIntType 32] false)
                 [])
       blocks [] [] fn_scope.

Definition sum_fn : FnTableEntry := fn_of [entry_block; merge_block].

(** The state of the function driver when it starts the instruction
    walk: the function is current and all its blocks are built. *)
Definition walk_state (fn : FnTableEntry) : CodeGen :=
  state_after
    (fn_val <- fn_llvm_value fn ;;
     modify (with_cur (fun _ => mkCurFn (Some fn) fn_val None)) ;;
     build_all_basic_blocks fn)
    debug_state.

(** The state once the function driver gave [x] its stack slot. *)
Definition decl_state : CodeGen :=
  with_handles (fun h =>
    set_var_value_ref 7 (Some (LLVMInstrResult 50))
      (set_var_di_loc_var 7 (Some 7) h)) (walk_state sum_fn).

(** A function whose first block has a phi with an edge from the block
    after it; the value on that edge was computed before the function
    body:
    [Head: %5 = phi i32 [%1, Body]; br Body]
    [Body: %3 = add i32 %1, %2; br Head]. *)
Definition back_phi : IrInstructionPhi :=
  mkPhi (operand 5 i32) 1 [1] [operand 1 i32].

Definition head_block : IrBasicBlock :=
  mkBasicBlock 0 "Head" 2
    [IrInstructionIdPhi back_phi;
     IrInstructionIdBr (mkBr (operand 4 void) 1)].

Definition body_block : IrBasicBlock :=
  mkBasicBlock 1 "Body" 1
    [IrInstructionIdBinOp (add_i32 true);
     IrInstructionIdBr (mkBr (operand 6 void) 0)].

Definition loop_fn : FnTableEntry := fn_of [head_block; body_block].

End Sample.

(** ** Further parts of codegen.cpp *)

(** *** Linker settings *)

(** The fields of the generator that the [codegen_add_*] functions
    append to. *)
Record LinkSettings := mkLinkSettings {
  lib_dirs : list string;
  link_libc : bool;
  link_libs : list string;
  darwin_frameworks : list string }.

Definition codegen_add_lib_dir (dir : string) (g : LinkSettings)
  : LinkSettings :=
  mkLinkSettings (lib_dirs g ++ [dir]) (link_libc g) (link_libs g)
                 (darwin_frameworks g).

Definition codegen_add_link_lib (lib : string) (g : LinkSettings)
  : LinkSettings :=
  if String.eqb lib "c" then
    mkLinkSettings (lib_dirs g) true (link_libs g) (darwin_frameworks g)
  else
    mkLinkSettings (lib_dirs g) (link_libc g)
                   (link_libs g ++ [buf_create_from_str lib])
                   (darwin_frameworks g).

Definition codegen_add_framework (framework : string) (g : LinkSettings)
  : LinkSettings :=
  mkLinkSettings (lib_dirs g) (link_libc g) (link_libs g)
                 (darwin_frameworks g ++ [buf_create_from_str framework]).

(** *** C types for the header file *)

Inductive CIntType :=
| CIntTypeShort | CIntTypeUShort | CIntTypeInt | CIntTypeUInt
| CIntTypeLong | CIntTypeULong | CIntTypeLongLong | CIntTypeULongLong.

Definition c_int_types : list CIntType :=
  [CIntTypeShort; CIntTypeUShort; CIntTypeInt; CIntTypeUInt;
   CIntTypeLong; CIntTypeULong; CIntTypeLongLong; CIntTypeULongLong].

Definition c_int_type_names (t : CIntType) : string :=
  match t with
  | CIntTypeShort => "short"
  | CIntTypeUShort => "unsigned short"
  | CIntTypeInt => "int"
  | CIntTypeUInt => "unsigned int"
  | CIntTypeLong => "long"
  | CIntTypeULong => "unsigned long"
  | CIntTypeLongLong => "long long"
  | CIntTypeULongLong => "unsigned long long"
  end.

(** The builtin types [get_c_type] compares a type with. *)
Record CBuiltinTypes := mkCBuiltinTypes {
  entry_c_int : CIntType -> TypeTableEntry;
  entry_c_long_double : TypeTableEntry;
  entry_c_void : TypeTableEntry;
  c_entry_isize : TypeTableEntry;
  c_entry_usize : TypeTableEntry }.

(** The two flags of the generator that [get_c_type] sets. *)
Record HeaderFlags := mkHeaderFlags {
  c_want_stdint : bool;
  c_want_stdbool : bool }.

(** A type entry with the members of its [data] union that the header
    generator follows: [data.floating.bit_count] and the child type of a
    pointer or maybe type. *)
Inductive TypeTree :=
| mkTypeTree (entry : TypeTableEntry) (floating_bit_count : nat)
             (child_type : option TypeTree).

Definition tree_entry (t : TypeTree) : TypeTableEntry :=
  match t with mkTypeTree entry _ _ => entry end.

(** Two pointers to type entries are equal when they point to the same
    entry. *)
Definition same_entry (a b : TypeTableEntry) : bool :=
  Nat.eqb (type_id a) (type_id b).

(** [get_c_type]: the name of the C type and the flags afterwards;
    [None] is an abort. *)
Fixpoint get_c_type (builtin_types : CBuiltinTypes) (t : TypeTree)
    (g : HeaderFlags) : option (string * HeaderFlags) :=
  let '(mkTypeTree type_entry floating_bit_count child_type) := t in
  match List.find (fun i => same_entry type_entry (entry_c_int builtin_types i))
                  c_int_types with
  | Some i => Some (c_int_type_names i, g)
  | None =>
      if same_entry type_entry (entry_c_long_double builtin_types) then
        Some ("long double", g)
      else if same_entry type_entry (entry_c_void builtin_types) then
        Some ("void", g)
      else if same_entry type_entry (c_entry_isize builtin_types) then
        Some ("intptr_t", mkHeaderFlags true (c_want_stdbool g))
      else if same_entry type_entry (c_entry_usize builtin_types) then
        Some ("uintptr_t", mkHeaderFlags true (c_want_stdbool g))
      else
        match id type_entry with
        | TypeTableEntryIdVoid => Some ("void", g)
        | TypeTableEntryIdBool =>
            Some ("bool", mkHeaderFlags (c_want_stdint g) true)
        | TypeTableEntryIdUnreachable =>
            Some ("__attribute__((__noreturn__)) void", g)
        | TypeTableEntryIdFloat =>
            match floating_bit_count with
            | 32 => Some ("float", g)
            | 64 => Some ("double", g)
            | _ => None
            end
        | TypeTableEntryIdInt =>
            Some ((if integral_is_signed type_entry then EmptyString else "u")
                  +:+ "int" +:+ zu (integral_bit_count type_entry) +:+ "_t",
                  mkHeaderFlags true (c_want_stdbool g))
        | TypeTableEntryIdPointer =>
            match child_type with
            | Some child =>
                match get_c_type builtin_types child g with
                | Some (child_buf, g) =>
                    let const_str :=
                      if pointer_is_const type_entry then "const " else EmptyString in
                    Some (const_str +:+ child_buf +:+ " *", g)
                | None => None
                end
            | None => None
            end
        | TypeTableEntryIdMaybe =>
            match child_type with
            | Some child =>
                match id (tree_entry child) with
                | TypeTableEntryIdPointer | TypeTableEntryIdFn =>
                    get_c_type builtin_types child g
                | _ => None
                end
            | None => None
            end
        | TypeTableEntryIdArray | TypeTableEntryIdStruct
        | TypeTableEntryIdErrorUnion | TypeTableEntryIdPureError
        | TypeTableEntryIdEnum | TypeTableEntryIdUnion | TypeTableEntryIdFn
        | TypeTableEntryIdTypeDecl => None          (* zig_panic("TODO") *)
        | _ => None                                 (* zig_unreachable *)
        end
  end.

(** ** Further notions *)

(** The scopes that open a nested debug scope. *)
Definition is_nesting_scope (node : ScopeNode) : bool :=
  match node with
  | ScopeIdBlock _ _ _ | ScopeIdDefer _ | ScopeIdVarDecl _ | ScopeIdLoop _
  | ScopeIdFnDef _ _ => true
  | _ => false
  end.

(** How deep a debug scope is nested below a file or a type. *)
Fixpoint di_depth (d : ZigLLVMDIScope) : nat :=
  match d with
  | DIFileScope | DITypeScope => 0
  | DISubprogram parent _ => S (di_depth parent)
  | DILexicalBlock parent _ _ => S (di_depth parent)
  end.

(** The slot of [int_overflow_fns] for a type and an operation. *)
Definition overflow_slot (type_entry : TypeTableEntry) (op : AddSubMul)
  : nat * nat * nat :=
  (if integral_is_signed type_entry then 0 else 1,
   AddSubMul_index op,
   match integral_bit_count type_entry with
   | 8 => 0 | 16 => 1 | 32 => 2 | _ => 3
   end).

Definition overflow_slot_name (slot : nat * nat * nat) : string :=
  let '(index0, index1, index2) := slot in
  overflow_fn_name index0 index1 index2.

(** The declaration of the overflow intrinsic of a type: it takes two
    values of the type and returns a value and the overflow bit. *)
Definition overflow_fn_decl (type_entry : TypeTableEntry) (op : AddSubMul)
  : LLVMFunctionDecl :=
  mkFunctionDecl (overflow_slot_name (overflow_slot type_entry op))
    (LLVMFunctionType
       (LLVMStructType [type_ref type_entry; LLVMInt1Type] false)
       [type_ref type_entry; type_ref type_entry] false)
    LLVMExternalLinkage 0 [] [].

Definition overflow_width (bits : nat) : bool :=
  match bits with 8 | 16 | 32 | 64 => true | _ => false end.

(** The code of a shift-left overflow check: the shift, the shift back
    (arithmetic for a signed type), the compare with the operand and the
    branch where the builder stands, and the fail block. *)
Definition overflow_shl_ops (g : CodeGen) (is_signed : bool)
    (val1 val2 : LLVMValueRef) : list LLVMOp :=
  let here := insert_block (builder g) in
  let ok_block := next_block (builder g) in
  let fail_block := S ok_block in
  let v := next_value (builder g) in
  [OpBuild here v (LLVMBuildBinary Shl val1 val2);
   OpBuild here (S v)
     (LLVMBuildBinary (if is_signed then AShr else LShr)
                      (Some (LLVMInstrResult v)) val2);
   OpBuild here (S (S v))
     (LLVMBuildICmp LLVMIntEQ val1 (Some (LLVMInstrResult (S v))));
   OpAppendBasicBlock (cur_fn_val (cur g)) "OverflowOk" ok_block;
   OpAppendBasicBlock (cur_fn_val (cur g)) "OverflowFail" fail_block;
   OpBuild here (S (S (S v)))
     (LLVMBuildCondBr (Some (LLVMInstrResult (S (S v))))
                      (Some ok_block) (Some fail_block))]
  ++ crash_ops g fail_block (S (S (S (S v)))).

(** The code of a division by zero check: the compare of the divisor
    with zero and the branch where the builder stands, and the fail
    block. *)
Definition div_zero_ops (g : CodeGen) (type_entry : TypeTableEntry)
    (val2 : LLVMValueRef) : list LLVMOp :=
  let here := insert_block (builder g) in
  let ok_block := next_block (builder g) in
  let fail_block := S ok_block in
  let v := next_value (builder g) in
  let zero := Some (LLVMConstNull (type_ref type_entry)) in
  [OpBuild here v
     match id type_entry with
     | TypeTableEntryIdFloat => LLVMBuildFCmp LLVMRealOEQ val2 zero
     | _ => LLVMBuildICmp LLVMIntEQ val2 zero
     end;
   OpAppendBasicBlock (cur_fn_val (cur g)) "DivZeroOk" ok_block;
   OpAppendBasicBlock (cur_fn_val (cur g)) "DivZeroFail" fail_block;
   OpBuild here (S v)
     (LLVMBuildCondBr (Some (LLVMInstrResult v))
                      (Some fail_block) (Some ok_block))]
  ++ crash_ops g fail_block (S (S v)).

(** The code of the remainder check of an exact division, placed in the
    block [here]; [v] and [ok_block] are the next free handles. *)
Definition div_exact_ops (g : CodeGen) (type_entry : TypeTableEntry)
    (val1 val2 : LLVMValueRef) (here : LLVMBasicBlockRef) (v ok_block : nat)
  : list LLVMOp :=
  let fail_block := S ok_block in
  let zero := Some (LLVMConstNull (type_ref type_entry)) in
  [OpBuild here v
     (LLVMBuildBinary (if integral_is_signed type_entry then SRem else URem)
                      val1 val2);
   OpBuild here (S v) (LLVMBuildICmp LLVMIntEQ (Some (LLVMInstrResult v)) zero);
   OpAppendBasicBlock (cur_fn_val (cur g)) "DivExactOk" ok_block;
   OpAppendBasicBlock (cur_fn_val (cur g)) "DivExactFail" fail_block;
   OpBuild here (S (S v))
     (LLVMBuildCondBr (Some (LLVMInstrResult (S v)))
                      (Some ok_block) (Some fail_block))]
  ++ crash_ops g fail_block (S (S (S v))).

(** The division instruction of a type. *)
Definition div_op (type_entry : TypeTableEntry) (exact : bool) : LLVMBinaryOp :=
  match id type_entry with
  | TypeTableEntryIdFloat => FDiv
  | _ =>
      match exact, integral_is_signed type_entry with
      | true, true => ExactSDiv
      | true, false => ExactUDiv
      | false, true => SDiv
      | false, false => UDiv
      end
  end.

(** Reading an operand leaves alone what belongs to the function being
    generated: where the builder stands, the blocks, the slots allocated
    for instructions and variables, the intrinsics and the settings. *)
Definition read_frame (g g' : CodeGen) : Prop :=
  config g' = config g /\ intrinsics g' = intrinsics g /\ cur g' = cur g
  /\ insert_block (builder g') = insert_block (builder g)
  /\ next_block (builder g') = next_block (builder g)
  /\ instr_tmp_ptr (handles g') = instr_tmp_ptr (handles g)
  /\ var_value_ref (handles g') = var_value_ref (handles g)
  /\ stderr g' = stderr g.

(** The binary operators whose lowering can contain a safety check. *)
Definition checked_bin_op (op : IrBinOp) : bool :=
  match op with
  | IrBinOpAdd | IrBinOpSub | IrBinOpMult | IrBinOpBitShiftLeft
  | IrBinOpDiv => true
  | _ => false
  end.

(** The instruction of a wrapping operator. *)
Definition wrapping_op (op : IrBinOp) : option LLVMBinaryOp :=
  match op with
  | IrBinOpAddWrap => Some Add
  | IrBinOpSubWrap => Some Sub
  | IrBinOpMultWrap => Some Mul
  | IrBinOpBitShiftLeftWrap => Some Shl
  | _ => None
  end.

(** A step that leaves the builder in the block it stood in. *)
Definition position_frame (g g' : CodeGen) : Prop :=
  insert_block (builder g') = insert_block (builder g).

(** The symbol a function is declared under: functions with internal
    linkage get an underscore in front. *)
Definition fn_symbol (fn_table_entry : FnTableEntry) : string :=
  if internal_linkage fn_table_entry
  then "_" +:+ symbol_name fn_table_entry
  else symbol_name fn_table_entry.

(** The attributes of the declaration of a function, in the order they
    are added. *)
Definition fn_attributes (g : CodeGen) (fn_table_entry : FnTableEntry)
  : list LLVMAttribute :=
  let fn_type := fn_type fn_table_entry in
  match fn_inline fn_table_entry with
  | FnInlineAlways => [LLVMAlwaysInlineAttribute]
  | FnInlineNever => [LLVMNoInlineAttribute]
  | FnInlineAuto => []
  end
  ++ (if is_naked fn_type then [LLVMNakedAttribute] else [])
  ++ match id (return_type fn_type) with
     | TypeTableEntryIdUnreachable => [LLVMNoReturnAttribute]
     | _ => []
     end
  ++ (if is_extern fn_type then [] else [LLVMNoUnwindAttribute])
  ++ (if is_release_build (config g) then []
      else match fn_inline fn_table_entry with
           | FnInlineAlways => []
           | _ => [ZigLLVMStringAttr "no-frame-pointer-elim" (Some "true");
                   ZigLLVMStringAttr "no-frame-pointer-elim-non-leaf" None]
           end).

Definition fn_decl (g : CodeGen) (fn_table_entry : FnTableEntry)
  : LLVMFunctionDecl :=
  mkFunctionDecl (fn_symbol fn_table_entry)
    (raw_type_ref (fn_type fn_table_entry))
    (if internal_linkage fn_table_entry
     then LLVMInternalLinkage else LLVMExternalLinkage)
    (calling_convention (fn_type fn_table_entry))
    (fn_attributes g fn_table_entry) [].

(** A step that changes nothing but the declarations of functions. *)
Definition declaration_frame (g g' : CodeGen) : Prop :=
  config g' = config g /\ builder g' = builder g /\ handles g' = handles g
  /\ intrinsics g' = intrinsics g /\ cur g' = cur g /\ stderr g' = stderr g
  /\ globals (module (consts g')) = globals (module (consts g))
  /\ const_llvm_value (consts g') = const_llvm_value (consts g)
  /\ const_llvm_global (consts g') = const_llvm_global (consts g)
  /\ fn_llvm_values (consts g') = fn_llvm_values (consts g).

(** A run that returns [a] and turns the declaration [d] of the function
    [name], the last one of the module, into [d']. *)
Definition declaration_run {A} (name : string) (d d' : LLVMFunctionDecl)
    (a : A) (c : M A) : Prop :=
  forall g l,
    functions (module (consts g)) = l ++ [d] ->
    exists g' l',
      c g = Ok a g'
      /\ functions (module (consts g')) = l' ++ [d']
      /\ length l' = length l
      /\ declaration_frame g g'.

Definition add_attrs (attrs : list LLVMAttribute) (d : LLVMFunctionDecl)
  : LLVMFunctionDecl :=
  mkFunctionDecl (function_name d) (function_type d) (function_linkage d)
                 (function_call_conv d) (function_attrs d ++ attrs)
                 (function_index_attrs d).

(** The blocks appended for the basic blocks of a function, in order;
    [first] is the handle of the first one. *)
Definition append_block_ops (fn_val : LLVMValueRef) (first : nat)
    (blocks : list IrBasicBlock) : list LLVMOp :=
  imap (fun i bb => OpAppendBasicBlock fn_val (name_hint bb) (first + i))
       blocks.

(** A function of the module that backs a builtin function nobody
    refers to. *)
Definition is_unused_builtin_fn (table : list BuiltinFnEntry) (name : string)
  : bool :=
  existsb (fun builtin_fn =>
             Nat.eqb (builtin_ref_count builtin_fn) 0
             && match fn_val builtin_fn with
                | Some (LLVMFunction f) => String.eqb f name
                | _ => false
                end)
          table.

(** The values a builtin function can be backed by: none, or a function
    of the module. *)
Definition backed_by_function (builtin_fn : BuiltinFnEntry) : Prop :=
  match fn_val builtin_fn with
  | None | Some (LLVMFunction _) => True
  | _ => False
  end.

(** A computation that never ends the process. *)
Definition no_exit {A} (c : M A) : Prop :=
  forall g status g', c g <> Exit status g'.

(** The position of the first name that satisfies [p]. *)
Fixpoint first_match (p : string -> bool) (names : list string) : option nat :=
  match names with
  | [] => None
  | name :: rest =>
      if p name then Some 0
      else match first_match p rest with
           | Some i => Some (S i)
           | None => None
           end
  end.

(** The symbolic names an inline assembly expression declares: those of
    the outputs, then those of the inputs. *)
Definition asm_symbols (asm_expr : AstNodeAsmExpr) : list string :=
  map out_asm_symbolic_name (output_list asm_expr)
  ++ map in_asm_symbolic_name (input_list asm_expr).

(** A string with every [$] doubled. *)
Fixpoint escape_dollars (s : string) : string :=
  match s with
  | EmptyString => EmptyString
  | String c s' =>
      (if Ascii.eqb c "$" then "$$" else String c EmptyString)
      +:+ escape_dollars s'
  end.

(** The entry a pointer or maybe type leads to in the end. *)
Fixpoint c_base_type (t : TypeTree) : TypeTableEntry :=
  match t with
  | mkTypeTree entry _ (Some child) =>
      match id entry with
      | TypeTableEntryIdPointer | TypeTableEntryIdMaybe => c_base_type child
      | _ => entry
      end
  | mkTypeTree entry _ None => entry
  end.

(** One of the builtin types that have a C name of their own. *)
Definition is_c_named (builtin_types : CBuiltinTypes) (entry : TypeTableEntry)
  : bool :=
  existsb (fun i => same_entry entry (entry_c_int builtin_types i)) c_int_types
  || same_entry entry (entry_c_long_double builtin_types)
  || same_entry entry (entry_c_void builtin_types).

Definition is_c_size (builtin_types : CBuiltinTypes) (entry : TypeTableEntry)
  : bool :=
  same_entry entry (c_entry_isize builtin_types)
  || same_entry entry (c_entry_usize builtin_types).

(** The pointer and maybe types on the way to the base type are none of
    the builtin types. *)
Fixpoint plain_pointers (builtin_types : CBuiltinTypes) (t : TypeTree) : bool :=
  match t with
  | mkTypeTree entry _ (Some child) =>
      match id entry with
      | TypeTableEntryIdPointer | TypeTableEntryIdMaybe =>
          negb (is_c_named builtin_types entry)
          && negb (is_c_size builtin_types entry)
          && plain_pointers builtin_types child
      | _ => true
      end
  | mkTypeTree _ _ None => true
  end.

(** The base types whose C name comes from stdint.h, and the one whose C
    name comes from stdbool.h. *)
Definition wants_stdint (builtin_types : CBuiltinTypes)
    (entry : TypeTableEntry) : bool :=
  negb (is_c_named builtin_types entry)
  && (is_c_size builtin_types entry
      || match id entry with TypeTableEntryIdInt => true | _ => false end).

Definition wants_stdbool (builtin_types : CBuiltinTypes)
    (entry : TypeTableEntry) : bool :=
  negb (is_c_named builtin_types entry)
  && negb (is_c_size builtin_types entry)
  && match id entry with TypeTableEntryIdBool => true | _ => false end.

(** ** Further sample programs *)

Module Dead.

(** Collaborators for which arithmetic has no side effects, as the
    semantic analyser reports it. *)
#[local] Instance collaborators : Collaborators := {|
  handle_is_ptr := @handle_is_ptr Sample.collaborators;
  get_memcpy_align := @get_memcpy_align Sample.collaborators;
  get_slice_type := @get_slice_type Sample.collaborators;
  structure_field_type := @structure_field_type Sample.collaborators;
  get_pointer_to_type := @get_pointer_to_type Sample.collaborators;
  get_scope_import := @get_scope_import Sample.collaborators;
  ir_has_side_effects instruction :=
    match instruction with
    | IrInstructionIdBinOp _ | IrInstructionIdPhi _ | IrInstructionIdRef _ =>
        false
    | _ => true
    end;
  buf_eql_mem := @buf_eql_mem Sample.collaborators;
  LLVMTypeOf := @LLVMTypeOf Sample.collaborators;
  gen_const_val := @gen_const_val Sample.collaborators
|}.

(** [%3 = add i32 %1, %2], never used. *)
Definition unused_add : IrInstr :=
  IrInstructionIdBinOp
    (mkBinOp (mkIrInstruction 3 [] Sample.node Sample.i32 (Sample.runtime 3) 0)
             IrBinOpAdd (Sample.operand 1 Sample.i32)
             (Sample.operand 2 Sample.i32) true).

End Dead.

Module Suite.

(** A test function and a test build that holds just it. *)
Definition test_fn : FnTableEntry :=
  mkFn 9 "test_add" true FnInlineAuto true
       (mkFnType Sample.void false false 0
                 (LLVMFunctionType LLVMVoidType [] false) [])
       [] [] [] Sample.fn_scope.

Definition config : CodeGenConfig :=
  let c := Sample.with_fns [test_fn] [] (Sample.with_test true Sample.debug_config) in
  mkConfig (is_release_build c) (is_test_build c) (strip_debug_symbols c)
    (g_generate_error_name_table c) (error_decls c) (errors c)
    1 (global_vars c) (fn_protos c) (fn_defs c) (main_fn c)
    (entry_usize c) (entry_isize c) (entry_u8 c) (entry_f64 c)
    (entry_i32 c) (pointer_size_bytes c) (target_data_ref c)
    (is_native_target c) (zig_target c) (mmacosx_version_min c)
    (mios_version_min c).

Definition state : CodeGen := Sample.start config.

End Suite.

Module Header.

Definition c_int (k : nat) : TypeTableEntry :=
  mkType k TypeTableEntryIdInt (LLVMIntType 32) false true 32 0 false.

Definition builtin_types : CBuiltinTypes :=
  mkCBuiltinTypes
    (fun i => match i with
              | CIntTypeShort => c_int 20 | CIntTypeUShort => c_int 21
              | CIntTypeInt => c_int 22 | CIntTypeUInt => c_int 23
              | CIntTypeLong => c_int 24 | CIntTypeULong => c_int 25
              | CIntTypeLongLong => c_int 26 | CIntTypeULongLong => c_int 27
              end)
    (mkType 28 TypeTableEntryIdFloat (LLVMRealType 80) false false 0 0 false)
    (mkType 29 TypeTableEntryIdVoid LLVMVoidType true false 0 0 false)
    Sample.isize Sample.usize.

(** [?&const u8] *)
Definition maybe_const_u8_ptr : TypeTree :=
  mkTypeTree
    (mkType 30 TypeTableEntryIdMaybe (LLVMPointerType (LLVMIntType 8) 0)
            false false 0 0 false)
    0
    (Some (mkTypeTree Sample.u8_ptr 0 (Some (mkTypeTree Sample.u8 0 None)))).

End Header.

(** * Properties *)

(** ** The safety predicate *)

Lemma safety_walk_nearest pre node rest off :
  Forall (fun m => explicit_safety_off m = None) pre ->
  explicit_safety_off node = Some off ->
  safety_walk (pre ++ node :: rest) = negb off.
Proof.
  intros Hpre Hnode. induction Hpre as [|m pre Hm _ IH]; simpl.
  - destruct node as [? [?|] ? ?|? [?|] ?| | | | |]; simpl in Hnode;
      congruence.
  - destruct m as [? [?|] ? ?|? [?|] ?| | | | |]; simpl in Hm;
      try discriminate; exact IH.
Qed.

Lemma safety_walk_default scope :
  Forall (fun m => explicit_safety_off m = None) scope ->
  safety_walk scope = true.
Proof.
  induction 1 as [|m scope Hm _ IH]; simpl; [reflexivity|].
  destruct m as [? [?|] ? ?|? [?|] ?| | | | |]; simpl in Hm;
    try discriminate; exact IH.
Qed.

(** C1, as the claim states it, fails in a release build: an instruction
    in a block that explicitly sets safety on gets [false]. *)
Lemma want_debug_safety_release_counterexample :
  let g := Sample.fresh (Sample.with_release true Sample.debug_config) in
  let instruction := Sample.in_scope 1 Sample.safety_on_block Sample.i32 in
  is_release_build (config g) = true
  /\ (exists node rest,
        scope instruction = node :: rest
        /\ explicit_safety_off node = Some false)
  /\ ir_want_debug_safety g instruction <> true.
Proof.
  simpl. split; [reflexivity|]. split.
  - eexists _, _. split; reflexivity.
  - discriminate.
Qed.

(** C1 (amended): in a build that is not a release build, the nearest
    enclosing Block or Decls scope that sets the safety flag explicitly
    decides: the predicate is the negation of its [safety_off]; when no
    enclosing scope sets the flag, safety is on.  In a release build the
    predicate is false whatever the scopes say. *)
Theorem want_debug_safety_by_scope (g : CodeGen) (instruction : IrInstruction) :
  (is_release_build (config g) = true ->
   ir_want_debug_safety g instruction = false)
  /\ (is_release_build (config g) = false ->
      (forall pre node rest off,
          scope instruction = pre ++ node :: rest ->
          Forall (fun m => explicit_safety_off m = None) pre ->
          explicit_safety_off node = Some off ->
          ir_want_debug_safety g instruction = negb off)
      /\ (Forall (fun m => explicit_safety_off m = None) (scope instruction) ->
          ir_want_debug_safety g instruction = true)).
Proof.
  unfold ir_want_debug_safety. split; intros ->; [reflexivity|]. split.
  - intros pre node rest off -> Hpre Hnode.
    now apply safety_walk_nearest.
  - apply safety_walk_default.
Qed.

Lemma want_debug_safety_by_scope_witness :
  ir_want_debug_safety
    (Sample.fresh Sample.debug_config)
    (Sample.in_scope 1 (ScopeIdLoop Sample.node :: Sample.safety_on_block)
                     Sample.i32)
  = negb false.
Proof.
  refine (proj1 (proj2 (want_debug_safety_by_scope _ _) _)
                [ScopeIdLoop Sample.node] _ _ false _ _ _).
  - reflexivity.
  - reflexivity.
  - repeat constructor.
  - reflexivity.
Defined.

(** ** The Darwin deployment target *)

(** C7: compiling natively for a Darwin target, when both variables are
    set the iOS value is used, and the macOS value dropped, exactly when
    the architecture is ARM, AArch64 or Thumb, and otherwise the macOS
    value is used and the iOS value dropped; when only one variable is
    set, that one is used. *)
Theorem darwin_deployment_target (getenv : Environ) (native : ZigTarget)
    (blank : CodeGenConfig) :
  is_darwin native = true ->
  let g := codegen_create getenv native None blank in
  match getenv "MACOSX_DEPLOYMENT_TARGET",
        getenv "IPHONEOS_DEPLOYMENT_TARGET" with
  | Some osx, Some ios =>
      if is_arm_family (arch native)
      then mios_version_min g = Some ios /\ mmacosx_version_min g = None
      else mmacosx_version_min g = Some osx /\ mios_version_min g = None
  | Some osx, None =>
      mmacosx_version_min g = Some osx /\ mios_version_min g = None
  | None, Some ios =>
      mios_version_min g = Some ios /\ mmacosx_version_min g = None
  | None, None =>
      mmacosx_version_min g = None /\ mios_version_min g = None
  end.
Proof.
  intros Hos. unfold codegen_create, is_darwin in *. simpl.
  destruct (os native); try discriminate;
    unfold init_darwin_native; simpl;
    destruct (getenv "MACOSX_DEPLOYMENT_TARGET") as [osx|],
             (getenv "IPHONEOS_DEPLOYMENT_TARGET") as [ios|];
    simpl; try (split; reflexivity);
    destruct (arch native); simpl; split; reflexivity.
Qed.

Lemma darwin_deployment_target_witness :
  let getenv := fun name : string =>
    if String.eqb name "MACOSX_DEPLOYMENT_TARGET" then Some "10.12"
    else if String.eqb name "IPHONEOS_DEPLOYMENT_TARGET" then Some "10.0"
    else None in
  let g := codegen_create getenv Sample.native_arm None Sample.blank in
  mios_version_min g = Some "10.0" /\ mmacosx_version_min g = None.
Proof.
  intros getenv.
  exact (darwin_deployment_target getenv Sample.native_arm Sample.blank
                                  eq_refl).
Defined.

(** ** Bounds checks *)

Lemma add_bounds_check_one (g : CodeGen) target_val pred bound :
  exists g',
    emitted_by g g' (one_bound_ops g pred target_val (Some bound))
    /\ insert_block (builder g') = Some (S (next_block (builder g)))
    /\ (forall other_pred,
          add_bounds_check target_val pred (Some bound) other_pred None g
          = Ok tt g'
          /\ add_bounds_check target_val other_pred None pred (Some bound) g
             = Ok tt g').
Proof.
  eexists. split; [|split; [|intros other_pred; split; reflexivity]].
  - unfold emitted_by, one_bound_ops, crash_ops. cbn.
    rewrite <- !app_assoc. reflexivity.
  - reflexivity.
Qed.

Lemma add_bounds_check_two (g : CodeGen) target_val lower_pred lower
    upper_pred upper :
  exists g',
    add_bounds_check target_val lower_pred (Some lower) upper_pred (Some upper) g
    = Ok tt g'
    /\ emitted_by g g' (two_bounds_ops g lower_pred upper_pred target_val
                                       (Some lower) (Some upper))
    /\ insert_block (builder g') = Some (S (next_block (builder g))).
Proof.
  eexists. split; [reflexivity|]. split; [|reflexivity].
  unfold emitted_by, two_bounds_ops, crash_ops. cbn.
  rewrite <- !app_assoc. reflexivity.
Qed.

(** C4: without a bound nothing is emitted; with one bound, one compare
    and one conditional branch are emitted; with both, the lower compare
    comes first, the upper compare is placed in the block reached when the
    lower check passed, and both branches go to the same fail block on
    failure, which calls the trap intrinsic and ends in unreachable.  In
    every case the builder ends in the ok block. *)
Theorem add_bounds_check_shape (g : CodeGen) (target_val : LLVMValueRef)
    (lower_pred upper_pred : LLVMIntPredicate)
    (lower_value upper_value : LLVMValueRef) :
  match lower_value, upper_value with
  | None, None =>
      add_bounds_check target_val lower_pred None upper_pred None g = Ok tt g
  | Some _, None =>
      exists g' ops,
        add_bounds_check target_val lower_pred lower_value upper_pred None g
        = Ok tt g'
        /\ emitted_by g g' ops
        /\ ops = one_bound_ops g lower_pred target_val lower_value
        /\ count_ops is_icmp ops = 1 /\ count_ops is_cond_br ops = 1
        /\ insert_block (builder g') = Some (S (next_block (builder g)))
  | None, Some _ =>
      exists g' ops,
        add_bounds_check target_val lower_pred None upper_pred upper_value g
        = Ok tt g'
        /\ emitted_by g g' ops
        /\ ops = one_bound_ops g upper_pred target_val upper_value
        /\ count_ops is_icmp ops = 1 /\ count_ops is_cond_br ops = 1
        /\ insert_block (builder g') = Some (S (next_block (builder g)))
  | Some _, Some _ =>
      exists g' ops,
        add_bounds_check target_val lower_pred lower_value
                         upper_pred upper_value g
        = Ok tt g'
        /\ emitted_by g g' ops
        /\ ops = two_bounds_ops g lower_pred upper_pred target_val
                                lower_value upper_value
        /\ count_ops is_icmp ops = 2 /\ count_ops is_cond_br ops = 2
        /\ insert_block (builder g') = Some (S (next_block (builder g)))
  end.
Proof.
  destruct lower_value as [lower|], upper_value as [upper|].
  - destruct (add_bounds_check_two g target_val lower_pred lower
                                   upper_pred upper) as (g' & E & Hops & Hins).
    exists g', (two_bounds_ops g lower_pred upper_pred target_val
                               (Some lower) (Some upper)).
    repeat split; assumption || reflexivity.
  - destruct (add_bounds_check_one g target_val lower_pred lower)
      as (g' & Hops & Hins & E).
    exists g', (one_bound_ops g lower_pred target_val (Some lower)).
    repeat split; try assumption; try reflexivity. apply (E upper_pred).
  - destruct (add_bounds_check_one g target_val upper_pred upper)
      as (g' & Hops & Hins & E).
    exists g', (one_bound_ops g upper_pred target_val (Some upper)).
    repeat split; try assumption; try reflexivity. apply (E lower_pred).
  - reflexivity.
Qed.

(** ** Frames *)

Section Steps.
Context (R : CodeGen -> CodeGen -> Prop) `{!PreOrder R}.

Lemma steps_ret {A} (a : A) : steps R (ret a).
Proof. intros g a' g' [= _ <-]. reflexivity. Qed.

Lemma steps_bind {A B} (c : M A) (k : A -> M B) :
  steps R c -> (forall a, steps R (k a)) -> steps R (bind c k).
Proof.
  intros Hc Hk g b g'. unfold bind.
  destruct (c g) as [a g1| |] eqn:E; try discriminate.
  intros E'. transitivity g1; [eapply Hc | eapply Hk]; eassumption.
Qed.

Lemma steps_get : steps R get.
Proof. intros g a g' [= _ <-]. reflexivity. Qed.

Lemma steps_assert b : steps R (assert b).
Proof.
  intros g a g'. unfold assert. destruct b; [|discriminate].
  intros [= _ <-]. reflexivity.
Qed.

Lemma steps_abort {A} : steps R (@zig_unreachable A).
Proof. intros g a g'. discriminate. Qed.

Lemma steps_panic {A} : steps R (@zig_panic A).
Proof. intros g a g'. discriminate. Qed.

Lemma steps_lift_option {A} (o : option A) : steps R (lift_option o).
Proof. destruct o; [apply steps_ret | apply steps_abort]. Qed.

Lemma steps_modify f : (forall g, R g (f g)) -> steps R (modify f).
Proof. intros Hf g a g' [= _ <-]. apply Hf. Qed.

Lemma steps_for_each {A} (l : list A) (body : A -> M unit) :
  (forall x, steps R (body x)) -> steps R (for_each l body).
Proof.
  intros Hbody. induction l as [|x l IH]; simpl.
  - apply steps_ret.
  - apply steps_bind; [apply Hbody | intros _; exact IH].
Qed.
End Steps.

Lemma steps_weaken (R R' : CodeGen -> CodeGen -> Prop) {A} (c : M A) :
  (forall g g', R g g' -> R' g g') -> steps R c -> steps R' c.
Proof. intros HR Hc g a g' E. apply HR. exact (Hc g a g' E). Qed.

#[local] Instance operand_frame_preorder : PreOrder operand_frame.
Proof.
  split.
  - intros g. repeat split.
  - intros g1 g2 g3 (?&?&?&?&?&?&?&?&?) (?&?&?&?&?&?&?&?&?).
    repeat split; congruence.
Qed.

#[local] Instance lowering_frame_preorder : PreOrder lowering_frame.
Proof.
  split.
  - intros g. repeat split. exists []. now rewrite app_nil_r.
  - intros g1 g2 g3 (?&?&?&?&?&ops1&E1) (?&?&?&?&?&ops2&E2).
    repeat split; try congruence.
    exists (ops1 ++ ops2). rewrite E2, E1. now rewrite app_assoc.
Qed.

#[local] Instance prologue_frame_preorder : PreOrder prologue_frame.
Proof.
  split.
  - intros g. repeat split.
  - intros g1 g2 g3 (?&?&?) (?&?&?). repeat split; congruence.
Qed.

Lemma operand_frame_prologue g g' : operand_frame g g' -> prologue_frame g g'.
Proof. intros (?&?&?&?&?&?&?&?&?). repeat split; assumption. Qed.

Lemma operand_frame_lowering g g' : operand_frame g g' -> lowering_frame g g'.
Proof.
  intros (?&?&?&Hb&?&?&?&?&?). repeat split; try assumption.
  exists []. now rewrite Hb, app_nil_r.
Qed.

(** Breaks a computation down along its binds and case distinctions. *)
Ltac steps_go :=
  repeat first
    [ apply steps_ret; solve [typeclasses eauto]
    | apply steps_get; solve [typeclasses eauto]
    | apply steps_assert; solve [typeclasses eauto]
    | apply steps_abort
    | apply steps_panic
    | apply steps_lift_option; solve [typeclasses eauto]
    | match goal with
      | |- steps _ (bind _ _) =>
          apply steps_bind; try solve [typeclasses eauto]; [|intros ?]
      | |- steps _ (for_each _ _) =>
          apply steps_for_each; try solve [typeclasses eauto]; intros ?
      | |- steps _ (match ?x with _ => _ end) => destruct x eqn:?
      | |- steps _ (let '(_, _) := ?x in _) => destruct x eqn:?
      end ].

Ltac steps_modify :=
  apply steps_modify; try solve [typeclasses eauto]; intros ?.

Create HintDb frames.

(** The primitives. *)
Lemma modify_consts_operand f : steps operand_frame (modify (with_consts f)).
Proof. steps_modify. repeat split. Qed.

Lemma modify_instr_value_operand k v :
  steps operand_frame (modify (with_handles (set_instr_llvm_value k v))).
Proof. steps_modify. repeat split. Qed.

Lemma modify_instr_tmp_ptr_operand k v :
  steps operand_frame (modify (with_handles (set_instr_tmp_ptr k v))).
Proof. steps_modify. repeat split. Qed.

Lemma on_global_operand f v : steps operand_frame (on_global f v).
Proof. unfold on_global. steps_go. apply modify_consts_operand. Qed.

Lemma on_function_operand f v : steps operand_frame (on_function f v).
Proof. unfold on_function. steps_go. apply modify_consts_operand. Qed.

Lemma LLVMAddGlobal_operand ty name :
  steps operand_frame (LLVMAddGlobal ty name).
Proof. intros g a g' [= _ <-]. repeat split. Qed.

Lemma LLVMAddFunction_operand name ty :
  steps operand_frame (LLVMAddFunction name ty).
Proof. intros g a g' [= _ <-]. repeat split. Qed.

Lemma LLVMSetLinkage_operand v l : steps operand_frame (LLVMSetLinkage v l).
Proof.
  unfold LLVMSetLinkage.
  steps_go; apply on_global_operand || apply on_function_operand.
Qed.

Lemma LLVMSetInitializer_operand v init :
  steps operand_frame (LLVMSetInitializer v init).
Proof. apply on_global_operand. Qed.

Lemma LLVMSetGlobalConstant_operand v c :
  steps operand_frame (LLVMSetGlobalConstant v c).
Proof. apply on_global_operand. Qed.

Lemma LLVMSetUnnamedAddr_operand v u :
  steps operand_frame (LLVMSetUnnamedAddr v u).
Proof. apply on_global_operand. Qed.

#[local] Hint Resolve modify_consts_operand modify_instr_value_operand
  modify_instr_tmp_ptr_operand on_global_operand on_function_operand
  LLVMAddGlobal_operand LLVMAddFunction_operand LLVMSetLinkage_operand
  LLVMSetInitializer_operand LLVMSetGlobalConstant_operand
  LLVMSetUnnamedAddr_operand : frames.

Lemma build_lowering instr : steps lowering_frame (build instr).
Proof.
  intros g a g' [= _ <-]. repeat split. now eexists.
Qed.

Lemma LLVMAppendBasicBlock_lowering fn name :
  steps lowering_frame (LLVMAppendBasicBlock fn name).
Proof.
  intros g a g' [= _ <-]. repeat split. now eexists.
Qed.

Lemma emit_lowering op : steps lowering_frame (modify (with_builder (emit op))).
Proof.
  steps_modify. repeat split. now eexists.
Qed.

Lemma LLVMGetInsertBlock_lowering : steps lowering_frame LLVMGetInsertBlock.
Proof. intros g a g' [= _ <-]. reflexivity. Qed.

Lemma LLVMPositionBuilderAtEnd_lowering bb :
  steps lowering_frame (LLVMPositionBuilderAtEnd bb).
Proof.
  steps_modify. repeat split. exists []. simpl. now rewrite app_nil_r.
Qed.

Lemma modify_intrinsics_lowering f :
  steps lowering_frame (modify (with_intrinsics f)).
Proof.
  steps_modify.
  apply (reflexivity (R := lowering_frame) g).
Qed.

Lemma operand_lowering {A} (c : M A) :
  steps operand_frame c -> steps lowering_frame c.
Proof. apply steps_weaken, operand_frame_lowering. Qed.

#[local] Hint Resolve build_lowering LLVMAppendBasicBlock_lowering
  emit_lowering LLVMGetInsertBlock_lowering LLVMPositionBuilderAtEnd_lowering
  modify_intrinsics_lowering : frames.
#[local] Hint Extern 5 (steps lowering_frame _) =>
  apply operand_lowering; solve [auto with frames] : frames.

Ltac frames := steps_go; try solve [auto with frames | congruence].

Section OperandProperties.
Context `{Collaborators}.

Lemma gen_const_val_M_operand type_entry const_val :
  steps operand_frame (gen_const_val_M type_entry const_val).
Proof.
  intros g a g'. unfold gen_const_val_M.
  destruct (gen_const_val _ _ _) as [[v c]|]; [|discriminate].
  intros [= _ <-]. repeat split.
Qed.

#[local] Hint Resolve gen_const_val_M_operand : frames.

Lemma render_const_val_operand type_entry const_val :
  steps operand_frame (render_const_val type_entry const_val).
Proof. unfold render_const_val. frames. Qed.

Lemma render_const_val_global_operand type_entry const_val :
  steps operand_frame (render_const_val_global type_entry const_val).
Proof. unfold render_const_val_global. frames. Qed.

#[local] Hint Resolve render_const_val_operand render_const_val_global_operand
  : frames.

(** Reading an operand whose type is not a pointer emits nothing. *)
Lemma ir_llvm_value_operand instruction :
  id (type_entry instruction) <> TypeTableEntryIdPointer ->
  steps operand_frame (ir_llvm_value instruction).
Proof. intros Hty. unfold ir_llvm_value. frames. Qed.

Lemma ir_llvm_value_lowering instruction :
  steps lowering_frame (ir_llvm_value instruction).
Proof. unfold ir_llvm_value. frames. Qed.

End OperandProperties.

#[local] Hint Resolve gen_const_val_M_operand render_const_val_operand
  render_const_val_global_operand ir_llvm_value_lowering : frames.

(** ** Overflow-checked arithmetic *)

Lemma overflow_fn_lookup (g : CodeGen) index0 index1 index2 :
  overflow_fns_ok g ->
  int_overflow_fns (intrinsics g) !! (index0, index1, index2) = None
  \/ int_overflow_fns (intrinsics g) !! (index0, index1, index2)
     = Some (LLVMFunction (overflow_fn_name index0 index1 index2)).
Proof.
  intros Hok.
  destruct (int_overflow_fns (intrinsics g) !! (index0, index1, index2))
    as [fn|] eqn:E; [right|left; reflexivity].
  now rewrite (Hok _ _ _ _ E).
Qed.

(** For a signed 32-bit type, [get_int_overflow_fn] yields the intrinsic
    [llvm.sadd.with.overflow.i32] and touches neither the builder nor the
    current function. *)
Lemma get_int_overflow_fn_sadd_i32 (g : CodeGen) (type_entry : TypeTableEntry) :
  overflow_fns_ok g ->
  id type_entry = TypeTableEntryIdInt ->
  integral_is_signed type_entry = true ->
  integral_bit_count type_entry = 32 ->
  exists g',
    get_int_overflow_fn type_entry AddSubMulAdd g
    = Ok (Some (LLVMFunction "llvm.sadd.with.overflow.i32")) g'
    /\ builder g' = builder g /\ cur g' = cur g
    /\ trap_fn_val (intrinsics g') = trap_fn_val (intrinsics g)
    /\ overflow_fns_ok g'.
Proof.
  intros Hok Hid Hsigned Hbits.
  unfold get_int_overflow_fn, get_arithmetic_overflow_fn, is_Int, bind, assert.
  rewrite Hid, Hsigned, Hbits. cbn.
  destruct (overflow_fn_lookup g 0 0 2 Hok) as [E|E]; rewrite E; cbn.
  - eexists. split; [reflexivity|]. repeat split.
    intros i0 i1 i2 fn. cbn.
    destruct (decide ((0, 0, 2) = (i0, i1, i2))) as [[= <- <- <-]|Hne].
    + rewrite lookup_insert_eq. now intros [= <-].
    + rewrite lookup_insert_ne by exact Hne. apply Hok.
  - eexists. split; [reflexivity|]. repeat split. exact Hok.
Qed.

Lemma gen_overflow_op_sadd_i32 (g : CodeGen) (type_entry : TypeTableEntry)
    (val1 val2 : LLVMValueRef) :
  overflow_fns_ok g ->
  id type_entry = TypeTableEntryIdInt ->
  integral_is_signed type_entry = true ->
  integral_bit_count type_entry = 32 ->
  exists g',
    gen_overflow_op type_entry AddSubMulAdd val1 val2 g
    = Ok (Some (LLVMInstrResult (S (next_value (builder g))))) g'
    /\ emitted_by g g'
         (overflow_op_ops g (Some (LLVMFunction "llvm.sadd.with.overflow.i32"))
                          val1 val2)
    /\ insert_block (builder g') = Some (S (next_block (builder g)))
    /\ overflow_fns_ok g'.
Proof.
  intros Hok Hid Hsigned Hbits.
  destruct (get_int_overflow_fn_sadd_i32 g type_entry Hok Hid Hsigned Hbits)
    as (g1 & E & Hb & Hcur & Htrap & Hok1).
  unfold gen_overflow_op, bind. rewrite E. cbn. rewrite Hb.
  eexists. split; [reflexivity|].
  unfold emitted_by, overflow_op_ops, crash_ops. cbn.
  rewrite Hb, Hcur, Htrap, <- !app_assoc. repeat split.
  intros i0 i1 i2 fn. cbn. apply Hok1.
Qed.

(** C3, as the claim states it, fails when the instruction's own
    [safety_check_on] flag is off: the safety predicate holds, and the
    lowering emits a plain no-signed-wrap add and no call. *)
Lemma checked_add_i32_counterexample :
  let g := Sample.debug_state in
  let instruction := Sample.add_i32 false in
  ir_want_debug_safety g (bin_op_base instruction) = true
  /\ exists g',
       ir_render_bin_op (H := Sample.collaborators) instruction g
       = Ok (Some (LLVMInstrResult 0)) g'
       /\ emitted (builder g')
          = [OpBuild None 0
               (LLVMBuildBinary NSWAdd (Some (LLVMInstrResult 100))
                                (Some (LLVMInstrResult 101)))]
       /\ count_ops (calls "llvm.sadd.with.overflow.i32")
                    (emitted (builder g')) = 0.
Proof.
  split; [reflexivity|]. eexists. split; [vm_compute; reflexivity|].
  split; vm_compute; reflexivity.
Qed.

Section CheckedAdd.
Context `{Collaborators}.

(** C3 (amended): for a non-wrapping add on a signed 32-bit type whose
    own [safety_check_on] flag is set and for which the safety predicate
    holds, the lowering emits exactly one call of
    [llvm.sadd.with.overflow.i32] on the two operands, extracts element 0
    as the result and element 1 as the overflow bit, and branches on the
    overflow bit to a freshly appended fail block, which calls
    [llvm.debugtrap] and ends in unreachable; it continues in the ok
    block. *)
Theorem checked_add_i32 (g : CodeGen) (instruction : IrInstructionBinOp)
    (op1_value op2_value : LLVMValueRef) (g1 g2 : CodeGen) :
  op_id instruction = IrBinOpAdd ->
  id (type_entry (op1 instruction)) = TypeTableEntryIdInt ->
  integral_is_signed (type_entry (op1 instruction)) = true ->
  integral_bit_count (type_entry (op1 instruction)) = 32 ->
  type_entry (op2 instruction) = type_entry (op1 instruction) ->
  safety_check_on instruction = true ->
  ir_want_debug_safety g (bin_op_base instruction) = true ->
  ir_llvm_value (op1 instruction) g = Ok op1_value g1 ->
  ir_llvm_value (op2 instruction) g1 = Ok op2_value g2 ->
  overflow_fns_ok g ->
  trap_fn_val (intrinsics g) = Some (LLVMFunction "llvm.debugtrap") ->
  let here := insert_block (builder g) in
  let v := next_value (builder g) in
  let fail_block := next_block (builder g) in
  let ok_block := S fail_block in
  let ops :=
    [OpBuild here v
       (LLVMBuildCall (Some (LLVMFunction "llvm.sadd.with.overflow.i32"))
                      [op1_value; op2_value]);
     OpBuild here (S v) (LLVMBuildExtractValue (Some (LLVMInstrResult v)) 0);
     OpBuild here (S (S v)) (LLVMBuildExtractValue (Some (LLVMInstrResult v)) 1);
     OpAppendBasicBlock (cur_fn_val (cur g)) "OverflowFail" fail_block;
     OpAppendBasicBlock (cur_fn_val (cur g)) "OverflowOk" ok_block;
     OpBuild here (S (S (S v)))
       (LLVMBuildCondBr (Some (LLVMInstrResult (S (S v))))
                        (Some fail_block) (Some ok_block));
     OpBuild (Some fail_block) (S (S (S (S v))))
       (LLVMBuildCall (Some (LLVMFunction "llvm.debugtrap")) []);
     OpBuild (Some fail_block) (S (S (S (S (S v))))) LLVMBuildUnreachable] in
  exists g',
    ir_render_bin_op instruction g = Ok (Some (LLVMInstrResult (S v))) g'
    /\ emitted_by g g' ops
    /\ count_ops (calls "llvm.sadd.with.overflow.i32") ops = 1
    /\ insert_block (builder g') = Some ok_block.
Proof.
  intros Hop Hid Hsigned Hbits Hty Hon Hsafe E1 E2 Hok Htrap.
  assert (F1 : operand_frame g g1).
  { eapply ir_llvm_value_operand; [|exact E1]. rewrite Hid. discriminate. }
  assert (F2 : operand_frame g1 g2).
  { eapply ir_llvm_value_operand; [|exact E2]. rewrite Hty, Hid. discriminate. }
  destruct (transitivity F1 F2) as (_ & Hintr & Hcur & Hb & _).
  assert (Hok2 : overflow_fns_ok g2).
  { unfold overflow_fns_ok. rewrite Hintr. exact Hok. }
  destruct (gen_overflow_op_sadd_i32 g2 (type_entry (op1 instruction))
              op1_value op2_value Hok2 Hid Hsigned Hbits)
    as (g' & E & Hops & Hins & _).
  exists g'. cbv zeta.
  split; [|split; [|split]].
  - unfold ir_render_bin_op, bind, assert, get.
    rewrite Hty, Nat.eqb_refl, E1, E2, Hop, Hid, Hon, Hsafe. simpl.
    rewrite E, Hb. reflexivity.
  - unfold emitted_by in *. rewrite Hops.
    unfold overflow_op_ops, crash_ops. rewrite Hb, Hcur, Hintr, Htrap.
    reflexivity.
  - reflexivity.
  - rewrite Hins, Hb. reflexivity.
Qed.

End CheckedAdd.

(** ** Inversion of runs *)

Lemma bind_Ok {A B} (c : M A) (k : A -> M B) g b g' :
  bind c k g = Ok b g' ->
  exists a g1, c g = Ok a g1 /\ k a g1 = Ok b g'.
Proof.
  unfold bind. destruct (c g) as [a g1| |]; try discriminate.
  intros E. now exists a, g1.
Qed.

Lemma assert_Ok b g u g' : assert b g = Ok u g' -> b = true /\ g' = g.
Proof. unfold assert. destruct b; [|discriminate]. now intros [= _ <-]. Qed.

Lemma lift_option_Ok {A} (o : option A) g a g' :
  lift_option o g = Ok a g' -> o = Some a /\ g' = g.
Proof. destruct o; [|discriminate]. now intros [= <- <-]. Qed.

(** ** Variable declarations *)

Lemma gen_var_debug_decl_Ok (var : VariableTableEntry) g u g' :
  gen_var_debug_decl var g = Ok u g' ->
  exists source_node di_scope,
    decl_node var = Some source_node
    /\ get_di_scope (parent_scope var) = Some di_scope
    /\ emitted_by g g'
         [OpInsertDeclareAtEnd (value_ref g var) (di_loc_var g var)
            (ZigLLVMGetDebugLoc (line source_node + 1)
                                (column source_node + 1) di_scope)
            (insert_block (builder g))]
    /\ insert_block (builder g') = insert_block (builder g).
Proof.
  unfold gen_var_debug_decl. intros E.
  apply bind_Ok in E as (source_node & g1 & E1 & E).
  apply lift_option_Ok in E1 as [-> ->].
  apply bind_Ok in E as (di_scope & g1 & E1 & E).
  apply lift_option_Ok in E1 as [-> ->].
  injection E as _ <-.
  exists source_node, di_scope. repeat split.
Qed.


Section DeclVar.
Context `{Collaborators}.

Lemma gen_struct_memcpy_lowering src dest type_entry :
  steps lowering_frame (gen_struct_memcpy src dest type_entry).
Proof. unfold gen_struct_memcpy, LLVMTypeOf_ref. frames. Qed.

Lemma gen_assign_raw_lowering target_ref value op1_type op2_type :
  steps lowering_frame (gen_assign_raw target_ref value op1_type op2_type).
Proof.
  unfold gen_assign_raw, gen_struct_memcpy, LLVMTypeOf_ref. frames.
Qed.


End DeclVar.

(** ** Error names *)

Section ErrName.
Context `{Collaborators}.

(** C10: when the error declaration list holds only the implicit ok
    entry, lowering an ErrName emits a single unreachable and yields no
    value: no compare, no branch, no table access.  Otherwise, with the
    safety predicate on, the error value is checked to be non-zero and
    then to be below the length of the declaration list, and the table
    GEP is placed in the ok block of that check. *)
Theorem err_name_lowering (g : CodeGen) (instruction : IrInstructionErrName) :
  g_generate_error_name_table (config g) = true ->
  (length (error_decls (config g)) = 1 ->
   exists g',
     ir_render_err_name instruction g = Ok None g'
     /\ emitted_by g g'
          [OpBuild (insert_block (builder g)) (next_value (builder g))
                   LLVMBuildUnreachable])
  /\ (length (error_decls (config g)) <> 1 ->
      ir_want_debug_safety g (err_name_base instruction) = true ->
      forall err_val g1,
        ir_llvm_value (err_name_value instruction) g = Ok (Some err_val) g1 ->
        let zero := Some (LLVMConstNull (LLVMTypeOf err_val)) in
        let end_val :=
          Some (LLVMConstInt (LLVMTypeOf err_val)
                  (Z.of_nat (length (error_decls (config g)))) false) in
        let ok_block := S (next_block (builder g1)) in
        let gep := 6 + next_value (builder g1) in
        exists g',
          ir_render_err_name instruction g = Ok (Some (LLVMInstrResult gep)) g'
          /\ emitted_by g1 g'
               (two_bounds_ops g1 LLVMIntNE LLVMIntULT (Some err_val)
                               zero end_val
                ++ [OpBuild (Some ok_block) gep
                      (LLVMBuildInBoundsGEP
                         (err_name_table (intrinsics g1))
                         [Some (LLVMConstNull
                                  (type_ref (entry_usize (config g))));
                          Some err_val])])).
Proof.
  intros Hflag. split.
  - intros Hlen. unfold ir_render_err_name, bind, get, assert.
    rewrite Hflag, Hlen. cbn. eexists. split; reflexivity.
  - intros Hlen Hsafe err_val g1 E1 zero end_val ok_block gep.
    assert (F : lowering_frame g g1) by exact (ir_llvm_value_lowering _ _ _ _ E1).
    destruct F as (Hcfg & _).
    unfold ir_render_err_name, bind, get, assert.
    rewrite Hflag. apply Nat.eqb_neq in Hlen. rewrite Hlen, E1.
    unfold ir_want_debug_safety in *. rewrite Hcfg, Hsafe. cbn.
    rewrite ?Hcfg.
    eexists. split; [reflexivity|].
    unfold emitted_by, two_bounds_ops, crash_ops. cbn.
    rewrite <- !app_assoc. reflexivity.
Qed.

End ErrName.

(** ** Inline assembly *)

Section InlineAsm.
Context `{Collaborators}.

Lemma asm_outputs_lowering instruction count outputs i st :
  steps lowering_frame (asm_outputs instruction count outputs i st).
Proof.
  revert i st. induction outputs as [|asm_output rest IH]; intros i st; simpl.
  - frames.
  - unfold LLVMTypeOf_ref. frames.
Qed.

Lemma asm_inputs_lowering instruction count inputs i st :
  steps lowering_frame (asm_inputs instruction count inputs i st).
Proof.
  revert i st. induction inputs as [|asm_input rest IH]; intros i st; simpl.
  - frames.
  - frames.
Qed.

Lemma asm_template_bytes_same src offset count acc g s g' :
  asm_template_bytes src offset count acc g = Ok s g' -> g' = g.
Proof.
  revert offset acc g.
  induction count as [|count IH]; intros offset acc g; simpl.
  - now intros [= _ <-].
  - intros E. apply bind_Ok in E as (c & g1 & E1 & E).
    apply IH in E. subst g'.
    destruct (String.get offset src); [now injection E1|].
    destruct (Nat.eqb offset (String.length src)); [now injection E1|].
    discriminate.
Qed.

Lemma asm_template_tokens_same asm_expr tokens acc g s g' :
  asm_template_tokens asm_expr tokens acc g = Ok s g' -> g' = g.
Proof.
  revert acc g. induction tokens as [|tok rest IH]; intros acc g; simpl.
  - now intros [= _ <-].
  - intros E. apply bind_Ok in E as (t & g1 & E1 & E).
    apply IH in E. subst g'.
    destruct (tok_id tok).
    + now apply asm_template_bytes_same in E1.
    + now injection E1.
    + apply bind_Ok in E1 as ([] & g2 & E2 & E1).
      apply assert_Ok in E2 as [_ ->]. now injection E1.
Qed.

(** C8: the inline-asm expression a lowering emits is marked as having
    side effects (volatile) exactly when the source expression is marked
    volatile or has no outputs.  The call of that expression is the last
    instruction the lowering builds and its value is the result. *)
Theorem asm_volatile_iff (g : CodeGen) (instruction : IrInstructionAsm)
    (asm_expr : AstNodeAsmExpr) (result : LLVMValueRef) (g' : CodeGen) :
  data (source_node (asm_base instruction)) = NodeTypeAsmExpr asm_expr ->
  ir_render_asm instruction g = Ok result g' ->
  exists ops handle function_type llvm_template constraints volatile args,
    emitted_by g g'
      (ops ++ [OpBuild (insert_block (builder g')) handle
                 (LLVMBuildCall
                    (Some (LLVMConstInlineAsm function_type llvm_template
                             constraints volatile false))
                    args)])
    /\ result = Some (LLVMInstrResult handle)
    /\ (volatile = true <->
        is_volatile asm_expr = true \/ output_list asm_expr = []).
Proof.
  intros Hnode E. unfold ir_render_asm in E. rewrite Hnode in E.
  apply bind_Ok in E as (llvm_template & g0 & E0 & E).
  apply asm_template_tokens_same in E0 as ->.
  apply bind_Ok in E as ([] & g0 & E0 & E). apply assert_Ok in E0 as [_ ->].
  apply bind_Ok in E as (st1 & g1 & E1 & E).
  apply bind_Ok in E as (st2 & g2 & E2 & E).
  apply bind_Ok in E as ([] & g3 & E3 & E). apply assert_Ok in E3 as [_ ->].
  injection E as <- <-.
  assert (F : lowering_frame g g2).
  { transitivity g1.
    - exact (asm_outputs_lowering _ _ _ _ _ _ _ _ E1).
    - exact (asm_inputs_lowering _ _ _ _ _ _ _ _ E2). }
  destruct F as (_ & _ & _ & _ & _ & ops & Hemit).
  eexists ops, _, _, _, _, _, _. split; [|split; [reflexivity|]].
  - unfold emitted_by. cbn. rewrite Hemit, <- app_assoc. reflexivity.
  - rewrite orb_true_iff, Nat.eqb_eq, length_zero_iff_nil. reflexivity.
Qed.

End InlineAsm.

(** ** The error-name table *)

Lemma alter_last {A} (f : A -> A) (l : list A) (x : A) :
  alter f (length l) (l ++ [x]) = l ++ [f x].
Proof.
  induction l as [|y l IH]; simpl; [reflexivity|]. now rewrite <- IH.
Qed.

Section ErrorNameTable.
Context `{Collaborators}.

(** The loop over the declared errors adds one name global per error, in
    order, and yields the slice structs that point to them. *)
Lemma error_name_values_Ok (decls : list (option AstNode))
    (names : list string) (g : CodeGen) :
  Forall2 declares_error decls names ->
  let str_type := get_slice_type (entry_u8 (config g)) true in
  let u8_ptr_type := structure_field_type str_type 0 in
  let first := length (globals (module (consts g))) in
  exists g',
    error_name_values str_type u8_ptr_type decls g
    = Ok (imap (fun k name => error_name_slice g name (first + k)) names) g'
    /\ globals (module (consts g'))
       = globals (module (consts g)) ++ map name_global names
    /\ config g' = config g /\ intrinsics g' = intrinsics g
    /\ builder g' = builder g /\ stderr g' = stderr g.
Proof.
  intros Hdecls. cbv zeta. revert g.
  induction Hdecls as [|decl name decls names (node & -> & Hnode) _ IH];
    intros g.
  - exists g. simpl. rewrite app_nil_r. repeat split.
  - simpl. unfold bind at 1. simpl. rewrite Hnode.
    unfold bind at 1. simpl.
    unfold bind at 1. simpl.
    unfold bind at 1. simpl.
    unfold bind at 1. simpl.
    unfold bind at 1. simpl.
    unfold bind at 1. simpl.
    unfold bind at 1. simpl.
    match goal with
    | |- context [bind (error_name_values _ _ _) _ ?g1] =>
        destruct (IH g1) as (g' & E & Hglobals & Hcfg & Hintr & Hb & Herr);
        assert (Hg1 : globals (module (consts g1))
                      = globals (module (consts g)) ++ [name_global name])
          by (cbn; rewrite !alter_last; reflexivity)
    end.
    cbn [config with_consts] in E.
    rewrite Hg1 in Hglobals, E.
    unfold bind at 1. rewrite E. simpl.
    exists g'. split; [|split; [|repeat split; assumption]].
    + f_equal. f_equal.
      * unfold error_name_slice. now rewrite Nat.add_0_r.
      * apply imap_ext. intros k x _. simpl. unfold error_name_slice. simpl.
        rewrite length_app. simpl.
        now replace (length (globals (module (consts g))) + 1 + k)
          with (length (globals (module (consts g))) + S k) by lia.
    + rewrite Hglobals, <- app_assoc. reflexivity.
Qed.

(** C6: when the table is generated for a program that declares at least
    one error besides the implicit ok tag, the global [err_name_table] is
    a private, constant, unnamed-address array with one element per entry
    of the error declaration list; element 0 is undef, and element [i],
    for the error with tag [i >= 1], is a slice struct whose pointer
    field points to a private, constant, unnamed-address global that
    holds the name of that error and whose length field is the byte
    length of the name. *)
Theorem error_name_table_layout (g : CodeGen) (ok_decl : option AstNode)
    (decls : list (option AstNode)) (names : list string) :
  g_generate_error_name_table (config g) = true ->
  error_decls (config g) = ok_decl :: decls ->
  decls <> [] ->
  Forall2 declares_error decls names ->
  let str_type := get_slice_type (entry_u8 (config g)) true in
  exists g' table values,
    generate_error_name_table g = Ok tt g'
    /\ err_name_table (intrinsics g') = Some (LLVMGlobalVar table)
    /\ (let init := LLVMConstArray (type_ref str_type) values in
        globals (module (consts g')) !! table
        = Some (mkGlobal "err_name_table" (LLVMTypeOf init) (Some init)
                         LLVMPrivateLinkage true true))
    /\ length values = length (error_decls (config g))
    /\ values !! 0 = Some (Some (LLVMGetUndef (type_ref str_type)))
    /\ forall i name,
         names !! i = Some name ->
         (exists decl, error_decls (config g) !! S i = Some decl
                       /\ declares_error decl name)
         /\ exists name_index,
              values !! S i = Some (error_name_slice g name name_index)
              /\ globals (module (consts g')) !! name_index
                 = Some (name_global name).
Proof.
  intros Hflag Hdecls Hne Hnames str_type.
  destruct (error_name_values_Ok decls names g Hnames)
    as (g1 & E & Hglobals & Hcfg & Hintr & Hb & Herr).
  cbv zeta in E. subst str_type.
  unfold generate_error_name_table, bind, get, assert.
  rewrite Hflag, Hdecls.
  destruct decls as [|d decls']; [contradiction|].
  cbn -[error_name_values]. rewrite E. cbn -[imap].
  eexists _, _, _. split; [reflexivity|]. cbn -[imap].
  split; [reflexivity|]. split; [|split; [|split]].
  - rewrite !alter_last. rewrite lookup_app_r by lia.
    now rewrite Nat.sub_diag.
  - simpl. rewrite length_imap.
    now rewrite <- (Forall2_length _ _ _ Hnames).
  - reflexivity.
  - intros i name Hi. split.
    + destruct (Forall2_lookup_r _ _ _ _ _ Hnames Hi) as (decl & Hd & Hdecl).
      exists decl. split; assumption.
    + exists (length (globals (module (consts g))) + i). split.
      * simpl. rewrite list_lookup_imap, Hi. reflexivity.
      * rewrite !alter_last, Hglobals, <- app_assoc.
        rewrite lookup_app_r by lia.
        replace (length (globals (module (consts g))) + i
                 - length (globals (module (consts g)))) with i by lia.
        rewrite lookup_app_l by (rewrite length_map; eapply lookup_lt_Some, Hi).
        now rewrite list_lookup_fmap, Hi.
Qed.

End ErrorNameTable.

(** ** The test harness *)

Lemma modify_intrinsics_prologue f :
  steps prologue_frame (modify (with_intrinsics f)).
Proof. steps_modify. repeat split. Qed.

Lemma modify_handles_prologue f : steps prologue_frame (modify (with_handles f)).
Proof. steps_modify. repeat split. Qed.

Lemma operand_prologue {A} (c : M A) :
  steps operand_frame c -> steps prologue_frame c.
Proof. apply steps_weaken, operand_frame_prologue. Qed.

#[local] Hint Resolve modify_intrinsics_prologue modify_handles_prologue
  : frames.
#[local] Hint Extern 5 (steps prologue_frame _) =>
  apply operand_prologue; solve [auto with frames] : frames.

Section TestHarness.
Context `{Collaborators}.

Lemma gen_global_var_prologue var : steps prologue_frame (gen_global_var var).
Proof. unfold gen_global_var. frames. Qed.

Lemma fn_llvm_value_operand fn_table_entry :
  steps operand_frame (fn_llvm_value fn_table_entry).
Proof.
  unfold fn_llvm_value, LLVMAddFunctionAttr, ZigLLVMAddFunctionAttr,
    LLVMSetFunctionCallConv.
  frames.
Qed.

#[local] Hint Resolve fn_llvm_value_operand : frames.

Lemma gen_test_fn_val_operand fn_entry :
  steps operand_frame (gen_test_fn_val fn_entry).
Proof. unfold gen_test_fn_val, LLVMConstBitCast_ref. frames. Qed.

Lemma gen_param_attrs_operand fn_val gen_info :
  steps operand_frame (gen_param_attrs fn_val gen_info).
Proof.
  unfold gen_param_attrs, LLVMAddAttribute, ZigLLVMAddNonNullAttr. frames.
Qed.

#[local] Hint Resolve gen_test_fn_val_operand gen_param_attrs_operand : frames.

Lemma gen_fn_protos_prologue protos test_fn_vals :
  steps prologue_frame (gen_fn_protos protos test_fn_vals).
Proof.
  revert test_fn_vals.
  induction protos as [|fn_table_entry rest IH]; intros test_fn_vals; simpl.
  - frames.
  - unfold LLVMAddAttribute, ZigLLVMAddNonNullAttr. frames.
Qed.

Lemma error_name_values_operand str_type u8_ptr_type decls :
  steps operand_frame (error_name_values str_type u8_ptr_type decls).
Proof.
  induction decls as [|decl rest IH]; simpl.
  - frames.
  - unfold LLVMConstBitCast_ref. frames.
Qed.

#[local] Hint Resolve error_name_values_operand : frames.

Lemma do_code_gen_prologue_frame :
  steps prologue_frame do_code_gen_prologue.
Proof.
  unfold do_code_gen_prologue, delete_unused_builtin_fns,
    generate_error_name_table, gen_module_level_variable, LLVMDeleteFunction.
  frames; apply gen_global_var_prologue || apply gen_fn_protos_prologue.
Qed.

(** C9: in a test build with no test function, once the steps before
    the list of test functions are through, [do_code_gen] prints
    "No tests to run." to stderr and ends the process with status 0.  The
    module is left as those steps built it: the list of test functions is
    not emitted.  Nothing was emitted into a function body: no function
    definition was generated. *)
Theorem no_tests_to_run (g : CodeGen) (test_fn_vals : list LLVMValueRef)
    (g1 : CodeGen) :
  is_test_build (config g) = true ->
  test_fn_count (config g) = 0 ->
  do_code_gen_prologue g = Ok test_fn_vals g1 ->
  exists g',
    do_code_gen g = Exit 0 g'
    /\ stderr g'
       = stderr g +:+ "No tests to run." +:+ String "010" EmptyString
    /\ consts g' = consts g1
    /\ builder g' = builder g.
Proof.
  intros Htest Hcount E.
  destruct (do_code_gen_prologue_frame _ _ _ E) as (Hcfg & Hb & Herr).
  unfold do_code_gen, bind. rewrite E.
  unfold gen_test_fn_list, bind, get. rewrite Hcfg, Htest, Hcount. cbn.
  eexists. split; [reflexivity|]. cbn. rewrite Herr, Hb. repeat split.
Qed.

End TestHarness.

(** ** Phi nodes *)

Lemma lookup_store_handle {A} (k : nat) (v : option A) (m : gmap nat A) :
  store_handle k v m !! k = v.
Proof.
  destruct v; simpl; [apply lookup_insert_eq | apply lookup_delete_eq].
Qed.

Lemma lookup_store_handle_ne {A} (k k' : nat) (v : option A) (m : gmap nat A) :
  k <> k' -> store_handle k v m !! k' = m !! k'.
Proof.
  intros Hne.
  destruct v; simpl; [now apply lookup_insert_ne | now apply lookup_delete_ne].
Qed.

Section Phi.
Context `{Collaborators}.

Lemma gen_debug_safety_crash_lowering : steps lowering_frame gen_debug_safety_crash.
Proof. unfold gen_debug_safety_crash. frames. Qed.

#[local] Hint Resolve gen_debug_safety_crash_lowering : frames.

Lemma add_bounds_check_lowering target_val lower_pred lower upper_pred upper :
  steps lowering_frame
        (add_bounds_check target_val lower_pred lower upper_pred upper).
Proof. unfold add_bounds_check. frames. Qed.

Lemma get_int_overflow_fn_lowering type_entry op :
  steps lowering_frame (get_int_overflow_fn type_entry op).
Proof.
  unfold get_int_overflow_fn, bits_index, get_arithmetic_overflow_fn. frames.
Qed.

#[local] Hint Resolve add_bounds_check_lowering get_int_overflow_fn_lowering
  : frames.

Lemma gen_overflow_op_lowering type_entry op val1 val2 :
  steps lowering_frame (gen_overflow_op type_entry op val1 val2).
Proof. unfold gen_overflow_op. frames. Qed.

Lemma gen_overflow_shl_op_lowering type_entry val1 val2 :
  steps lowering_frame (gen_overflow_shl_op type_entry val1 val2).
Proof. unfold gen_overflow_shl_op. frames. Qed.

Lemma gen_div_lowering safety val1 val2 type_entry exact :
  steps lowering_frame (gen_div safety val1 val2 type_entry exact).
Proof. unfold gen_div. frames. Qed.

Lemma cmp_op_to_int_predicate_lowering cmp_op is_signed :
  steps lowering_frame (cmp_op_to_int_predicate cmp_op is_signed).
Proof. unfold cmp_op_to_int_predicate. frames. Qed.

Lemma cmp_op_to_real_predicate_lowering cmp_op :
  steps lowering_frame (cmp_op_to_real_predicate cmp_op).
Proof. unfold cmp_op_to_real_predicate. frames. Qed.

#[local] Hint Resolve gen_overflow_op_lowering gen_overflow_shl_op_lowering
  gen_div_lowering cmp_op_to_int_predicate_lowering
  cmp_op_to_real_predicate_lowering gen_assign_raw_lowering
  asm_outputs_lowering asm_inputs_lowering : frames.

Lemma ir_render_bin_op_lowering instruction :
  steps lowering_frame (ir_render_bin_op instruction).
Proof. unfold ir_render_bin_op. frames. Qed.

Lemma ir_render_return_lowering instruction :
  steps lowering_frame (ir_render_return instruction).
Proof. unfold ir_render_return. frames. Qed.

Lemma gen_var_debug_decl_lowering var :
  steps lowering_frame (gen_var_debug_decl var).
Proof.
  unfold gen_var_debug_decl, ZigLLVMInsertDeclareAtEnd. frames.
Qed.

#[local] Hint Resolve gen_var_debug_decl_lowering : frames.

Lemma ir_render_decl_var_lowering instruction :
  steps lowering_frame (ir_render_decl_var instruction).
Proof. unfold ir_render_decl_var. frames. Qed.

Lemma ir_render_unreachable_lowering instruction :
  steps lowering_frame (ir_render_unreachable instruction).
Proof. unfold ir_render_unreachable. frames. Qed.

Lemma ir_render_cond_br_lowering instruction :
  steps lowering_frame (ir_render_cond_br instruction).
Proof. unfold ir_render_cond_br. frames. Qed.

Lemma ir_render_br_lowering instruction :
  steps lowering_frame (ir_render_br instruction).
Proof. unfold ir_render_br. frames. Qed.

Lemma ir_render_ref_lowering instruction :
  steps lowering_frame (ir_render_ref instruction).
Proof. unfold ir_render_ref. frames. Qed.

Lemma ir_render_err_name_lowering instruction :
  steps lowering_frame (ir_render_err_name instruction).
Proof. unfold ir_render_err_name, LLVMTypeOf_ref. frames. Qed.

Lemma asm_template_bytes_lowering src offset count acc :
  steps lowering_frame (asm_template_bytes src offset count acc).
Proof.
  intros g s g' E. apply asm_template_bytes_same in E as ->. reflexivity.
Qed.

Lemma asm_template_tokens_lowering asm_expr tokens acc :
  steps lowering_frame (asm_template_tokens asm_expr tokens acc).
Proof.
  intros g s g' E. apply asm_template_tokens_same in E as ->. reflexivity.
Qed.

#[local] Hint Resolve asm_template_tokens_lowering : frames.

Lemma ir_render_asm_lowering instruction :
  steps lowering_frame (ir_render_asm instruction).
Proof. unfold ir_render_asm. frames. Qed.

(** The loop over the incoming edges reads, for each edge, the exit
    block of its block as it stands when the phi is lowered. *)
Lemma phi_incoming_Ok count values blocks g incoming g' :
  phi_incoming count values blocks g = Ok incoming g' ->
  lowering_frame g g'
  /\ length (fst incoming) = count
  /\ snd incoming = map (llvm_exit_block g) (take count blocks)
  /\ count <= length blocks.
Proof.
  revert values blocks g incoming g'.
  induction count as [|count IH]; intros values blocks g incoming g'; simpl.
  - intros [= <- <-]. split; [reflexivity|]. simpl. repeat split. lia.
  - destruct values as [|value values]; [discriminate|].
    destruct blocks as [|block blocks]; [discriminate|].
    intros E. apply bind_Ok in E as (v & g1 & E1 & E).
    apply bind_Ok in E as (g1' & g1'' & [= <- <-] & E).
    apply bind_Ok in E as (rest & g2 & E2 & [= <- <-]).
    apply ir_llvm_value_lowering in E1.
    apply IH in E2 as (F & Hlen & Hblocks & Hcount).
    split; [now transitivity g1|]. simpl.
    split; [now rewrite Hlen|]. split; [|lia].
    rewrite Hblocks. unfold llvm_exit_block.
    destruct E1 as (_ & _ & -> & _). reflexivity.
Qed.

Lemma phi_incoming_lowering count values blocks :
  steps lowering_frame (phi_incoming count values blocks).
Proof. intros g a g' E. now apply phi_incoming_Ok in E. Qed.

#[local] Hint Resolve phi_incoming_lowering : frames.

Lemma ir_render_phi_lowering instruction :
  steps lowering_frame (ir_render_phi instruction).
Proof. unfold ir_render_phi, LLVMAddIncoming. frames. Qed.

(** What lowering a phi emits: the phi, whatever reading the incoming
    values emits, and one [LLVMAddIncoming] with [incoming_count] values
    and the exit blocks of the incoming blocks. *)
Lemma ir_render_phi_Ok (instruction : IrInstructionPhi) g result g' :
  ir_render_phi instruction g = Ok result g' ->
  exists reads values,
    result = Some (LLVMInstrResult (next_value (builder g)))
    /\ emitted_by g g'
         (OpBuild (insert_block (builder g)) (next_value (builder g))
                  (LLVMBuildPhi (type_ref (type_entry (phi_base instruction))))
          :: reads
          ++ [OpAddIncoming result values
                (map (llvm_exit_block g)
                     (take (incoming_count instruction)
                           (incoming_blocks instruction)))
                (incoming_count instruction)])
    /\ length values = incoming_count instruction
    /\ incoming_count instruction <= length (incoming_blocks instruction).
Proof.
  unfold ir_render_phi. intros E.
  apply bind_Ok in E as (phi & g1 & E1 & E).
  apply bind_Ok in E as ([values blocks] & g2 & E2 & E).
  apply bind_Ok in E as ([] & g3 & E3 & E).
  unfold build in E1. injection E1 as <- <-.
  unfold LLVMAddIncoming, modify in E3. injection E3 as <-.
  injection E as <- <-.
  apply phi_incoming_Ok in E2 as (F & Hlen & Hblocks & Hcount).
  destruct F as (_ & _ & _ & _ & _ & reads & Hemit).
  simpl in *. exists reads, values. repeat split; try assumption.
  unfold emitted_by. simpl. rewrite Hemit, Hblocks. simpl.
  rewrite <- !app_assoc. reflexivity.
Qed.

Lemma set_debug_location_Ok instruction g u g' :
  set_debug_location instruction g = Ok u g' -> g' = g.
Proof.
  unfold set_debug_location. destruct (scope instruction); [discriminate|].
  intros E. apply bind_Ok in E as (d & g1 & E1 & [= <-]).
  now apply lift_option_Ok in E1 as [_ ->].
Qed.

Lemma ir_render_instruction_lowering instruction :
  steps lowering_frame (ir_render_instruction instruction).
Proof.
  unfold ir_render_instruction.
  apply steps_bind; [typeclasses eauto| |intros _].
  - intros g u g' E. apply set_debug_location_Ok in E as ->. reflexivity.
  - destruct instruction;
      first [ apply steps_abort | apply steps_panic
            | apply ir_render_return_lowering
            | apply ir_render_decl_var_lowering
            | apply ir_render_bin_op_lowering
            | apply ir_render_unreachable_lowering
            | apply ir_render_cond_br_lowering
            | apply ir_render_br_lowering
            | apply ir_render_asm_lowering
            | apply ir_render_phi_lowering
            | apply ir_render_ref_lowering
            | apply ir_render_err_name_lowering ].
Qed.

End Phi.

Section PhiBlocks.
Context `{Collaborators}.

Lemma ir_render_instructions_lowering instructions :
  steps lowering_frame (ir_render_instructions instructions).
Proof.
  induction instructions as [|instruction rest IH]; simpl.
  - apply steps_ret; typeclasses eauto.
  - apply steps_bind; [typeclasses eauto| |intros _; exact IH].
    destruct (_ && _); [apply steps_ret; typeclasses eauto|].
    apply steps_bind; [typeclasses eauto| |intros v].
    + apply ir_render_instruction_lowering.
    + apply operand_lowering, modify_instr_value_operand.
Qed.

(** An instruction of a block that the walk lowers is lowered from a
    state that kept the handles the block started with, and what it
    emits stays. *)
Lemma ir_render_instructions_In instructions instruction g g' :
  ir_render_instructions instructions g = Ok tt g' ->
  In instruction instructions ->
  lowered instruction = true ->
  exists ga result gb,
    lowering_frame g ga
    /\ ir_render_instruction instruction ga = Ok result gb
    /\ lowering_frame gb g'.
Proof.
  revert g. induction instructions as [|i rest IH]; intros g E Hin Hlow;
    [contradiction|].
  simpl in E. apply bind_Ok in E as ([] & g1 & E1 & E).
  assert (F1 : lowering_frame g g1).
  { refine ((_ : steps lowering_frame _) g _ g1 E1).
    destruct (_ && _); [apply steps_ret; typeclasses eauto|].
    apply steps_bind; [typeclasses eauto| |intros v].
    - apply ir_render_instruction_lowering.
    - apply operand_lowering, modify_instr_value_operand. }
  destruct Hin as [->|Hin].
  - unfold lowered in Hlow. apply negb_true_iff in Hlow. rewrite Hlow in E1.
    apply bind_Ok in E1 as (v & ga & Ei & Em).
    exists g, v, ga. split; [reflexivity|]. split; [exact Ei|].
    transitivity g1; [|exact (ir_render_instructions_lowering _ _ _ _ E)].
    exact (operand_frame_lowering _ _ (modify_instr_value_operand _ _ _ _ _ Em)).
  - destruct (IH g1 E Hin Hlow) as (ga & result & gb & Fa & Ei & Fb).
    exists ga, result, gb. split; [now transitivity g1|]. now split.
Qed.

(** Lowering a block records, as the exit block of that block, the
    block the builder stands in when its last instruction is lowered, and
    leaves the exit blocks of the other blocks alone. *)
Lemma ir_render_block_exit current_block g g' :
  ir_render_block current_block g = Ok tt g' ->
  llvm_exit_block g' (bb_id current_block) = insert_block (builder g')
  /\ (forall b, b <> bb_id current_block ->
                llvm_exit_block g' b = llvm_exit_block g b)
  /\ (exists ops, emitted (builder g') = emitted (builder g) ++ ops)
  /\ config g' = config g.
Proof.
  unfold ir_render_block. intros E.
  apply bind_Ok in E as ([] & g0 & E0 & E). apply assert_Ok in E0 as [_ ->].
  apply bind_Ok in E as (g0 & g0' & [= <- <-] & E).
  apply bind_Ok in E as ([] & g1 & E1 & E). apply assert_Ok in E1 as [_ ->].
  apply bind_Ok in E as ([] & g1 & E1 & E).
  unfold LLVMPositionBuilderAtEnd, modify in E1. injection E1 as <-.
  apply bind_Ok in E as ([] & g2 & E2 & E).
  apply bind_Ok in E as (exit_block & g3 & E3 & E).
  unfold LLVMGetInsertBlock in E3. injection E3 as <- <-.
  unfold modify in E. injection E as <-.
  apply ir_render_instructions_lowering in E2
    as (Hcfg & _ & Hexit & _ & _ & ops & Hemit).
  simpl in *. unfold llvm_exit_block. simpl. split; [|split; [|split]].
  - apply lookup_store_handle.
  - intros b Hb. rewrite lookup_store_handle_ne by congruence.
    now rewrite Hexit.
  - now exists ops.
  - exact Hcfg.
Qed.

(** Lowering a list of blocks leaves the exit blocks of all other blocks
    alone. *)
Lemma ir_render_blocks_others blocks g g' :
  ir_render_blocks blocks g = Ok tt g' ->
  (forall b, ~ In b (map bb_id blocks) ->
             llvm_exit_block g' b = llvm_exit_block g b)
  /\ (exists ops, emitted (builder g') = emitted (builder g) ++ ops).
Proof.
  revert g. induction blocks as [|block rest IH]; intros g; simpl.
  - intros [= <-]. split; [reflexivity|]. exists []. now rewrite app_nil_r.
  - intros E. apply bind_Ok in E as ([] & g1 & E1 & E).
    apply ir_render_block_exit in E1 as (_ & Hothers & (ops1 & Hops1) & _).
    apply IH in E as (Hrest & ops2 & Hops2). split.
    + intros b Hb. simpl in Hb. rewrite Hrest by tauto. apply Hothers.
      intros ->. tauto.
    + exists (ops1 ++ ops2). now rewrite Hops2, Hops1, app_assoc.
Qed.

Lemma ir_render_blocks_app pre post g g' :
  ir_render_blocks (pre ++ post) g = Ok tt g' ->
  exists g1, ir_render_blocks pre g = Ok tt g1
             /\ ir_render_blocks post g1 = Ok tt g'.
Proof.
  revert g. induction pre as [|block pre IH]; intros g; simpl.
  - intros E. now exists g.
  - intros E. apply bind_Ok in E as ([] & g1 & E1 & E).
    apply IH in E as (g2 & Epre & Epost).
    exists g2. split; [|exact Epost]. unfold bind. now rewrite E1.
Qed.

End PhiBlocks.

Section PhiSoundness.
Context `{Collaborators}.

Lemma ir_render_block_inv current_block g g' :
  ir_render_block current_block g = Ok tt g' ->
  exists gp gi,
    handles gp = handles g
    /\ emitted (builder gp) = emitted (builder g)
    /\ ir_render_instructions (instruction_list current_block) gp = Ok tt gi
    /\ builder g' = builder gi
    /\ (forall b, b <> bb_id current_block ->
                  llvm_exit_block g' b = llvm_exit_block gi b).
Proof.
  unfold ir_render_block. intros E.
  apply bind_Ok in E as ([] & g0 & E0 & E). apply assert_Ok in E0 as [_ ->].
  apply bind_Ok in E as (g0 & g0' & [= <- <-] & E).
  apply bind_Ok in E as ([] & g1 & E1 & E). apply assert_Ok in E1 as [_ ->].
  apply bind_Ok in E as ([] & g1 & E1 & E).
  unfold LLVMPositionBuilderAtEnd, modify in E1. injection E1 as <-.
  apply bind_Ok in E as ([] & g2 & E2 & E).
  apply bind_Ok in E as (exit_block & g3 & E3 & E).
  unfold LLVMGetInsertBlock in E3. injection E3 as <- <-.
  unfold modify in E. injection E as <-.
  eexists _, g2. split; [|split; [|split; [exact E2|split]]]; try reflexivity.
  intros b Hb. unfold llvm_exit_block. simpl.
  now rewrite lookup_store_handle_ne by congruence.
Qed.

Lemma lowering_frame_exit g g' b :
  lowering_frame g g' -> llvm_exit_block g' b = llvm_exit_block g b.
Proof. intros (_ & _ & E & _). unfold llvm_exit_block. now rewrite E. Qed.

(** Once a block of the list is lowered, its exit block is the block
    the builder stood in when the lowering of that block ended, and the
    blocks after it do not change that. *)
Lemma exit_block_of_lowered pre g g1 b :
  NoDup (map bb_id pre) ->
  ir_render_blocks pre g = Ok tt g1 ->
  In b (map bb_id pre) ->
  exists before block after ga gb,
    pre = before ++ block :: after /\ bb_id block = b
    /\ ir_render_blocks before g = Ok tt ga
    /\ ir_render_block block ga = Ok tt gb
    /\ llvm_exit_block g1 b = insert_block (builder gb).
Proof.
  intros Hnodup E Hin.
  apply in_map_iff in Hin as (block & <- & Hin).
  apply in_split in Hin as (before & after & ->).
  apply ir_render_blocks_app in E as (ga & Ebefore & E).
  simpl in E. apply bind_Ok in E as ([] & gb & Eblock & Eafter).
  exists before, block, after, ga, gb. repeat split; try assumption.
  apply ir_render_blocks_others in Eafter as (Hothers & _).
  rewrite Hothers.
  - now apply ir_render_block_exit in Eblock as (-> & _).
  - rewrite map_app in Hnodup. simpl in Hnodup.
    apply NoDup_app in Hnodup as (_ & _ & Hnodup).
    apply NoDup_cons in Hnodup as (Hnotin & _).
    now rewrite <- list_elem_of_In.
Qed.


End PhiSoundness.

(** ** The properties on the sample programs *)

Lemma sample_overflow_fns_ok : overflow_fns_ok Sample.debug_state.
Proof.
  intros index0 index1 index2 fn.
  change (int_overflow_fns (intrinsics Sample.debug_state)) with
    (∅ : gmap (nat * nat * nat) LLVMValue).
  now rewrite lookup_empty.
Qed.

Lemma checked_add_i32_witness :
  exists g',
    ir_render_bin_op (H := Sample.collaborators) (Sample.add_i32 true)
                     Sample.debug_state
    = Ok (Some (LLVMInstrResult 1)) g'
    /\ emitted_by Sample.debug_state g'
         [OpBuild None 0
            (LLVMBuildCall (Some (LLVMFunction "llvm.sadd.with.overflow.i32"))
               [Some (LLVMInstrResult 100); Some (LLVMInstrResult 101)]);
          OpBuild None 1 (LLVMBuildExtractValue (Some (LLVMInstrResult 0)) 0);
          OpBuild None 2 (LLVMBuildExtractValue (Some (LLVMInstrResult 0)) 1);
          OpAppendBasicBlock None "OverflowFail" 0;
          OpAppendBasicBlock None "OverflowOk" 1;
          OpBuild None 3
            (LLVMBuildCondBr (Some (LLVMInstrResult 2)) (Some 0) (Some 1));
          OpBuild (Some 0) 4
            (LLVMBuildCall (Some (LLVMFunction "llvm.debugtrap")) []);
          OpBuild (Some 0) 5 LLVMBuildUnreachable]
    /\ insert_block (builder g') = Some 1.
Proof.
  destruct (checked_add_i32 (H := Sample.collaborators)
              Sample.debug_state (Sample.add_i32 true)
              (Some (LLVMInstrResult 100)) (Some (LLVMInstrResult 101))
              Sample.debug_state Sample.debug_state
              eq_refl eq_refl eq_refl eq_refl eq_refl eq_refl eq_refl
              eq_refl eq_refl sample_overflow_fns_ok eq_refl)
    as (g' & E & Hops & _ & Hins).
  exists g'. split; [exact E|]. split; [exact Hops|exact Hins].
Defined.


Lemma err_name_lowering_witness :
  (exists g',
     ir_render_err_name (H := Sample.collaborators) Sample.err_name
                        Sample.no_errors_state
     = Ok None g'
     /\ emitted_by Sample.no_errors_state g' [OpBuild None 0 LLVMBuildUnreachable])
  /\ (exists g',
        ir_render_err_name (H := Sample.collaborators) Sample.err_name
                           Sample.errors_state
        = Ok (Some (LLVMInstrResult 6)) g'
        /\ emitted_by Sample.errors_state g'
             (two_bounds_ops Sample.errors_state LLVMIntNE LLVMIntULT
                (Some (LLVMInstrResult 100))
                (Some (LLVMConstNull (LLVMIntType 16)))
                (Some (LLVMConstInt (LLVMIntType 16) 3 false))
              ++ [OpBuild (Some 1) 6
                    (LLVMBuildInBoundsGEP (Some (LLVMGlobalVar 2))
                       [Some (LLVMConstNull (LLVMIntType 64));
                        Some (LLVMInstrResult 100)])])).
Proof.
  split.
  - exact (proj1 (err_name_lowering (H := Sample.collaborators)
                    Sample.no_errors_state Sample.err_name eq_refl) eq_refl).
  - refine (proj2 (err_name_lowering (H := Sample.collaborators)
                     Sample.errors_state Sample.err_name eq_refl)
                  _ eq_refl (LLVMInstrResult 100) Sample.errors_state eq_refl).
    simpl. lia.
Defined.

Lemma asm_volatile_iff_witness :
  let g := Sample.debug_state in
  let g' := Sample.state_after
              (ir_render_asm (H := Sample.collaborators) Sample.syscall) g in
  exists ops handle function_type llvm_template constraints volatile args,
    emitted_by g g'
      (ops ++ [OpBuild (insert_block (builder g')) handle
                 (LLVMBuildCall
                    (Some (LLVMConstInlineAsm function_type llvm_template
                             constraints volatile false))
                    args)])
    /\ Some (LLVMInstrResult 0) = Some (LLVMInstrResult handle)
    /\ (volatile = true <->
        is_volatile Sample.syscall_expr = true
        \/ output_list Sample.syscall_expr = []).
Proof.
  intros g g'.
  exact (asm_volatile_iff (H := Sample.collaborators) g Sample.syscall
           Sample.syscall_expr (Some (LLVMInstrResult 0)) g' eq_refl eq_refl).
Defined.

Lemma error_name_table_layout_witness :
  let g := Sample.start Sample.errors_config in
  exists g' table values,
    generate_error_name_table (H := Sample.collaborators) g = Ok tt g'
    /\ err_name_table (intrinsics g') = Some (LLVMGlobalVar table)
    /\ (let init := LLVMConstArray (LLVMNamedStruct "[]u8") values in
        globals (module (consts g')) !! table
        = Some (mkGlobal "err_name_table" (LLVMArrayType (LLVMNamedStruct "[]u8")
                                             (N.of_nat (length values)))
                         (Some init) LLVMPrivateLinkage true true))
    /\ length values = 3
    /\ values !! 0 = Some (Some (LLVMGetUndef (LLVMNamedStruct "[]u8")))
    /\ forall i name,
         ["OutOfMemory"; "Overflow"] !! i = Some name ->
         (exists decl, error_decls (config g) !! S i = Some decl
                       /\ declares_error decl name)
         /\ exists name_index,
              values !! S i
              = Some (error_name_slice (H := Sample.collaborators) g name
                                       name_index)
              /\ globals (module (consts g')) !! name_index
                 = Some (name_global (H := Sample.collaborators) name).
Proof.
  intros g.
  refine (error_name_table_layout (H := Sample.collaborators) g None
            [Sample.error_decl "OutOfMemory"; Sample.error_decl "Overflow"]
            ["OutOfMemory"; "Overflow"] eq_refl eq_refl _ _).
  - discriminate.
  - repeat constructor; eexists; split; reflexivity.
Defined.

Lemma no_tests_to_run_witness :
  let g := Sample.no_tests_state in
  exists g',
    do_code_gen (H := Sample.collaborators) g = Exit 0 g'
    /\ stderr g' = "No tests to run." +:+ String "010" EmptyString
    /\ consts g'
       = consts (Sample.state_after
                   (do_code_gen_prologue (H := Sample.collaborators)) g)
    /\ builder g' = builder g.
Proof.
  intros g.
  exact (no_tests_to_run (H := Sample.collaborators) g []
           (Sample.state_after
              (do_code_gen_prologue (H := Sample.collaborators)) g)
           eq_refl eq_refl eq_refl).
Defined.


Lemma sum_fn_blocks_NoDup : NoDup (map bb_id (basic_block_list Sample.sum_fn)).
Proof.
  apply NoDup_cons. split; [|apply NoDup_singleton].
  intros Hin. apply list_elem_of_In in Hin. simpl in Hin.
  destruct Hin as [Hin|[]]. discriminate.
Qed.



(** On the sample function the edge recorded for the merge block's phi names
    the block the builder stood in when the entry block's instructions ended
    (block 3, after the overflow check split it), not the block the entry
    block started in (block 0). *)
Lemma phi_edge_is_exit_not_entry :
  let g := Sample.walk_state Sample.sum_fn in
  let g' := Sample.state_after
              (ir_render (H := Sample.collaborators) Sample.sum_fn) g in
  In (OpAddIncoming (Some (LLVMInstrResult 7)) [Some (LLVMInstrResult 1)]
                    [Some 3] 1)
     (emitted (builder g'))
  /\ llvm_exit_block g' 0 = Some 3
  /\ llvm_block g' 0 = Some 0.
Proof.
  split; [|split; vm_compute; reflexivity].
  vm_compute. do 12 right. left. reflexivity.
Qed.

(** * Further properties *)

(** ** Creating the generator *)

(** X1: the environment matters only to a native compilation for a
    Darwin target.  When cross compiling, or when the native target is not
    Darwin, the generator that [codegen_create] makes is the same whatever
    the environment holds, and neither deployment target is set. *)
Theorem codegen_create_environment (getenv getenv' : Environ)
    (native : ZigTarget) (target : option ZigTarget) (blank : CodeGenConfig) :
  target <> None \/ is_darwin native = false ->
  codegen_create getenv native target blank
  = codegen_create getenv' native target blank
  /\ mmacosx_version_min (codegen_create getenv native target blank) = None
  /\ mios_version_min (codegen_create getenv native target blank) = None.
Proof.
  unfold codegen_create, is_darwin.
  destruct target as [t|]; simpl.
  - intros _. repeat split.
  - intros [Hc|Hos]; [contradiction|].
    destruct (os native); try discriminate; repeat split.
Qed.

Lemma codegen_create_environment_witness :
  let getenv := fun name : string =>
    if String.eqb name "MACOSX_DEPLOYMENT_TARGET" then Some "10.12" else None in
  codegen_create getenv Sample.native_x86 (Some Sample.native_arm) Sample.blank
  = codegen_create (fun _ => None) Sample.native_x86 (Some Sample.native_arm)
                   Sample.blank
  /\ mmacosx_version_min
       (codegen_create getenv Sample.native_x86 (Some Sample.native_arm)
                       Sample.blank) = None
  /\ mios_version_min
       (codegen_create getenv Sample.native_x86 (Some Sample.native_arm)
                       Sample.blank) = None.
Proof.
  intros getenv.
  exact (codegen_create_environment getenv (fun _ => None) Sample.native_x86
           (Some Sample.native_arm) Sample.blank
           (or_introl (fun E : Some Sample.native_arm = None =>
                         eq_ind (Some Sample.native_arm)
                                (fun o => match o with
                                          | Some _ => True | None => False end)
                                I None E))).
Defined.

(** X2: a generator that [codegen_create] makes never has both the
    macOS and the iOS deployment target set, whatever the environment,
    the native target and the target asked for. *)
Theorem codegen_create_one_deployment_target (getenv : Environ)
    (native : ZigTarget) (target : option ZigTarget) (blank : CodeGenConfig) :
  let g := codegen_create getenv native target blank in
  mmacosx_version_min g = None \/ mios_version_min g = None.
Proof.
  unfold codegen_create, init_darwin_native.
  destruct target as [t|]; simpl; [now left|].
  destruct (os native); simpl; try (now left);
    destruct (getenv "MACOSX_DEPLOYMENT_TARGET"),
             (getenv "IPHONEOS_DEPLOYMENT_TARGET"); simpl;
    try destruct (arch native); simpl; auto.
Qed.

(** ** Debug scopes *)

(** X3: a chain of scopes that nest (blocks, defers, variable
    declarations, loops, function definitions) has a debug scope exactly
    when its root is a [Decls] scope, and that debug scope is nested as
    deep as the chain is long. *)
Theorem get_di_scope_nesting (inner : list ScopeNode) (root : ScopeNode) :
  forallb is_nesting_scope inner = true ->
  match root with
  | ScopeIdDecls _ _ _ _ =>
      exists d, get_di_scope (inner ++ [root]) = Some d
                /\ di_depth d = length inner
  | _ => get_di_scope (inner ++ [root]) = None
  end.
Proof.
  intros Hinner.
  induction inner as [|node inner IH].
  - destruct root; simpl; try reflexivity. now exists DIFileScope.
  - simpl in Hinner. apply andb_true_iff in Hinner as [Hnode Hinner].
    specialize (IH Hinner).
    assert (Hne : inner ++ [root] <> []) by (now destruct inner).
    destruct node; try discriminate; simpl;
      destruct (inner ++ [root]) as [|p ps] eqn:E; try contradiction;
      destruct root; try (rewrite IH; reflexivity);
      destruct IH as (d & -> & Hd); simpl; eexists; (split; [reflexivity|]);
      simpl; now rewrite Hd.
Qed.

Lemma get_di_scope_nesting_witness :
  exists d, get_di_scope Sample.plain_block = Some d /\ di_depth d = 2.
Proof.
  exact (get_di_scope_nesting
           [ScopeIdBlock Sample.node None false; ScopeIdFnDef Sample.node 1]
           (ScopeIdDecls Sample.node None false false) eq_refl).
Defined.

(** ** The memo table of the overflow intrinsics *)

Lemma overflow_width_cases (bits : nat) :
  overflow_width bits = true -> bits = 8 \/ bits = 16 \/ bits = 32 \/ bits = 64.
Proof.
  unfold overflow_width.
  do 65 (destruct bits as [|bits]; try discriminate; auto).
Qed.

Lemma bits_index_overflow_width (bits : nat) (g : CodeGen) :
  overflow_width bits = true ->
  bits_index bits g
  = Ok (match bits with 8 => 0 | 16 => 1 | 32 => 2 | _ => 3 end) g.
Proof.
  intros Hw.
  destruct (overflow_width_cases bits Hw) as [-> | [-> | [-> | ->]]]; reflexivity.
Qed.

Lemma bits_index_other (bits : nat) (g : CodeGen) :
  overflow_width bits = false -> bits_index bits g = Abort.
Proof.
  unfold overflow_width, bits_index.
  do 65 (destruct bits as [|bits]; try discriminate; try reflexivity).
Qed.

Lemma overflow_fn_llvm_name (type_entry : TypeTableEntry) (op : AddSubMul) :
  overflow_width (integral_bit_count type_entry) = true ->
  "llvm."
  +:+ (if integral_is_signed type_entry
       then match op with
            | AddSubMulAdd => "sadd" | AddSubMulSub => "ssub"
            | AddSubMulMul => "smul"
            end
       else match op with
            | AddSubMulAdd => "uadd" | AddSubMulSub => "usub"
            | AddSubMulMul => "umul"
            end)
  +:+ ".with.overflow.i" +:+ zu (integral_bit_count type_entry)
  = overflow_slot_name (overflow_slot type_entry op).
Proof.
  intros Hw. unfold overflow_slot.
  destruct (overflow_width_cases _ Hw) as [-> | [-> | [-> | ->]]];
    destruct (integral_is_signed type_entry), op; reflexivity.
Qed.

(** What [get_int_overflow_fn] does, by the state of the slot. *)
Lemma get_int_overflow_fn_run (g : CodeGen) (type_entry : TypeTableEntry)
    (op : AddSubMul) :
  id type_entry = TypeTableEntryIdInt ->
  overflow_width (integral_bit_count type_entry) = true ->
  let slot := overflow_slot type_entry op in
  get_int_overflow_fn type_entry op g
  = match int_overflow_fns (intrinsics g) !! slot with
    | Some fn => Ok (Some fn) g
    | None =>
        Ok (Some (LLVMFunction (overflow_slot_name slot)))
           (with_intrinsics
              (set_int_overflow_fn slot
                 (Some (LLVMFunction (overflow_slot_name slot))))
              (with_consts
                 (with_module
                    (fun m => mkModule
                                (functions m ++ [overflow_fn_decl type_entry op])
                                (globals m)))
                 g))
    end.
Proof.
  intros Hid Hw slot.
  pose proof (overflow_fn_llvm_name type_entry op Hw) as Hname.
  unfold get_int_overflow_fn, get_arithmetic_overflow_fn, is_Int, bind, assert,
    get.
  rewrite Hid, (bits_index_overflow_width _ g Hw).
  fold (overflow_slot type_entry op). fold slot.
  destruct (int_overflow_fns (intrinsics g) !! slot) as [fn|]; [reflexivity|].
  subst slot. unfold overflow_fn_decl. rewrite <- Hname.
  destruct (integral_is_signed type_entry), op; reflexivity.
Qed.

Lemma get_int_overflow_fn_requires (g : CodeGen)
    (type_entry : TypeTableEntry) (op : AddSubMul) fn g' :
  get_int_overflow_fn type_entry op g = Ok fn g' ->
  id type_entry = TypeTableEntryIdInt
  /\ overflow_width (integral_bit_count type_entry) = true.
Proof.
  intros E.
  unfold get_int_overflow_fn, is_Int, bind, assert in E.
  destruct (id type_entry); try discriminate. split; [reflexivity|].
  destruct (overflow_width (integral_bit_count type_entry)) eqn:Hw;
    [reflexivity|].
  now rewrite (bits_index_other _ g Hw) in E.
Qed.

(** X4: [get_int_overflow_fn] yields a function exactly for the integer
    types of 8, 16, 32 and 64 bits; for every other type it aborts. *)
Theorem get_int_overflow_fn_supported (g : CodeGen)
    (type_entry : TypeTableEntry) (op : AddSubMul) :
  (exists fn g', get_int_overflow_fn type_entry op g = Ok fn g')
  <-> id type_entry = TypeTableEntryIdInt
      /\ overflow_width (integral_bit_count type_entry) = true.
Proof.
  split.
  - intros (fn & g' & E). exact (get_int_overflow_fn_requires _ _ _ _ _ E).
  - intros [Hid Hw]. rewrite (get_int_overflow_fn_run g _ op Hid Hw).
    destruct (int_overflow_fns (intrinsics g) !! overflow_slot type_entry op);
      eexists _, _; reflexivity.
Qed.

Lemma get_int_overflow_fn_supported_witness :
  exists fn g',
    get_int_overflow_fn Sample.u16 AddSubMulAdd Sample.debug_state = Ok fn g'.
Proof.
  exact (proj2 (get_int_overflow_fn_supported Sample.debug_state Sample.u16
                  AddSubMulAdd)
               (conj eq_refl eq_refl)).
Defined.

(** X5: the memo table of the overflow intrinsics stays coherent.  From
    a table in which every filled slot holds the intrinsic of that
    slot, [get_int_overflow_fn] yields the intrinsic named after the
    signedness of the type, the operation and the width, cached or not,
    and leaves such a table. *)
Theorem get_int_overflow_fn_coherent (g : CodeGen)
    (type_entry : TypeTableEntry) (op : AddSubMul) (fn : LLVMValueRef)
    (g' : CodeGen) :
  overflow_fns_ok g ->
  get_int_overflow_fn type_entry op g = Ok fn g' ->
  fn = Some (LLVMFunction (overflow_slot_name (overflow_slot type_entry op)))
  /\ overflow_fns_ok g'.
Proof.
  intros Hok E.
  destruct (get_int_overflow_fn_requires _ _ _ _ _ E) as [Hid Hw].
  rewrite (get_int_overflow_fn_run g _ op Hid Hw) in E.
  destruct (overflow_slot type_entry op) as [[index0 index1] index2] eqn:Hslot.
  destruct (int_overflow_fns (intrinsics g) !! (index0, index1, index2))
    as [cached|] eqn:Hlookup; injection E as <- <-.
  - split; [|exact Hok]. now rewrite (Hok _ _ _ _ Hlookup).
  - split; [reflexivity|].
    intros i0 i1 i2 fn. cbn.
    destruct (decide ((index0, index1, index2) = (i0, i1, i2)))
      as [[= <- <- <-]|Hne].
    + rewrite lookup_insert_eq. now intros [= <-].
    + rewrite lookup_insert_ne by exact Hne. apply Hok.
Qed.

Lemma get_int_overflow_fn_coherent_witness :
  let g := Sample.debug_state in
  let g' := Sample.state_after (get_int_overflow_fn Sample.u16 AddSubMulMul) g in
  overflow_fns_ok g'.
Proof.
  intros g g'.
  exact (proj2 (get_int_overflow_fn_coherent g Sample.u16 AddSubMulMul
                  (Some (LLVMFunction "llvm.umul.with.overflow.i16")) g'
                  sample_overflow_fns_ok eq_refl)).
Defined.

(** X6: [get_int_overflow_fn] declares an intrinsic once.  Asking
    again for the same type and operation yields the same function and
    changes nothing; the module gains the declaration of the intrinsic
    when the slot was empty and nothing when it was filled. *)
Theorem get_int_overflow_fn_memo (g : CodeGen) (type_entry : TypeTableEntry)
    (op : AddSubMul) (fn : LLVMValueRef) (g' : CodeGen) :
  get_int_overflow_fn type_entry op g = Ok fn g' ->
  get_int_overflow_fn type_entry op g' = Ok fn g'
  /\ functions (module (consts g'))
     = functions (module (consts g))
       ++ match int_overflow_fns (intrinsics g) !! overflow_slot type_entry op
          with
          | Some _ => []
          | None => [overflow_fn_decl type_entry op]
          end.
Proof.
  intros E.
  destruct (get_int_overflow_fn_requires _ _ _ _ _ E) as [Hid Hw].
  rewrite (get_int_overflow_fn_run g _ op Hid Hw) in E.
  rewrite (get_int_overflow_fn_run g' _ op Hid Hw).
  destruct (int_overflow_fns (intrinsics g) !! overflow_slot type_entry op)
    as [cached|] eqn:Hlookup; injection E as <- <-.
  - rewrite Hlookup, app_nil_r. split; reflexivity.
  - cbn. rewrite lookup_insert_eq. split; reflexivity.
Qed.

Lemma get_int_overflow_fn_memo_witness :
  let g := Sample.debug_state in
  let g' := Sample.state_after (get_int_overflow_fn Sample.i32 AddSubMulSub) g in
  get_int_overflow_fn Sample.i32 AddSubMulSub g'
  = Ok (Some (LLVMFunction "llvm.ssub.with.overflow.i32")) g'
  /\ functions (module (consts g'))
     = functions (module (consts g))
       ++ [overflow_fn_decl Sample.i32 AddSubMulSub].
Proof.
  intros g g'.
  exact (get_int_overflow_fn_memo g Sample.i32 AddSubMulSub _ g' eq_refl).
Defined.

(** ** Overflow checks *)

(** Runs a computation on a symbolic state and names the state it ends
    in. *)
Ltac run_to_state :=
  lazymatch goal with
  | |- exists g', ?c = Ok ?v g' /\ _ =>
      let r := eval cbv -[app] in c in
      lazymatch r with
      | Ok ?a ?gf => exists gf; split; [cbv -[app]; reflexivity|]
      end
  end.

(** X7: an overflow-checked addition, subtraction or multiplication
    on an integer type of 8, 16, 32 or 64 bits calls the intrinsic named
    after the signedness, the operation and the width, takes element 0 of
    the result as the value and element 1 as the overflow bit, and
    branches on that bit to a new fail block, which traps; the builder
    ends in the new ok block. *)
Theorem gen_overflow_op_shape (g : CodeGen) (type_entry : TypeTableEntry)
    (op : AddSubMul) (val1 val2 : LLVMValueRef) :
  overflow_fns_ok g ->
  id type_entry = TypeTableEntryIdInt ->
  overflow_width (integral_bit_count type_entry) = true ->
  exists g',
    gen_overflow_op type_entry op val1 val2 g
    = Ok (Some (LLVMInstrResult (S (next_value (builder g))))) g'
    /\ emitted_by g g'
         (overflow_op_ops g
            (Some (LLVMFunction
                     (overflow_slot_name (overflow_slot type_entry op))))
            val1 val2)
    /\ insert_block (builder g') = Some (S (next_block (builder g))).
Proof.
  intros Hok Hid Hw.
  unfold gen_overflow_op, bind.
  rewrite (get_int_overflow_fn_run g _ op Hid Hw).
  destruct (overflow_slot type_entry op) as [[index0 index1] index2] eqn:Hslot.
  destruct (int_overflow_fns (intrinsics g) !! (index0, index1, index2))
    as [cached|] eqn:Hlookup.
  - rewrite (Hok _ _ _ _ Hlookup). cbn.
    eexists. split; [reflexivity|]. split; [|reflexivity].
    unfold emitted_by, overflow_op_ops, crash_ops. cbn.
    rewrite <- !app_assoc. reflexivity.
  - cbn. eexists. split; [reflexivity|]. split; [|reflexivity].
    unfold emitted_by, overflow_op_ops, crash_ops. cbn.
    rewrite <- !app_assoc. reflexivity.
Qed.


Lemma gen_overflow_op_shape_witness :
  let g := Sample.debug_state in
  exists g',
    gen_overflow_op Sample.u8 AddSubMulSub
      (Some (LLVMInstrResult 100)) (Some (LLVMInstrResult 101)) g
    = Ok (Some (LLVMInstrResult (S (next_value (builder g))))) g'
    /\ emitted_by g g'
         (overflow_op_ops g
            (Some (LLVMFunction "llvm.usub.with.overflow.i8"))
            (Some (LLVMInstrResult 100)) (Some (LLVMInstrResult 101)))
    /\ insert_block (builder g') = Some (S (next_block (builder g))).
Proof.
  intros g.
  exact (gen_overflow_op_shape g Sample.u8 AddSubMulSub
           (Some (LLVMInstrResult 100)) (Some (LLVMInstrResult 101))
           sample_overflow_fns_ok eq_refl eq_refl).
Defined.

(** X8: an overflow-checked shift left shifts, shifts the result back
    (arithmetically for a signed type, logically for an unsigned one),
    compares it with the operand and branches to a new fail block, which
    traps, when they differ; the value is the shift and the builder ends
    in the new ok block.  For a type that is not an integer type it
    aborts. *)
Theorem gen_overflow_shl_op_shape (g : CodeGen) (type_entry : TypeTableEntry)
    (val1 val2 : LLVMValueRef) :
  match id type_entry with
  | TypeTableEntryIdInt =>
      exists g',
        gen_overflow_shl_op type_entry val1 val2 g
        = Ok (Some (LLVMInstrResult (next_value (builder g)))) g'
        /\ emitted_by g g'
             (overflow_shl_ops g (integral_is_signed type_entry) val1 val2)
        /\ insert_block (builder g') = Some (next_block (builder g))
  | _ => gen_overflow_shl_op type_entry val1 val2 g = Abort
  end.
Proof.
  unfold gen_overflow_shl_op, is_Int, bind, assert.
  destruct (id type_entry); try reflexivity.
  destruct (integral_is_signed type_entry); cbn;
    (eexists; split; [reflexivity|]; split; [|reflexivity]);
    unfold emitted_by, overflow_shl_ops, crash_ops; cbn;
    rewrite <- !app_assoc; reflexivity.
Qed.

(** ** Division *)

(** X9: without safety checks a division is one instruction where the
    builder stands: [fdiv] for a float, and for an integer the signed or
    unsigned division, exact when asked for.  An exact float division and
    a division of any other type abort. *)
Theorem gen_div_unchecked (g : CodeGen) (val1 val2 : LLVMValueRef)
    (type_entry : TypeTableEntry) (exact : bool) :
  match id type_entry, exact with
  | TypeTableEntryIdFloat, false | TypeTableEntryIdInt, _ =>
      exists g',
        gen_div false val1 val2 type_entry exact g
        = Ok (Some (LLVMInstrResult (next_value (builder g)))) g'
        /\ emitted_by g g'
             [OpBuild (insert_block (builder g)) (next_value (builder g))
                (LLVMBuildBinary (div_op type_entry exact) val1 val2)]
        /\ insert_block (builder g') = insert_block (builder g)
  | _, _ => gen_div false val1 val2 type_entry exact g = Abort
  end.
Proof.
  unfold gen_div, div_op, is_Int, bind, assert, ret.
  destruct (id type_entry) eqn:Hid, exact; try reflexivity; cbn;
    try destruct (integral_is_signed type_entry); cbn;
    eexists; (split; [reflexivity|]); split; reflexivity.
Qed.

(** X10: with safety checks a division first compares the divisor
    with zero and branches to a new fail block, which traps, when it is
    zero.  An exact division then computes the remainder in the ok block
    and branches to a second fail block when it is not zero.  The division
    itself is the last instruction, in the block the builder ends in. *)
Theorem gen_div_checked (g : CodeGen) (val1 val2 : LLVMValueRef)
    (type_entry : TypeTableEntry) (exact : bool) :
  id type_entry = TypeTableEntryIdInt
  \/ id type_entry = TypeTableEntryIdFloat /\ exact = false ->
  let v := next_value (builder g) in
  let ok_block := next_block (builder g) in
  let exact_check :=
    if exact
    then div_exact_ops g type_entry val1 val2 (Some ok_block)
                       (4 + v) (2 + ok_block)
    else [] in
  let last_block := if exact then 2 + ok_block else ok_block in
  let result := if exact then 9 + v else 4 + v in
  exists g',
    gen_div true val1 val2 type_entry exact g
    = Ok (Some (LLVMInstrResult result)) g'
    /\ emitted_by g g'
         (div_zero_ops g type_entry val2 ++ exact_check
          ++ [OpBuild (Some last_block) result
                (LLVMBuildBinary (div_op type_entry exact) val1 val2)])
    /\ insert_block (builder g') = Some last_block.
Proof.
  intros Hty. cbv zeta.
  unfold gen_div, div_op, div_zero_ops, div_exact_ops, is_Int.
  destruct Hty as [Hid|[Hid ->]]; rewrite Hid;
    try destruct exact; try destruct (integral_is_signed type_entry);
    run_to_state; (split; [|reflexivity]);
    unfold emitted_by; cbv -[app]; rewrite <- !app_assoc; reflexivity.
Qed.

Lemma gen_div_checked_witness :
  let g := Sample.debug_state in
  exists g',
    gen_div true (Some (LLVMInstrResult 100)) (Some (LLVMInstrResult 101))
            Sample.i32 true g
    = Ok (Some (LLVMInstrResult (9 + next_value (builder g)))) g'
    /\ emitted_by g g'
         (div_zero_ops g Sample.i32 (Some (LLVMInstrResult 101))
          ++ div_exact_ops g Sample.i32 (Some (LLVMInstrResult 100))
               (Some (LLVMInstrResult 101))
               (Some (next_block (builder g)))
               (4 + next_value (builder g)) (2 + next_block (builder g))
          ++ [OpBuild (Some (2 + next_block (builder g)))
                (9 + next_value (builder g))
                (LLVMBuildBinary ExactSDiv (Some (LLVMInstrResult 100))
                                 (Some (LLVMInstrResult 101)))])
    /\ insert_block (builder g') = Some (2 + next_block (builder g)).
Proof.
  intros g.
  exact (gen_div_checked g (Some (LLVMInstrResult 100))
           (Some (LLVMInstrResult 101)) Sample.i32 true (or_introl eq_refl)).
Defined.

(** ** Reading operands *)

#[local] Instance read_frame_preorder : PreOrder read_frame.
Proof.
  split.
  - intros g. repeat split.
  - intros g1 g2 g3 (?&?&?&?&?&?&?&?) (?&?&?&?&?&?&?&?).
    repeat split; congruence.
Qed.

Lemma modify_consts_read f : steps read_frame (modify (with_consts f)).
Proof. steps_modify. repeat split. Qed.

Lemma modify_instr_value_read k v :
  steps read_frame (modify (with_handles (set_instr_llvm_value k v))).
Proof. steps_modify. repeat split. Qed.

Lemma on_global_read f v : steps read_frame (on_global f v).
Proof. unfold on_global. steps_go. apply modify_consts_read. Qed.

Lemma on_function_read f v : steps read_frame (on_function f v).
Proof. unfold on_function. steps_go. apply modify_consts_read. Qed.

Lemma LLVMAddGlobal_read ty name : steps read_frame (LLVMAddGlobal ty name).
Proof. intros g a g' [= _ <-]. repeat split. Qed.

Lemma LLVMSetLinkage_read v l : steps read_frame (LLVMSetLinkage v l).
Proof.
  unfold LLVMSetLinkage.
  steps_go; apply on_global_read || apply on_function_read.
Qed.

Lemma build_read instr : steps read_frame (build instr).
Proof. intros g a g' [= _ <-]. repeat split. Qed.

#[local] Hint Resolve modify_consts_read modify_instr_value_read
  on_global_read on_function_read LLVMAddGlobal_read LLVMSetLinkage_read
  build_read : frames.

Section Operands.
Context `{Collaborators}.

Lemma gen_const_val_M_read type_entry const_val :
  steps read_frame (gen_const_val_M type_entry const_val).
Proof.
  intros g v g'. unfold gen_const_val_M.
  destruct (gen_const_val type_entry const_val (consts g)) as [[v' c]|];
    [|discriminate].
  intros [= _ <-]. repeat split.
Qed.

Lemma ir_llvm_value_read instruction :
  steps read_frame (ir_llvm_value instruction).
Proof.
  pose proof gen_const_val_M_read.
  unfold ir_llvm_value, render_const_val, render_const_val_global,
    LLVMSetInitializer, LLVMSetGlobalConstant, LLVMSetUnnamedAddr.
  frames.
Qed.

(** X11: reading an operand is memoised.  Once an operand that is a
    runtime value or whose type is not a pointer type has been read, reading
    it again yields the same value and changes nothing; and an operand
    whose type has bits has a value that is not null, cached on the
    instruction. *)
Theorem ir_llvm_value_memo (g : CodeGen) (instruction : IrInstruction)
    (value : LLVMValueRef) (g' : CodeGen) :
  special (static_value instruction) = ConstValSpecialRuntime
  \/ id (type_entry instruction) <> TypeTableEntryIdPointer ->
  ir_llvm_value instruction g = Ok value g' ->
  ir_llvm_value instruction g' = Ok value g'
  /\ (type_has_bits (type_entry instruction) = true ->
      value <> None /\ llvm_value g' instruction = value).
Proof.
  intros Hkind E. unfold ir_llvm_value in *.
  destruct (type_has_bits (type_entry instruction)); cbn [negb] in *.
  2: { injection E as <- <-. split; [reflexivity|discriminate]. }
  apply bind_Ok in E as (g0 & g0' & E0 & E). injection E0 as <- <-.
  apply bind_Ok in E as ([] & g1 & E1 & E).
  apply bind_Ok in E as (g1' & g1'' & E0 & E). injection E0 as <- <-.
  assert (Hv : exists v, llvm_value g1 instruction = Some v).
  { destruct (llvm_value g instruction) as [v|] eqn:Hcached.
    - injection E1 as <-. now exists v.
    - apply bind_Ok in E1 as ([] & g2 & _ & E1).
      apply bind_Ok in E1 as ([] & g3 & _ & E1).
      apply bind_Ok in E1 as ([] & g4 & _ & E1).
      apply bind_Ok in E1 as (g4' & g4'' & E0 & E1). injection E0 as <- <-.
      apply assert_Ok in E1 as [Hnn <-].
      destruct (llvm_value g1 instruction) as [v|]; [now exists v|discriminate]. }
  destruct Hv as (v & Hv).
  assert (Hret : value = Some v /\ g' = g1).
  { destruct Hkind as [Hrun|Hptr].
    - rewrite Hrun in E. cbn in E. injection E as <- <-. now rewrite Hv.
    - destruct (is_Runtime (special (static_value instruction))); cbn in E.
      + injection E as <- <-. now rewrite Hv.
      + destruct (id (type_entry instruction)); try contradiction;
          injection E as <- <-; now rewrite Hv. }
  destruct Hret as [-> ->]. split; [|intros _; split; [discriminate|exact Hv]].
  unfold bind, get. rewrite Hv. cbn.
  destruct Hkind as [Hrun|Hptr].
  - rewrite Hrun. cbn. now rewrite Hv.
  - destruct (is_Runtime (special (static_value instruction))); cbn.
    + now rewrite Hv.
    + destruct (id (type_entry instruction)); try contradiction;
        now rewrite Hv.
Qed.

End Operands.

Lemma ir_llvm_value_memo_witness :
  let g := Sample.debug_state in
  ir_llvm_value (H := Sample.collaborators) (Sample.operand 1 Sample.i32) g
  = Ok (Some (LLVMInstrResult 100)) g
  /\ (type_has_bits (type_entry (Sample.operand 1 Sample.i32)) = true ->
      Some (LLVMInstrResult 100) <> None
      /\ llvm_value g (Sample.operand 1 Sample.i32)
         = Some (LLVMInstrResult 100)).
Proof.
  intros g.
  exact (ir_llvm_value_memo (H := Sample.collaborators) g
           (Sample.operand 1 Sample.i32) (Some (LLVMInstrResult 100)) g
           (or_introl eq_refl) eq_refl).
Defined.

(** ** Binary operations *)

Section BinaryOperations.
Context `{Collaborators}.

(** X12: only a non-wrapping addition, subtraction, multiplication or
    shift left and a division can contain a safety check.  Every other
    binary operation, and every binary operation whose own
    [safety_check_on] flag is off or for which the safety predicate is
    false, lowers to exactly one instruction after its operands, where the
    builder stands, and appends no block. *)
Theorem ir_render_bin_op_unchecked (g : CodeGen)
    (instruction : IrInstructionBinOp) (op1_value op2_value : LLVMValueRef)
    (g1 g2 : CodeGen) (result : LLVMValueRef) (g' : CodeGen) :
  checked_bin_op (op_id instruction) = false
  \/ safety_check_on instruction = false
  \/ ir_want_debug_safety g (bin_op_base instruction) = false ->
  ir_llvm_value (op1 instruction) g = Ok op1_value g1 ->
  ir_llvm_value (op2 instruction) g1 = Ok op2_value g2 ->
  ir_render_bin_op instruction g = Ok result g' ->
  exists instr,
    emitted_by g2 g'
      [OpBuild (insert_block (builder g2)) (next_value (builder g2)) instr]
    /\ result = Some (LLVMInstrResult (next_value (builder g2)))
    /\ next_block (builder g') = next_block (builder g2)
    /\ insert_block (builder g') = insert_block (builder g2).
Proof.
  intros Hsafe E1 E2 E. unfold ir_render_bin_op in E.
  apply bind_Ok in E as ([] & g0 & E0 & E). apply assert_Ok in E0 as [_ ->].
  unfold bind at 1 in E. unfold get at 1 in E.
  unfold bind at 1 in E. rewrite E1 in E.
  unfold bind at 1 in E. rewrite E2 in E.
  assert (Hwant :
    checked_bin_op (op_id instruction) = false
    \/ safety_check_on instruction
       && ir_want_debug_safety g (bin_op_base instruction) = false).
  { destruct Hsafe as [?|[->| ->]]; [now left|now right|].
    right. apply andb_false_r. }
  clear Hsafe.
  unfold gen_div, cmp_op_to_int_predicate, cmp_op_to_real_predicate, is_Int,
    bind, assert, ret in E.
  destruct (op_id instruction); cbn in Hwant;
    (destruct Hwant as [Hwant|Hwant];
     [try discriminate Hwant | try rewrite Hwant in E]);
    try discriminate E; cbn in E;
    repeat match type of E with
           | context [match ?x with _ => _ end] =>
               lazymatch x with
               | context [match _ with _ => _ end] => fail
               | _ => destruct x eqn:?; try discriminate E; cbn in E
               end
           end;
    injection E as <- <-; eexists; repeat split.
Qed.

(** X13: a wrapping addition, subtraction, multiplication or shift left
    of integers lowers to the plain instruction, whatever the safety
    settings are. *)
Theorem ir_render_bin_op_wrapping (g : CodeGen)
    (instruction : IrInstructionBinOp) (binary : LLVMBinaryOp)
    (op1_value op2_value : LLVMValueRef) (g1 g2 : CodeGen) :
  wrapping_op (op_id instruction) = Some binary ->
  id (type_entry (op1 instruction)) = TypeTableEntryIdInt ->
  type_id (type_entry (op1 instruction))
  = type_id (type_entry (op2 instruction)) ->
  ir_llvm_value (op1 instruction) g = Ok op1_value g1 ->
  ir_llvm_value (op2 instruction) g1 = Ok op2_value g2 ->
  exists g',
    ir_render_bin_op instruction g
    = Ok (Some (LLVMInstrResult (next_value (builder g2)))) g'
    /\ emitted_by g2 g'
         [OpBuild (insert_block (builder g2)) (next_value (builder g2))
                  (LLVMBuildBinary binary op1_value op2_value)].
Proof.
  intros Hop Hid Hty E1 E2.
  unfold ir_render_bin_op, bind, get, assert, is_Int.
  rewrite Hty, Nat.eqb_refl, E1, E2, Hid.
  destruct (op_id instruction); try discriminate; injection Hop as <-;
    cbn; eexists; split; reflexivity.
Qed.

End BinaryOperations.

Lemma ir_render_bin_op_wrapping_witness :
  let g := Sample.debug_state in
  let instruction :=
    mkBinOp (Sample.in_scope 3 Sample.safety_on_block Sample.i32)
            IrBinOpMultWrap (Sample.operand 1 Sample.i32)
            (Sample.operand 2 Sample.i32) true in
  exists g',
    ir_render_bin_op (H := Sample.collaborators) instruction g
    = Ok (Some (LLVMInstrResult (next_value (builder g)))) g'
    /\ emitted_by g g'
         [OpBuild (insert_block (builder g)) (next_value (builder g))
                  (LLVMBuildBinary Mul (Some (LLVMInstrResult 100))
                                   (Some (LLVMInstrResult 101)))].
Proof.
  intros g instruction.
  exact (ir_render_bin_op_wrapping (H := Sample.collaborators) g instruction
           Mul (Some (LLVMInstrResult 100)) (Some (LLVMInstrResult 101)) g g
           eq_refl eq_refl eq_refl eq_refl eq_refl).
Defined.

Lemma ir_render_bin_op_unchecked_witness :
  let g := Sample.debug_state in
  let g' := Sample.state_after
              (ir_render_bin_op (H := Sample.collaborators)
                                (Sample.add_i32 false)) g in
  exists instr,
    emitted_by g g'
      [OpBuild (insert_block (builder g)) (next_value (builder g)) instr]
    /\ Some (LLVMInstrResult 0)
       = Some (LLVMInstrResult (next_value (builder g)))
    /\ next_block (builder g') = next_block (builder g)
    /\ insert_block (builder g') = insert_block (builder g).
Proof.
  intros g g'.
  exact (ir_render_bin_op_unchecked (H := Sample.collaborators) g
           (Sample.add_i32 false) (Some (LLVMInstrResult 100))
           (Some (LLVMInstrResult 101)) g g (Some (LLVMInstrResult 0)) g'
           (or_intror (or_introl eq_refl)) eq_refl eq_refl eq_refl).
Defined.

(** ** Terminators and references *)

(** X14: an unreachable lowers to a call of the trap function followed
    by [unreachable] when the safety predicate holds or the build is a
    test build, and to a bare [unreachable] otherwise; it yields no
    value. *)
Theorem ir_render_unreachable_trap (g : CodeGen) (instruction : IrInstruction) :
  let here := insert_block (builder g) in
  let v := next_value (builder g) in
  exists g',
    ir_render_unreachable instruction g = Ok None g'
    /\ emitted_by g g'
         (if ir_want_debug_safety g instruction || is_test_build (config g)
          then [OpBuild here v (LLVMBuildCall (trap_fn_val (intrinsics g)) []);
                OpBuild here (S v) LLVMBuildUnreachable]
          else [OpBuild here v LLVMBuildUnreachable]).
Proof.
  cbv zeta. unfold ir_render_unreachable, bind, get.
  destruct (ir_want_debug_safety g instruction || is_test_build (config g));
    run_to_state; unfold emitted_by; cbv -[app]; rewrite <- ?app_assoc;
    reflexivity.
Qed.

#[local] Instance position_frame_preorder : PreOrder position_frame.
Proof.
  split.
  - intros g. reflexivity.
  - intros g1 g2 g3 E1 E2. unfold position_frame in *. congruence.
Qed.

Lemma build_position instr : steps position_frame (build instr).
Proof. intros g a g' [= _ <-]. reflexivity. Qed.

#[local] Hint Resolve build_position : frames.

Section Terminators.
Context `{Collaborators}.


(** X16: a Ref of an operand that is handled by pointer is the operand
    itself and emits nothing; a Ref of any other operand stores the
    operand in the temporary slot of the instruction, as it was before the
    operand was read, and is that slot. *)
Theorem ir_render_ref_slot (g : CodeGen) (instruction : IrInstructionRef)
    (value : LLVMValueRef) (g1 : CodeGen) :
  ir_llvm_value (ref_value instruction) g = Ok value g1 ->
  if handle_is_ptr (type_entry (ref_value instruction))
  then ir_render_ref instruction g = Ok value g1
  else
    exists g',
      ir_render_ref instruction g = Ok (tmp_ptr g (ref_base instruction)) g'
      /\ emitted_by g1 g'
           [OpBuild (insert_block (builder g)) (next_value (builder g1))
                    (LLVMBuildStore value (tmp_ptr g (ref_base instruction)))].
Proof.
  intros E1. unfold ir_render_ref, bind. rewrite E1.
  destruct (ir_llvm_value_read _ _ _ _ E1) as (_ & _ & _ & Hins & _ & Htmp & _).
  destruct (handle_is_ptr (type_entry (ref_value instruction)));
    [reflexivity|].
  unfold tmp_ptr. rewrite <- Htmp, <- Hins.
  eexists. split; reflexivity.
Qed.

End Terminators.

Lemma ir_render_ref_slot_witness :
  let g := with_handles (set_instr_tmp_ptr 3 (Some (LLVMInstrResult 50)))
                        Sample.debug_state in
  let instruction :=
    mkRef (Sample.operand 3 Sample.u8_ptr) (Sample.operand 1 Sample.i32) in
  exists g',
    ir_render_ref (H := Sample.collaborators) instruction g
    = Ok (Some (LLVMInstrResult 50)) g'
    /\ emitted_by g g'
         [OpBuild (insert_block (builder g)) (next_value (builder g))
                  (LLVMBuildStore (Some (LLVMInstrResult 100))
                                  (Some (LLVMInstrResult 50)))].
Proof.
  intros g instruction.
  exact (ir_render_ref_slot (H := Sample.collaborators) g instruction
           (Some (LLVMInstrResult 100)) g eq_refl).
Defined.


(** ** The instruction walk *)

Section Walk.
Context `{Collaborators}.

(** X17: instructions that are not referenced and have no side effects
    are skipped: a list of such instructions changes nothing, and cannot
    abort either. *)
Theorem ir_render_instructions_skips (g : CodeGen) (instructions : list IrInstr) :
  Forall (fun instruction => lowered instruction = false) instructions ->
  ir_render_instructions instructions g = Ok tt g.
Proof.
  induction 1 as [|instruction rest Hdead _ IH]; [reflexivity|].
  simpl. unfold lowered in Hdead. apply negb_false_iff in Hdead.
  unfold bind. now rewrite Hdead.
Qed.

Lemma ir_render_block_entry (current_block : IrBasicBlock) g g' :
  ir_render_block current_block g = Ok tt g' ->
  0 < bb_ref_count current_block
  /\ llvm_block g (bb_id current_block) <> None
  /\ bb_llvm_block (handles g') = bb_llvm_block (handles g).
Proof.
  unfold ir_render_block. intros E.
  apply bind_Ok in E as ([] & g0 & E0 & E). apply assert_Ok in E0 as [Href ->].
  apply bind_Ok in E as (g0 & g0' & [= <- <-] & E).
  apply bind_Ok in E as ([] & g1 & E1 & E). apply assert_Ok in E1 as [Hblock ->].
  apply bind_Ok in E as ([] & g1 & E1 & E).
  unfold LLVMPositionBuilderAtEnd, modify in E1. injection E1 as <-.
  apply bind_Ok in E as ([] & g2 & E2 & E).
  apply bind_Ok in E as (exit_block & g3 & E3 & E).
  unfold LLVMGetInsertBlock in E3. injection E3 as <- <-.
  unfold modify in E. injection E as <-.
  apply ir_render_instructions_lowering in E2 as (_ & Hbb & _).
  split; [now apply Nat.ltb_lt|]. split; [|exact Hbb].
  now destruct (llvm_block g (bb_id current_block)).
Qed.


End Walk.

Lemma ir_render_instructions_skips_witness :
  ir_render_instructions (H := Dead.collaborators)
    [Dead.unused_add; Dead.unused_add] Sample.debug_state
  = Ok tt Sample.debug_state.
Proof.
  apply (ir_render_instructions_skips (H := Dead.collaborators)).
  repeat constructor.
Defined.


(** ** Declaring functions *)

Lemma declaration_frame_refl g : declaration_frame g g.
Proof. repeat split. Qed.

Lemma declaration_frame_trans g1 g2 g3 :
  declaration_frame g1 g2 -> declaration_frame g2 g3 ->
  declaration_frame g1 g3.
Proof.
  intros (?&?&?&?&?&?&?&?&?&?) (?&?&?&?&?&?&?&?&?&?).
  repeat split; congruence.
Qed.

Lemma declaration_run_ret {A} name d (a : A) :
  declaration_run name d d a (ret a).
Proof.
  intros g l Hl. exists g, l. repeat split. exact Hl.
Qed.

Lemma declaration_run_bind {A B} name d d1 d2 (a : A) (b : B) c k :
  declaration_run name d d1 a c ->
  declaration_run name d1 d2 b (k a) ->
  declaration_run name d d2 b (bind c k).
Proof.
  intros Hc Hk g l Hl.
  destruct (Hc g l Hl) as (g1 & l1 & E1 & Hl1 & Hlen1 & F1).
  destruct (Hk g1 l1 Hl1) as (g2 & l2 & E2 & Hl2 & Hlen2 & F2).
  exists g2, l2. unfold bind. rewrite E1.
  split; [exact E2|]. split; [exact Hl2|]. split; [congruence|].
  exact (declaration_frame_trans _ _ _ F1 F2).
Qed.

Lemma declaration_run_on_function name d f :
  function_name d = name ->
  declaration_run name d (f d) tt (on_function f (Some (LLVMFunction name))).
Proof.
  intros Hname g l Hl.
  exists (with_consts (with_module (alter_function f name)) g),
         (map (fun d => if String.eqb (function_name d) name then f d else d)
              l).
  split; [reflexivity|]. split.
  { cbn [consts with_consts module with_module functions alter_function].
    rewrite Hl, map_app. cbn [map].
    now rewrite Hname, String.eqb_refl. }
  split; [apply length_map|]. repeat split.
Qed.

Lemma declaration_run_attr name d a :
  function_name d = name ->
  declaration_run name d (add_attrs [a] d) tt
    (LLVMAddFunctionAttr (Some (LLVMFunction name)) a).
Proof. apply declaration_run_on_function. Qed.

Lemma add_attrs_nil d : add_attrs [] d = d.
Proof. destruct d. unfold add_attrs. cbn. now rewrite app_nil_r. Qed.

Lemma add_attrs_two a b d :
  add_attrs [a; b] d = add_function_attr b (add_attrs [a] d).
Proof.
  unfold add_attrs, add_function_attr. cbn. now rewrite <- app_assoc.
Qed.

(** Declaring a function that has no declaration yet. *)
Lemma fn_llvm_value_fresh (g : CodeGen) (fn_table_entry : FnTableEntry) :
  fn_llvm_values (consts g) !! fn_id fn_table_entry = None ->
  exists g',
    fn_llvm_value fn_table_entry g
    = Ok (Some (LLVMFunction (fn_symbol fn_table_entry))) g'
    /\ (exists l,
          functions (module (consts g')) = l ++ [fn_decl g fn_table_entry]
          /\ length l = length (functions (module (consts g))))
    /\ fn_llvm_values (consts g')
       = <[fn_id fn_table_entry := LLVMFunction (fn_symbol fn_table_entry)]>
           (fn_llvm_values (consts g))
    /\ config g' = config g /\ builder g' = builder g
    /\ handles g' = handles g /\ intrinsics g' = intrinsics g
    /\ cur g' = cur g /\ stderr g' = stderr g
    /\ globals (module (consts g')) = globals (module (consts g)).
Proof.
  intros Hfresh.
  set (name := fn_symbol fn_table_entry).
  set (v := Some (LLVMFunction name)).
  set (fn_type := fn_type fn_table_entry).
  set (d0 := mkFunctionDecl name (raw_type_ref fn_type) LLVMExternalLinkage 0
                            [] []).
  set (g0 := with_consts
               (set_fn_llvm_value (fn_id fn_table_entry) v)
               (with_consts (with_module (add_function name (raw_type_ref fn_type)))
                            g)).
  pose (l1 := match fn_inline fn_table_entry with
              | FnInlineAlways => [LLVMAlwaysInlineAttribute]
              | FnInlineNever => [LLVMNoInlineAttribute]
              | FnInlineAuto => []
              end).
  pose (l2 := if is_naked fn_type then [LLVMNakedAttribute] else []).
  pose (l3 := match id (return_type fn_type) with
              | TypeTableEntryIdUnreachable => [LLVMNoReturnAttribute]
              | _ => []
              end).
  pose (l4 := if is_extern fn_type then [] else [LLVMNoUnwindAttribute]).
  pose (l5 := if is_release_build (config g) then []
              else match fn_inline fn_table_entry with
                   | FnInlineAlways => []
                   | _ => [ZigLLVMStringAttr "no-frame-pointer-elim"
                                             (Some "true");
                           ZigLLVMStringAttr "no-frame-pointer-elim-non-leaf"
                                             None]
                   end).
  pose (d1 := add_attrs l1 d0).
  pose (d2 := add_attrs l2 d1).
  pose (d3 := set_function_linkage
                (if internal_linkage fn_table_entry
                 then LLVMInternalLinkage else LLVMExternalLinkage) d2).
  pose (d4 := add_attrs l3 d3).
  pose (d5 := set_function_call_conv (calling_convention fn_type) d4).
  pose (d6 := add_attrs l4 d5).
  pose (d7 := add_attrs l5 d6).
  assert (Hrun : declaration_run name d0 d7 v
    (match fn_inline fn_table_entry with
     | FnInlineAlways => LLVMAddFunctionAttr v LLVMAlwaysInlineAttribute
     | FnInlineNever => LLVMAddFunctionAttr v LLVMNoInlineAttribute
     | FnInlineAuto => ret tt
     end ;;
     (if is_naked fn_type then LLVMAddFunctionAttr v LLVMNakedAttribute
      else ret tt) ;;
     LLVMSetLinkage v (if internal_linkage fn_table_entry
                       then LLVMInternalLinkage else LLVMExternalLinkage) ;;
     match id (return_type fn_type) with
     | TypeTableEntryIdUnreachable =>
         LLVMAddFunctionAttr v LLVMNoReturnAttribute
     | _ => ret tt
     end ;;
     LLVMSetFunctionCallConv v (calling_convention fn_type) ;;
     (if negb (is_extern fn_type)
      then LLVMAddFunctionAttr v LLVMNoUnwindAttribute else ret tt) ;;
     (if negb (is_release_build (config g))
         && match fn_inline fn_table_entry with
            | FnInlineAlways => false | _ => true end
      then
        ZigLLVMAddFunctionAttr v "no-frame-pointer-elim" (Some "true") ;;
        ZigLLVMAddFunctionAttr v "no-frame-pointer-elim-non-leaf" None
      else ret tt) ;;
     ret v)).
  { apply declaration_run_bind with (d1 := d1) (a := tt).
    { subst d1 l1. destruct (fn_inline fn_table_entry);
        try (apply declaration_run_attr; reflexivity).
      rewrite add_attrs_nil. apply declaration_run_ret. }
    apply declaration_run_bind with (d1 := d2) (a := tt).
    { subst d2 l2. destruct (is_naked fn_type);
        try (apply declaration_run_attr; reflexivity).
      rewrite add_attrs_nil. apply declaration_run_ret. }
    apply declaration_run_bind with (d1 := d3) (a := tt).
    { apply (declaration_run_on_function name d2). reflexivity. }
    apply declaration_run_bind with (d1 := d4) (a := tt).
    { subst d4 l3. destruct (id (return_type fn_type));
        try (rewrite add_attrs_nil; apply declaration_run_ret).
      apply declaration_run_attr. reflexivity. }
    apply declaration_run_bind with (d1 := d5) (a := tt).
    { apply (declaration_run_on_function name d4). reflexivity. }
    apply declaration_run_bind with (d1 := d6) (a := tt).
    { subst d6 l4. destruct (is_extern fn_type); cbn [negb];
        try (apply declaration_run_attr; reflexivity).
      rewrite add_attrs_nil. apply declaration_run_ret. }
    apply declaration_run_bind with (d1 := d7) (a := tt).
    { subst d7 l5. destruct (is_release_build (config g)); cbn [negb andb];
        [rewrite add_attrs_nil; apply declaration_run_ret|].
      destruct (fn_inline fn_table_entry);
        try (rewrite add_attrs_nil; apply declaration_run_ret);
        rewrite add_attrs_two;
        (apply declaration_run_bind
           with (d1 := add_attrs [ZigLLVMStringAttr "no-frame-pointer-elim"
                                                    (Some "true")] d6)
                (a := tt);
         [apply (declaration_run_on_function name d6); reflexivity|];
         apply (declaration_run_on_function name); reflexivity). }
    apply declaration_run_ret. }
  destruct (Hrun g0 (functions (module (consts g))) eq_refl)
    as (g' & l' & E & Hl' & Hlen & F).
  destruct F as (Hcfg & Hb & Hh & Hi & Hcur & Herr & Hgl & _ & _ & Hfns).
  exists g'. split.
  { assert (Hname : (if negb (internal_linkage fn_table_entry)
                      then symbol_name fn_table_entry
                      else "_" +:+ symbol_name fn_table_entry) = name).
    { subst name. unfold fn_symbol.
      now destruct (internal_linkage fn_table_entry). }
    unfold fn_llvm_value. unfold bind at 1. unfold get at 1.
    rewrite Hfresh. cbv zeta. rewrite Hname.
    unfold bind at 1. unfold LLVMAddFunction at 1.
    unfold bind at 1. unfold modify at 1.
    exact E. }
  split.
  { exists l'. split; [|exact Hlen]. rewrite Hl'. f_equal. f_equal.
    subst d7 d6 d5 d4 d3 d2 d1 d0 l1 l2 l3 l4 l5.
    unfold fn_decl, fn_attributes, add_attrs, set_function_linkage,
      set_function_call_conv. cbn. fold fn_type.
    now rewrite <- !app_assoc. }
  split; [rewrite Hfns; reflexivity|].
  repeat split; assumption.
Qed.

(** [fn_llvm_value] always yields a function; afterwards the function is
    cached. *)
Lemma fn_llvm_value_total (g : CodeGen) (fn_table_entry : FnTableEntry) :
  exists fn_val g',
    fn_llvm_value fn_table_entry g = Ok (Some fn_val) g'
    /\ fn_llvm_values (consts g') !! fn_id fn_table_entry = Some fn_val
    /\ config g' = config g /\ builder g' = builder g
    /\ handles g' = handles g /\ intrinsics g' = intrinsics g
    /\ cur g' = cur g /\ stderr g' = stderr g.
Proof.
  destruct (fn_llvm_values (consts g) !! fn_id fn_table_entry) as [v|] eqn:Hv.
  - exists v, g. unfold fn_llvm_value, bind, get. rewrite Hv.
    repeat split.
  - destruct (fn_llvm_value_fresh g fn_table_entry Hv)
      as (g' & E & _ & Hfns & Hcfg & Hb & Hh & Hi & Hcur & Herr & _).
    exists (LLVMFunction (fn_symbol fn_table_entry)), g'.
    split; [exact E|]. split; [now rewrite Hfns, lookup_insert_eq|].
    repeat split; assumption.
Qed.

Lemma fn_llvm_value_cached (g : CodeGen) (fn_table_entry : FnTableEntry) v :
  fn_llvm_values (consts g) !! fn_id fn_table_entry = Some v ->
  fn_llvm_value fn_table_entry g = Ok (Some v) g.
Proof. intros Hv. unfold fn_llvm_value, bind, get. now rewrite Hv. Qed.

(** X19: a function without a declaration is declared at the end of
    the module: under its symbol name with an underscore in front and
    with internal linkage when it has internal linkage, under its symbol
    name and with external linkage otherwise; with the calling convention
    of its type and the attributes for inlining, naked, noreturn, nounwind
    and the frame pointer, in that order.  Nothing else of the module and
    nothing of the builder changes. *)
Theorem fn_llvm_value_declares (g : CodeGen) (fn_table_entry : FnTableEntry) :
  fn_llvm_values (consts g) !! fn_id fn_table_entry = None ->
  exists g' earlier,
    fn_llvm_value fn_table_entry g
    = Ok (Some (LLVMFunction (fn_symbol fn_table_entry))) g'
    /\ functions (module (consts g')) = earlier ++ [fn_decl g fn_table_entry]
    /\ length earlier = length (functions (module (consts g)))
    /\ globals (module (consts g')) = globals (module (consts g))
    /\ builder g' = builder g.
Proof.
  intros Hfresh.
  destruct (fn_llvm_value_fresh g fn_table_entry Hfresh)
    as (g' & E & (l & Hl & Hlen) & _ & _ & Hb & _ & _ & _ & _ & Hgl).
  now exists g', l.
Qed.

Lemma fn_llvm_value_declares_witness :
  let g := Sample.debug_state in
  let fn := mkFn 4 "helper" true FnInlineNever false
              (mkFnType Sample.void false false 0
                 (LLVMFunctionType LLVMVoidType [] false) [])
              [] [] [] Sample.fn_scope in
  exists g' earlier,
    fn_llvm_value fn g = Ok (Some (LLVMFunction "_helper")) g'
    /\ functions (module (consts g'))
       = earlier
         ++ [mkFunctionDecl "_helper" (LLVMFunctionType LLVMVoidType [] false)
               LLVMInternalLinkage 0
               [LLVMNoInlineAttribute; LLVMNoUnwindAttribute;
                ZigLLVMStringAttr "no-frame-pointer-elim" (Some "true");
                ZigLLVMStringAttr "no-frame-pointer-elim-non-leaf" None] []]
    /\ length earlier = length (functions (module (consts g)))
    /\ globals (module (consts g')) = globals (module (consts g))
    /\ builder g' = builder g.
Proof.
  intros g fn.
  exact (fn_llvm_value_declares g fn eq_refl).
Defined.

(** X20: [fn_llvm_value] always yields a function and declares it at
    most once: asking again yields the same function and changes nothing,
    and the module has one function more exactly when the function had no
    declaration before. *)
Theorem fn_llvm_value_memo (g : CodeGen) (fn_table_entry : FnTableEntry) :
  exists fn_val g',
    fn_llvm_value fn_table_entry g = Ok (Some fn_val) g'
    /\ fn_llvm_value fn_table_entry g' = Ok (Some fn_val) g'
    /\ (fn_llvm_values (consts g) !! fn_id fn_table_entry <> None -> g' = g)
    /\ length (functions (module (consts g')))
       = length (functions (module (consts g)))
         + match fn_llvm_values (consts g) !! fn_id fn_table_entry with
           | Some _ => 0
           | None => 1
           end.
Proof.
  destruct (fn_llvm_values (consts g) !! fn_id fn_table_entry) as [v|] eqn:Hv.
  - exists v, g. rewrite (fn_llvm_value_cached g _ v Hv).
    repeat split. lia.
  - destruct (fn_llvm_value_fresh g fn_table_entry Hv)
      as (g' & E & (l & Hl & Hlen) & Hfns & _).
    exists (LLVMFunction (fn_symbol fn_table_entry)), g'.
    split; [exact E|]. split; [|split; [congruence|]].
    + apply fn_llvm_value_cached. now rewrite Hfns, lookup_insert_eq.
    + rewrite Hl, length_app. simpl. lia.
Qed.

(** ** The basic blocks of a function *)

Lemma append_block_ops_cons fn_val first bb blocks :
  append_block_ops fn_val first (bb :: blocks)
  = OpAppendBasicBlock fn_val (name_hint bb) first
    :: append_block_ops fn_val (S first) blocks.
Proof.
  unfold append_block_ops. rewrite imap_cons, Nat.add_0_r. f_equal.
  apply imap_ext. intros i x _. simpl. f_equal. lia.
Qed.

Lemma build_blocks_loop (fn : FnTableEntry) (blocks : list IrBasicBlock)
    (g : CodeGen) (fn_val : LLVMValue) :
  fn_llvm_values (consts g) !! fn_id fn = Some fn_val ->
  exists g',
    for_each blocks (fun bb =>
      fn_val <- fn_llvm_value fn ;;
      block <- LLVMAppendBasicBlock fn_val (name_hint bb) ;;
      modify (with_handles (set_bb_llvm_block (bb_id bb) block))) g
    = Ok tt g'
    /\ emitted (builder g')
       = emitted (builder g)
         ++ append_block_ops (Some fn_val) (next_block (builder g)) blocks
    /\ next_block (builder g') = next_block (builder g) + length blocks
    /\ insert_block (builder g') = insert_block (builder g)
    /\ next_value (builder g') = next_value (builder g)
    /\ consts g' = consts g /\ config g' = config g /\ cur g' = cur g
    /\ (forall k, ~ In k (map bb_id blocks) ->
                  llvm_block g' k = llvm_block g k)
    /\ (NoDup (map bb_id blocks) ->
        forall i bb, blocks !! i = Some bb ->
                     llvm_block g' (bb_id bb)
                     = Some (next_block (builder g) + i)).
Proof.
  revert g. induction blocks as [|bb blocks IH]; intros g Hfn.
  - exists g. cbn. rewrite app_nil_r, Nat.add_0_r. repeat split.
    intros _ i bb Hi. discriminate Hi.
  - set (g1 := with_handles
                 (set_bb_llvm_block (bb_id bb) (Some (next_block (builder g))))
                 (with_builder
                    (fun b => mkBuilder (insert_block b) (next_value b)
                                (S (next_block (builder g)))
                                (emitted b
                                 ++ [OpAppendBasicBlock (Some fn_val)
                                       (name_hint bb)
                                       (next_block (builder g))]))
                    g)).
    destruct (IH g1 Hfn)
      as (g' & E & Hem & Hnb & Hib & Hnv & Hc & Hcfg & Hcur & Hother & Hidx).
    exists g'. split.
    { cbn [for_each]. unfold bind at 1. unfold bind at 1.
      rewrite (fn_llvm_value_cached g fn fn_val Hfn).
      unfold bind at 1. cbn [LLVMAppendBasicBlock modify]. exact E. }
    rewrite append_block_ops_cons.
    split; [rewrite Hem; cbn; now rewrite <- app_assoc|].
    split; [rewrite Hnb; cbn; lia|].
    repeat (split; [assumption|]). split.
    + intros k Hk. cbn in Hk. rewrite Hother by tauto.
      unfold llvm_block. cbn. apply lookup_insert_ne. tauto.
    + intros Hnodup i bb' Hi. cbn in Hnodup.
      apply NoDup_cons in Hnodup as [Hnotin Hnodup].
      destruct i as [|i]; cbn in Hi.
      * injection Hi as <-. rewrite Hother.
        -- unfold llvm_block. cbn. rewrite Nat.add_0_r.
           apply lookup_insert_eq.
        -- now rewrite <- list_elem_of_In.
      * rewrite (Hidx Hnodup i bb' Hi). cbn. f_equal. lia.
Qed.

Lemma bind_run {A B} (c : M A) (k : A -> M B) g a g1 r :
  c g = Ok a g1 -> k a g1 = r -> bind c k g = r.
Proof. intros Ec Ek. unfold bind. now rewrite Ec. Qed.

(** X21: [build_all_basic_blocks] appends one backend block per basic
    block of the function, in order and under the name hints, gives the
    basic block at position [i] the [i]-th new block, and leaves the
    builder at the end of the block of the first basic block. *)
Theorem build_all_basic_blocks_handles (g : CodeGen) (fn : FnTableEntry) :
  basic_block_list fn <> [] ->
  NoDup (map bb_id (basic_block_list fn)) ->
  exists fn_val g1 g',
    fn_llvm_value fn g = Ok (Some fn_val) g1
    /\ build_all_basic_blocks fn g = Ok tt g'
    /\ emitted_by g g'
         (append_block_ops (Some fn_val) (next_block (builder g))
                           (basic_block_list fn))
    /\ (forall i bb,
          basic_block_list fn !! i = Some bb ->
          llvm_block g' (bb_id bb) = Some (next_block (builder g) + i))
    /\ insert_block (builder g') = Some (next_block (builder g))
    /\ next_block (builder g')
       = next_block (builder g) + length (basic_block_list fn).
Proof.
  intros Hne Hnodup.
  destruct (fn_llvm_value_total g fn)
    as (fn_val & g1 & E1 & Hfn & _ & Hb & Hh & _).
  destruct (build_blocks_loop fn (basic_block_list fn) g1 fn_val Hfn)
    as (g2 & E & Hem & Hnb & _ & _ & _ & _ & _ & _ & Hidx).
  specialize (Hidx Hnodup).
  assert (Eloop :
    for_each (basic_block_list fn) (fun bb =>
      fn_val <- fn_llvm_value fn ;;
      block <- LLVMAppendBasicBlock fn_val (name_hint bb) ;;
      modify (with_handles (set_bb_llvm_block (bb_id bb) block))) g
    = Ok tt g2).
  { destruct (basic_block_list fn) as [|bb blocks]; [contradiction|].
    cbn [for_each] in *. unfold bind at 1. unfold bind at 1.
    unfold bind at 1 in E. unfold bind at 1 in E.
    rewrite (fn_llvm_value_cached g1 fn fn_val Hfn) in E.
    rewrite E1. exact E. }
  unfold build_all_basic_blocks.
  destruct (basic_block_list fn) as [|entry_bb blocks] eqn:Hblocks;
    [contradiction|].
  exists fn_val, g1. eexists. split; [exact E1|].
  split.
  { eapply bind_run; [reflexivity|].
    eapply bind_run; [exact Eloop|].
    eapply bind_run; reflexivity. }
  unfold emitted_by. cbn. rewrite Hb in Hem, Hnb, Hidx.
  split; [exact Hem|]. split; [|split; [|exact Hnb]].
  - intros i bb Hi. unfold llvm_block. cbn. exact (Hidx i bb Hi).
  - rewrite (Hidx 0 entry_bb eq_refl). f_equal. lia.
Qed.

Lemma build_all_basic_blocks_handles_witness :
  let g := Sample.debug_state in
  exists fn_val g1 g',
    fn_llvm_value Sample.sum_fn g = Ok (Some fn_val) g1
    /\ build_all_basic_blocks Sample.sum_fn g = Ok tt g'
    /\ emitted_by g g'
         (append_block_ops (Some fn_val) (next_block (builder g))
                           (basic_block_list Sample.sum_fn))
    /\ (forall i bb,
          basic_block_list Sample.sum_fn !! i = Some bb ->
          llvm_block g' (bb_id bb) = Some (next_block (builder g) + i))
    /\ insert_block (builder g') = Some (next_block (builder g))
    /\ next_block (builder g')
       = next_block (builder g) + length (basic_block_list Sample.sum_fn).
Proof.
  intros g.
  refine (build_all_basic_blocks_handles g Sample.sum_fn _ _).
  - discriminate.
  - apply NoDup_cons. split; [|apply NoDup_singleton].
    intros Hin. apply list_elem_of_In in Hin. simpl in Hin.
    destruct Hin as [Hin|[]]. discriminate.
Defined.

(** ** Builtin functions *)

Lemma filter_function_name (name : string) (l : list LLVMFunctionDecl) :
  filter (fun d => function_name d <> name) l
  = List.filter (fun d => negb (String.eqb name (function_name d))) l.
Proof.
  induction l as [|d l IH]; [reflexivity|].
  rewrite filter_cons. simpl.
  destruct (String.eqb_spec name (function_name d)) as [->|Hne]; simpl.
  - rewrite decide_False by tauto. exact IH.
  - rewrite decide_True by congruence. now rewrite IH.
Qed.

Lemma filter_filter_andb {A} (p q : A -> bool) (l : list A) :
  List.filter q (List.filter p l) = List.filter (fun x => p x && q x) l.
Proof.
  induction l as [|x l IH]; [reflexivity|].
  simpl. destruct (p x); simpl; [|exact IH].
  destruct (q x); now rewrite IH.
Qed.

Lemma delete_unused_loop (table : list BuiltinFnEntry) (g : CodeGen) :
  Forall backed_by_function table ->
  exists g',
    for_each table (fun builtin_fn =>
      if Nat.eqb (builtin_ref_count builtin_fn) 0
         && is_nonnull (fn_val builtin_fn)
      then LLVMDeleteFunction (fn_val builtin_fn)
      else ret tt) g
    = Ok tt g'
    /\ functions (module (consts g'))
       = List.filter (fun d => negb (is_unused_builtin_fn table
                                                          (function_name d)))
                     (functions (module (consts g)))
    /\ globals (module (consts g')) = globals (module (consts g))
    /\ intrinsics g' = intrinsics g /\ builder g' = builder g
    /\ config g' = config g.
Proof.
  intros Htable. revert g.
  induction Htable as [|builtin_fn table Hfn _ IH]; intros g.
  - exists g. split; [reflexivity|]. split; [|repeat split].
    simpl. induction (functions (module (consts g))) as [|d l IHl];
      [reflexivity|]. simpl. now rewrite <- IHl.
  - cbn [for_each]. unfold backed_by_function in Hfn.
    destruct (Nat.eqb (builtin_ref_count builtin_fn) 0) eqn:Href;
      [destruct (fn_val builtin_fn) as [[]|] eqn:Hval; try contradiction|];
      cbn [andb is_nonnull].
    + match goal with
      | |- context [LLVMDeleteFunction (Some (LLVMFunction ?n))] =>
          set (fname := n)
      end.
      destruct (IH (with_consts (with_module (fun m =>
                      mkModule (filter (fun d => function_name d <> fname)
                                       (functions m))
                               (globals m))) g))
        as (g' & E & Hfns & Hgl & Hi & Hb & Hcfg).
      exists g'. split; [exact E|]. split; [|repeat split; assumption].
      rewrite Hfns. cbn [consts with_consts module with_module functions].
      rewrite filter_function_name, filter_filter_andb.
      apply filter_ext. intros d. cbn [is_unused_builtin_fn existsb].
      rewrite Href, Hval. cbn [andb]. now rewrite negb_orb.
    + destruct (IH g) as (g' & E & Hfns & Hrest).
      exists g'. split; [exact E|]. split; [|exact Hrest].
      rewrite Hfns. apply filter_ext. intros d.
      cbn [is_unused_builtin_fn existsb]. now rewrite Href, Hval.
    + destruct (IH g) as (g' & E & Hfns & Hrest).
      exists g'. split; [exact E|]. split; [|exact Hrest].
      rewrite Hfns. apply filter_ext. intros d.
      cbn [is_unused_builtin_fn existsb]. now rewrite Href.
Qed.

(** X22: [delete_unused_builtin_fns] removes from the module exactly the
    functions that back a builtin function with reference count 0; all
    other functions stay, in their order, and the globals, the intrinsics
    and the builder are left alone. *)
Theorem delete_unused_builtin_fns_removes (g : CodeGen) :
  let table := builtin_fn_table (intrinsics g) in
  Forall backed_by_function table ->
  exists g',
    delete_unused_builtin_fns g = Ok tt g'
    /\ functions (module (consts g'))
       = List.filter (fun d => negb (is_unused_builtin_fn table
                                                          (function_name d)))
                     (functions (module (consts g)))
    /\ globals (module (consts g')) = globals (module (consts g))
    /\ intrinsics g' = intrinsics g /\ builder g' = builder g.
Proof.
  intros table Htable.
  destruct (delete_unused_loop table g Htable)
    as (g' & E & Hfns & Hgl & Hi & Hb & _).
  exists g'. split; [exact E|]. repeat split; assumption.
Qed.

Lemma delete_unused_builtin_fns_removes_witness :
  let g := Sample.start Sample.debug_config in
  exists g',
    delete_unused_builtin_fns g = Ok tt g'
    /\ functions (module (consts g'))
       = List.filter
           (fun d => negb (is_unused_builtin_fn
                             (builtin_fn_table (intrinsics g))
                             (function_name d)))
           (functions (module (consts g)))
    /\ globals (module (consts g')) = globals (module (consts g))
    /\ intrinsics g' = intrinsics g /\ builder g' = builder g.
Proof.
  intros g.
  refine (delete_unused_builtin_fns_removes g _).
  vm_compute. repeat constructor.
Defined.

(** ** The list of test functions *)

Section TestFunctions.
Context `{Collaborators}.

(** X23: in a test build with as many test function values as
    [test_fn_count], at least one, the list of test functions adds two
    globals to the module: an unnamed internal constant array of the
    values, and the external constant [zig_test_fn_list], a slice of a
    pointer to that array and the count. *)
Theorem gen_test_fn_list_globals (g : CodeGen) (first : LLVMValue)
    (rest : list LLVMValueRef) :
  is_test_build (config g) = true ->
  test_fn_count (config g) = S (length rest) ->
  let test_fn_vals := Some first :: rest in
  let array_index := length (globals (module (consts g))) in
  let array_init := LLVMConstArray (LLVMTypeOf first) test_fn_vals in
  let slice_init :=
    LLVMConstStruct
      [Some (LLVMConstBitCast (LLVMGlobalVar array_index)
                              (LLVMPointerType (LLVMTypeOf first) 0));
       Some (LLVMConstInt (type_ref (entry_usize (config g)))
                          (Z.of_nat (test_fn_count (config g))) false)]
      false in
  exists g',
    gen_test_fn_list test_fn_vals g = Ok tt g'
    /\ globals (module (consts g'))
       = globals (module (consts g))
         ++ [mkGlobal EmptyString (LLVMTypeOf array_init) (Some array_init)
                      LLVMInternalLinkage true true;
             mkGlobal "zig_test_fn_list" (LLVMTypeOf slice_init)
                      (Some slice_init) LLVMExternalLinkage true true]
    /\ functions (module (consts g')) = functions (module (consts g))
    /\ builder g' = builder g /\ stderr g' = stderr g.
Proof.
  intros Htest Hcount. cbv zeta.
  unfold gen_test_fn_list, bind, get, assert.
  rewrite Htest, Hcount. cbn -[alter Z.of_nat].
  rewrite Nat.eqb_refl. cbn -[alter Z.of_nat].
  eexists. split; [reflexivity|]. cbn -[alter Z.of_nat].
  split; [|repeat split].
  rewrite !alter_last, <- app_assoc. reflexivity.
Qed.

End TestFunctions.

Lemma gen_test_fn_list_globals_witness :
  let g := Suite.state in
  let first := LLVMConstNull (LLVMIntType 32) in
  let type_of := @LLVMTypeOf Sample.collaborators in
  let array_init := LLVMConstArray (type_of first) [Some first] in
  let slice_init :=
    LLVMConstStruct
      [Some (LLVMConstBitCast
               (LLVMGlobalVar (length (globals (module (consts g)))))
               (LLVMPointerType (type_of first) 0));
       Some (LLVMConstInt (type_ref (entry_usize (config g)))
                          (Z.of_nat (test_fn_count (config g))) false)]
      false in
  exists g',
    gen_test_fn_list (H := Sample.collaborators) [Some first] g = Ok tt g'
    /\ globals (module (consts g'))
       = globals (module (consts g))
         ++ [mkGlobal EmptyString (type_of array_init) (Some array_init)
                      LLVMInternalLinkage true true;
             mkGlobal "zig_test_fn_list" (type_of slice_init)
                      (Some slice_init) LLVMExternalLinkage true true]
    /\ functions (module (consts g')) = functions (module (consts g))
    /\ builder g' = builder g /\ stderr g' = stderr g.
Proof.
  intros g first type_of array_init slice_init.
  exact (gen_test_fn_list_globals (H := Sample.collaborators) g first []
           eq_refl eq_refl).
Defined.

Section TestCount.
Context `{Collaborators}.

Lemma gen_fn_protos_vals (protos : list FnTableEntry)
    (test_fn_vals : list LLVMValueRef) g vals g' :
  gen_fn_protos protos test_fn_vals g = Ok vals g' ->
  length vals
  = length test_fn_vals
    + (if is_test_build (config g)
       then length (List.filter is_test protos) else 0).
Proof.
  revert test_fn_vals g.
  induction protos as [|fn_table_entry rest IH]; intros test_fn_vals g E.
  - injection E as <- _. simpl. destruct (is_test_build (config g)); lia.
  - simpl in E. unfold bind at 1 in E. unfold get at 1 in E.
    destruct (should_skip_fn_codegen g fn_table_entry) eqn:Hskip.
    + rewrite (IH _ _ E). simpl.
      unfold should_skip_fn_codegen in Hskip.
      destruct (is_test_build (config g)), (is_test fn_table_entry);
        try discriminate; reflexivity.
    + apply bind_Ok in E as (fn_val & g1 & E1 & E).
      apply bind_Ok in E as ([] & g2 & E2 & E).
      apply bind_Ok in E as ([] & g3 & E3 & E).
      apply bind_Ok in E as (vals1 & g4 & E4 & E).
      assert (F : prologue_frame g g4).
      { pose proof fn_llvm_value_operand.
        pose proof gen_param_attrs_operand.
        pose proof gen_test_fn_val_operand.
        transitivity g1;
          [refine ((_ : steps prologue_frame _) _ _ _ E1); frames|].
        transitivity g2;
          [refine ((_ : steps prologue_frame _) _ _ _ E2);
           unfold LLVMAddAttribute, ZigLLVMAddNonNullAttr; frames|].
        transitivity g3;
          [refine ((_ : steps prologue_frame _) _ _ _ E3); frames|].
        refine ((_ : steps prologue_frame _) _ _ _ E4). frames. }
      destruct F as (Hcfg & _).
      rewrite (IH _ _ E), Hcfg. simpl.
      unfold should_skip_fn_codegen in Hskip.
      destruct (is_test fn_table_entry) eqn:Htest.
      * apply bind_Ok in E4 as ([] & g5 & E5 & E4).
        apply assert_Ok in E5 as [Hassert ->].
        apply andb_true_iff in Hassert as [Hbuild _]. rewrite Hbuild.
        apply bind_Ok in E4 as (v & g6 & _ & E4). injection E4 as <- _.
        rewrite length_app. simpl. lia.
      * injection E4 as <- _.
        destruct (is_test_build (config g)); lia.
Qed.


End TestCount.


(** ** Ending the process *)

Lemma no_exit_ret {A} (a : A) : no_exit (ret a).
Proof. intros g status g'. discriminate. Qed.

Lemma no_exit_bind {A B} (c : M A) (k : A -> M B) :
  no_exit c -> (forall a, no_exit (k a)) -> no_exit (bind c k).
Proof.
  intros Hc Hk g status g'. unfold bind.
  destruct (c g) as [a g1| |status1 g1] eqn:E.
  - apply Hk.
  - discriminate.
  - now apply Hc in E.
Qed.

Lemma no_exit_get : no_exit get.
Proof. intros g status g'. discriminate. Qed.

Lemma no_exit_assert b : no_exit (assert b).
Proof. intros g status g'. unfold assert. destruct b; discriminate. Qed.

Lemma no_exit_abort {A} : no_exit (@zig_unreachable A).
Proof. intros g status g'. discriminate. Qed.

Lemma no_exit_panic {A} : no_exit (@zig_panic A).
Proof. intros g status g'. discriminate. Qed.

Lemma no_exit_lift_option {A} (o : option A) : no_exit (lift_option o).
Proof. destruct o; [apply no_exit_ret | apply no_exit_abort]. Qed.

Lemma no_exit_modify f : no_exit (modify f).
Proof. intros g status g'. discriminate. Qed.

Lemma no_exit_for_each {A} (l : list A) (body : A -> M unit) :
  (forall x, no_exit (body x)) -> no_exit (for_each l body).
Proof.
  intros Hbody. induction l as [|x l IH]; simpl.
  - apply no_exit_ret.
  - apply no_exit_bind; [apply Hbody | intros _; exact IH].
Qed.

Lemma no_exit_build instr : no_exit (build instr).
Proof. intros g status g'. discriminate. Qed.

Lemma no_exit_LLVMAppendBasicBlock fn name :
  no_exit (LLVMAppendBasicBlock fn name).
Proof. intros g status g'. discriminate. Qed.

Lemma no_exit_LLVMGetInsertBlock : no_exit LLVMGetInsertBlock.
Proof. intros g status g'. discriminate. Qed.

Lemma no_exit_LLVMAddGlobal ty name : no_exit (LLVMAddGlobal ty name).
Proof. intros g status g'. discriminate. Qed.

Lemma no_exit_LLVMAddFunction name ty : no_exit (LLVMAddFunction name ty).
Proof. intros g status g'. discriminate. Qed.

Create HintDb no_exit.

#[local] Hint Resolve no_exit_ret no_exit_get no_exit_assert no_exit_abort
  no_exit_panic no_exit_lift_option no_exit_modify no_exit_build
  no_exit_LLVMAppendBasicBlock no_exit_LLVMGetInsertBlock
  no_exit_LLVMAddGlobal no_exit_LLVMAddFunction : no_exit.

(** Breaks a computation down along its binds and case distinctions. *)
Ltac no_exit_go :=
  repeat first
    [ apply no_exit_ret
    | apply no_exit_get
    | apply no_exit_assert
    | apply no_exit_lift_option
    | apply no_exit_build
    | match goal with
      | |- no_exit (bind _ _) => apply no_exit_bind; [|intros ?]
      | |- no_exit (for_each _ _) => apply no_exit_for_each; intros ?
      | |- no_exit (modify _) => apply no_exit_modify
      | |- no_exit zig_unreachable => apply no_exit_abort
      | |- no_exit zig_panic => apply no_exit_panic
      | |- no_exit (match ?x with _ => _ end) => destruct x eqn:?
      | |- no_exit (let '(_, _) := ?x in _) => destruct x eqn:?
      end ];
  try solve [auto with no_exit].

Lemma no_exit_on_global f v : no_exit (on_global f v).
Proof. unfold on_global. no_exit_go. Qed.

Lemma no_exit_on_function f v : no_exit (on_function f v).
Proof. unfold on_function. no_exit_go. Qed.

#[local] Hint Resolve no_exit_on_global no_exit_on_function : no_exit.

Lemma no_exit_LLVMSetLinkage v l : no_exit (LLVMSetLinkage v l).
Proof. unfold LLVMSetLinkage. no_exit_go. Qed.

Lemma no_exit_LLVMAddAttribute arg a : no_exit (LLVMAddAttribute arg a).
Proof. unfold LLVMAddAttribute. no_exit_go. Qed.

Lemma no_exit_LLVMDeleteFunction fn : no_exit (LLVMDeleteFunction fn).
Proof. unfold LLVMDeleteFunction. no_exit_go. Qed.

Lemma no_exit_gen_debug_safety_crash : no_exit gen_debug_safety_crash.
Proof. unfold gen_debug_safety_crash. no_exit_go. Qed.

Lemma no_exit_gen_var_debug_decl var : no_exit (gen_var_debug_decl var).
Proof.
  unfold gen_var_debug_decl, ZigLLVMInsertDeclareAtEnd. no_exit_go.
Qed.

#[local] Hint Resolve no_exit_LLVMSetLinkage no_exit_LLVMAddAttribute
  no_exit_LLVMDeleteFunction no_exit_gen_debug_safety_crash
  no_exit_gen_var_debug_decl : no_exit.

Lemma no_exit_add_bounds_check target_val lower_pred lower upper_pred upper :
  no_exit (add_bounds_check target_val lower_pred lower upper_pred upper).
Proof.
  unfold add_bounds_check, LLVMPositionBuilderAtEnd. no_exit_go.
Qed.

Lemma no_exit_get_int_overflow_fn type_entry op :
  no_exit (get_int_overflow_fn type_entry op).
Proof.
  unfold get_int_overflow_fn, get_arithmetic_overflow_fn, bits_index.
  no_exit_go.
Qed.

#[local] Hint Resolve no_exit_add_bounds_check no_exit_get_int_overflow_fn
  : no_exit.

Lemma no_exit_gen_overflow_op type_entry op val1 val2 :
  no_exit (gen_overflow_op type_entry op val1 val2).
Proof. unfold gen_overflow_op, LLVMPositionBuilderAtEnd. no_exit_go. Qed.

Lemma no_exit_gen_overflow_shl_op type_entry val1 val2 :
  no_exit (gen_overflow_shl_op type_entry val1 val2).
Proof. unfold gen_overflow_shl_op, LLVMPositionBuilderAtEnd. no_exit_go. Qed.

Lemma no_exit_gen_div safety val1 val2 type_entry exact :
  no_exit (gen_div safety val1 val2 type_entry exact).
Proof. unfold gen_div, LLVMPositionBuilderAtEnd. no_exit_go. Qed.

Lemma no_exit_cmp_op_to_int_predicate cmp_op is_signed :
  no_exit (cmp_op_to_int_predicate cmp_op is_signed).
Proof. unfold cmp_op_to_int_predicate. no_exit_go. Qed.

Lemma no_exit_cmp_op_to_real_predicate cmp_op :
  no_exit (cmp_op_to_real_predicate cmp_op).
Proof. unfold cmp_op_to_real_predicate. no_exit_go. Qed.

#[local] Hint Resolve no_exit_gen_overflow_op no_exit_gen_overflow_shl_op
  no_exit_gen_div no_exit_cmp_op_to_int_predicate
  no_exit_cmp_op_to_real_predicate : no_exit.

Section NoExit.
Context `{Collaborators}.

Lemma no_exit_gen_const_val_M type_entry const_val :
  no_exit (gen_const_val_M type_entry const_val).
Proof.
  intros g status g'. unfold gen_const_val_M.
  destruct (gen_const_val type_entry const_val (consts g)) as [[v c]|];
    discriminate.
Qed.

Lemma no_exit_ir_llvm_value instruction : no_exit (ir_llvm_value instruction).
Proof.
  pose proof no_exit_gen_const_val_M.
  unfold ir_llvm_value, render_const_val, render_const_val_global,
    LLVMSetInitializer, LLVMSetGlobalConstant, LLVMSetUnnamedAddr.
  no_exit_go.
Qed.

Lemma no_exit_gen_assign_raw target_ref value op1_type op2_type :
  no_exit (gen_assign_raw target_ref value op1_type op2_type).
Proof.
  unfold gen_assign_raw, gen_struct_memcpy, LLVMTypeOf_ref. no_exit_go.
Qed.

Lemma no_exit_fn_llvm_value fn_table_entry :
  no_exit (fn_llvm_value fn_table_entry).
Proof.
  unfold fn_llvm_value, LLVMAddFunctionAttr, ZigLLVMAddFunctionAttr,
    LLVMSetFunctionCallConv.
  no_exit_go.
Qed.

Lemma no_exit_asm_template_bytes src offset count acc :
  no_exit (asm_template_bytes src offset count acc).
Proof.
  revert offset acc. induction count as [|count IH]; intros offset acc; simpl.
  - apply no_exit_ret.
  - apply no_exit_bind; [no_exit_go|intros c; apply IH].
Qed.

Lemma no_exit_asm_template_tokens asm_expr tokens acc :
  no_exit (asm_template_tokens asm_expr tokens acc).
Proof.
  pose proof no_exit_asm_template_bytes.
  revert acc. induction tokens as [|token tokens IH]; intros acc; simpl.
  - apply no_exit_ret.
  - apply no_exit_bind; [no_exit_go|intros t; apply IH].
Qed.

Lemma no_exit_asm_outputs instruction total outputs i st :
  no_exit (asm_outputs instruction total outputs i st).
Proof.
  revert i st. induction outputs as [|output outputs IH]; intros i st; simpl.
  - apply no_exit_ret.
  - apply no_exit_bind; [apply no_exit_assert|intros _].
    apply no_exit_bind; [unfold LLVMTypeOf_ref; no_exit_go|intros st'; apply IH].
Qed.

Lemma no_exit_asm_inputs instruction total inputs i st :
  no_exit (asm_inputs instruction total inputs i st).
Proof.
  pose proof no_exit_ir_llvm_value.
  revert i st. induction inputs as [|input inputs IH]; intros i st; simpl.
  - apply no_exit_ret.
  - apply no_exit_bind; [apply no_exit_lift_option|intros ir_input].
    apply no_exit_bind; [apply no_exit_ir_llvm_value|intros value; apply IH].
Qed.

Lemma no_exit_phi_incoming count values blocks :
  no_exit (phi_incoming count values blocks).
Proof.
  pose proof no_exit_ir_llvm_value.
  revert values blocks.
  induction count as [|count IH]; intros values blocks; simpl.
  - apply no_exit_ret.
  - destruct values as [|value values]; [apply no_exit_abort|].
    destruct blocks as [|block blocks]; [apply no_exit_abort|].
    apply no_exit_bind; [apply no_exit_ir_llvm_value|intros v].
    apply no_exit_bind; [apply no_exit_get|intros g].
    apply no_exit_bind; [apply IH|intros rest; apply no_exit_ret].
Qed.

Lemma no_exit_ir_render_instruction instruction :
  no_exit (ir_render_instruction instruction).
Proof.
  pose proof no_exit_ir_llvm_value.
  pose proof no_exit_gen_assign_raw.
  pose proof no_exit_asm_template_tokens.
  pose proof no_exit_asm_outputs.
  pose proof no_exit_asm_inputs.
  pose proof no_exit_phi_incoming.
  unfold ir_render_instruction.
  apply no_exit_bind; [unfold set_debug_location; no_exit_go|intros _].
  destruct instruction.
  - unfold ir_render_return. no_exit_go.
  - unfold ir_render_decl_var. no_exit_go.
  - unfold ir_render_bin_op. no_exit_go.
  - unfold ir_render_unreachable. no_exit_go.
  - unfold ir_render_cond_br. no_exit_go.
  - unfold ir_render_br. no_exit_go.
  - unfold ir_render_phi, LLVMAddIncoming. no_exit_go.
  - unfold ir_render_asm. no_exit_go.
  - unfold ir_render_err_name, LLVMTypeOf_ref. no_exit_go.
  - unfold ir_render_ref. no_exit_go.
  - apply no_exit_abort.
  - apply no_exit_panic.
Qed.

Lemma no_exit_ir_render_instructions instructions :
  no_exit (ir_render_instructions instructions).
Proof.
  induction instructions as [|instruction rest IH]; simpl.
  - apply no_exit_ret.
  - apply no_exit_bind; [|intros _; exact IH].
    destruct (_ && _); [apply no_exit_ret|].
    apply no_exit_bind; [apply no_exit_ir_render_instruction|intros v].
    apply no_exit_modify.
Qed.

Lemma no_exit_ir_render fn_entry : no_exit (ir_render fn_entry).
Proof.
  pose proof no_exit_ir_render_instructions.
  unfold ir_render.
  apply no_exit_bind; [apply no_exit_assert|intros _].
  induction (basic_block_list fn_entry) as [|block rest IH]; simpl.
  - apply no_exit_ret.
  - apply no_exit_bind; [|intros _; exact IH].
    unfold ir_render_block, LLVMPositionBuilderAtEnd. no_exit_go.
Qed.

Lemma no_exit_gen_param_decls fn_table_entry fn params next_var_i :
  no_exit (gen_param_decls fn_table_entry fn params next_var_i).
Proof.
  revert next_var_i.
  induction params as [|info params IH]; intros next_var_i; simpl.
  - apply no_exit_ret.
  - destruct (N.eqb (gen_index info) SIZE_MAX); [apply IH|].
    no_exit_go.
Qed.

Lemma no_exit_gen_fn_def fn_table_entry : no_exit (gen_fn_def fn_table_entry).
Proof.
  pose proof no_exit_fn_llvm_value.
  pose proof no_exit_ir_render.
  pose proof no_exit_gen_param_decls.
  unfold gen_fn_def, build_all_basic_blocks, gen_alloca, gen_variable,
    LLVMPositionBuilderAtEnd, LLVMSetAlignment.
  no_exit_go.
Qed.

Lemma no_exit_error_name_values str_type u8_ptr_type decls :
  no_exit (error_name_values str_type u8_ptr_type decls).
Proof.
  induction decls as [|decl rest IH]; simpl.
  - apply no_exit_ret.
  - unfold LLVMSetInitializer, LLVMSetGlobalConstant, LLVMSetUnnamedAddr,
      LLVMConstBitCast_ref.
    no_exit_go.
Qed.

Lemma no_exit_gen_fn_protos protos test_fn_vals :
  no_exit (gen_fn_protos protos test_fn_vals).
Proof.
  pose proof no_exit_fn_llvm_value.
  revert test_fn_vals.
  induction protos as [|fn_table_entry rest IH]; intros test_fn_vals; simpl.
  - apply no_exit_ret.
  - unfold gen_param_attrs, gen_test_fn_val, ZigLLVMAddNonNullAttr,
      LLVMSetInitializer, LLVMSetGlobalConstant, LLVMSetUnnamedAddr,
      LLVMConstBitCast_ref.
    no_exit_go.
Qed.

Lemma no_exit_do_code_gen_prologue : no_exit do_code_gen_prologue.
Proof.
  pose proof no_exit_error_name_values.
  pose proof no_exit_gen_fn_protos.
  pose proof no_exit_gen_const_val_M.
  unfold do_code_gen_prologue, delete_unused_builtin_fns,
    generate_error_name_table, gen_module_level_variable, gen_global_var,
    render_const_val, render_const_val_global,
    LLVMSetInitializer, LLVMSetGlobalConstant, LLVMSetUnnamedAddr.
  no_exit_go.
Qed.

End NoExit.

Section Exit.
Context `{Collaborators}.


End Exit.


(** ** Inline assembly templates *)

Lemma first_match_app p names names' :
  first_match p (names ++ names')
  = match first_match p names with
    | Some i => Some i
    | None =>
        match first_match p names' with
        | Some i => Some (length names + i)
        | None => None
        end
    end.
Proof.
  induction names as [|name names IH]; simpl.
  - now destruct (first_match p names').
  - destruct (p name); [reflexivity|]. rewrite IH.
    destruct (first_match p names); [reflexivity|].
    now destruct (first_match p names').
Qed.

Section AsmSymbols.
Context `{Collaborators}.

Lemma find_asm_index_outputs_first ptr len outputs result :
  find_asm_index_outputs ptr len outputs result
  = match first_match (fun name => buf_eql_mem name ptr len)
                      (map out_asm_symbolic_name outputs) with
    | Some i => inl (result + N.of_nat i)%N
    | None => inr (result + N.of_nat (length outputs))%N
    end.
Proof.
  revert result. induction outputs as [|output outputs IH]; intros result.
  - simpl. f_equal. lia.
  - simpl. destruct (buf_eql_mem _ ptr len); [f_equal; lia|].
    rewrite IH.
    destruct (first_match _ (map out_asm_symbolic_name outputs));
      f_equal; lia.
Qed.

Lemma find_asm_index_inputs_first ptr len inputs result :
  find_asm_index_inputs ptr len inputs result
  = match first_match (fun name => buf_eql_mem name ptr len)
                      (map in_asm_symbolic_name inputs) with
    | Some i => (result + N.of_nat i)%N
    | None => SIZE_MAX
    end.
Proof.
  revert result. induction inputs as [|input inputs IH]; intros result.
  - reflexivity.
  - simpl. destruct (buf_eql_mem _ ptr len); [lia|].
    rewrite IH.
    destruct (first_match _ (map in_asm_symbolic_name inputs)); lia.
Qed.

(** X26: [find_asm_index] is the position of the first symbolic name
    that equals the name in the token, among the names of the outputs
    followed by those of the inputs, and [SIZE_MAX] when no name does. *)
Theorem find_asm_index_first_symbol (asm_expr : AstNodeAsmExpr)
    (tok : AsmToken) :
  let ptr := buf_ptr_at (asm_template asm_expr) (tok_start tok + 2) in
  let len :=
    size_t_sub (size_t_sub (N.of_nat (tok_end tok)) (N.of_nat (tok_start tok)))
               2 in
  find_asm_index asm_expr tok
  = match first_match (fun name => buf_eql_mem name ptr len)
                      (asm_symbols asm_expr) with
    | Some i => N.of_nat i
    | None => SIZE_MAX
    end.
Proof.
  cbv zeta. unfold find_asm_index, asm_symbols.
  rewrite find_asm_index_outputs_first, first_match_app.
  destruct (first_match _ (map out_asm_symbolic_name (output_list asm_expr)));
    [f_equal; lia|].
  rewrite find_asm_index_inputs_first, length_map.
  destruct (first_match _ (map in_asm_symbolic_name (input_list asm_expr)));
    lia.
Qed.

End AsmSymbols.

Lemma append_assoc_string (a b c : string) : (a +:+ b) +:+ c = a +:+ (b +:+ c).
Proof.
  induction a as [|x a IH]; [reflexivity|].
  change (String x ((a +:+ b) +:+ c) = String x (a +:+ (b +:+ c))).
  f_equal. exact IH.
Qed.

Lemma append_empty_r (a : string) : a +:+ EmptyString = a.
Proof.
  induction a as [|x a IH]; [reflexivity|].
  change (String x (a +:+ EmptyString) = String x a). f_equal. exact IH.
Qed.

Lemma substring_get (s : string) (offset count : nat) (c : ascii) :
  String.get offset s = Some c ->
  substring offset (S count) s = String c (substring (S offset) count s).
Proof.
  revert offset. induction s as [|x s IH]; intros offset Hget;
    [destruct offset; discriminate|].
  destruct offset as [|offset]; simpl in *.
  - injection Hget as ->. reflexivity.
  - rewrite (IH offset Hget). reflexivity.
Qed.

Lemma get_in_range (s : string) (offset : nat) :
  offset < String.length s -> exists c, String.get offset s = Some c.
Proof.
  revert offset. induction s as [|x s IH]; intros offset Hlt; simpl in *;
    [lia|].
  destruct offset as [|offset]; [now exists x|]. apply IH. lia.
Qed.

(** X27: a piece of an assembly template that lies within the template
    is copied to the backend template with every [$] doubled, and the
    copy cannot abort. *)
Theorem asm_template_bytes_escapes (src_template : string)
    (offset count : nat) (llvm_template : string) (g : CodeGen) :
  offset + count <= String.length src_template ->
  asm_template_bytes src_template offset count llvm_template g
  = Ok (llvm_template
        +:+ escape_dollars (substring offset count src_template)) g.
Proof.
  revert offset llvm_template.
  induction count as [|count IH]; intros offset llvm_template Hrange.
  - simpl.
    replace (substring offset 0 src_template) with EmptyString
      by (clear; revert offset; induction src_template as [|x s IH];
          intros [|offset]; simpl; auto).
    simpl. now rewrite append_empty_r.
  - destruct (get_in_range src_template offset) as (c & Hc); [lia|].
    cbn [asm_template_bytes]. unfold bind at 1. rewrite Hc. cbn [ret].
    rewrite (IH (S offset) _) by lia.
    rewrite (substring_get _ _ _ _ Hc). cbn [escape_dollars].
    destruct (Ascii.eqb c "$"); rewrite ?append_assoc_string; reflexivity.
Qed.

Lemma asm_template_bytes_escapes_witness :
  asm_template_bytes "mov $1, %eax" 4 2 "mov " Sample.debug_state
  = Ok "mov $$1" Sample.debug_state.
Proof.
  exact (asm_template_bytes_escapes "mov $1, %eax" 4 2 "mov "
           Sample.debug_state
           (le_S _ _ (le_S _ _ (le_S _ _ (le_S _ _
              (le_S _ _ (le_S _ _ (le_n 6)))))))).
Defined.

(** ** Linker settings *)

(** X28: after any sequence of [codegen_add_link_lib], the libraries to
    link are the ones that were there, followed by the added ones without
    [c], in order; [link_libc] is set when it was set or [c] was added;
    the library directories and the frameworks are as they were. *)
Theorem codegen_add_link_lib_libc (libs : list string) (g : LinkSettings) :
  let g' := fold_left (fun g lib => codegen_add_link_lib lib g) libs g in
  link_libs g'
  = link_libs g ++ List.filter (fun lib => negb (String.eqb lib "c")) libs
  /\ link_libc g' = link_libc g || existsb (fun lib => String.eqb lib "c") libs
  /\ lib_dirs g' = lib_dirs g
  /\ darwin_frameworks g' = darwin_frameworks g.
Proof.
  revert g. induction libs as [|lib libs IH]; intros g; simpl.
  - rewrite app_nil_r, orb_false_r. repeat split.
  - destruct (IH (codegen_add_link_lib lib g)) as (Hlibs & Hc & Hdirs & Hfw).
    rewrite Hlibs, Hc, Hdirs, Hfw. unfold codegen_add_link_lib.
    destruct (String.eqb lib "c"); simpl.
    + rewrite orb_true_r. repeat split.
    + rewrite <- app_assoc. repeat split.
Qed.

(** ** C types for the header file *)

Lemma TypeTree_induction (P : TypeTree -> Prop) :
  (forall entry bits, P (mkTypeTree entry bits None)) ->
  (forall entry bits child, P child -> P (mkTypeTree entry bits (Some child))) ->
  forall t, P t.
Proof.
  intros Hleaf Hnode.
  fix IH 1. intros [entry bits [child|]].
  - apply Hnode, IH.
  - apply Hleaf.
Qed.

Lemma find_c_int_none builtin_types entry :
  List.find (fun i => same_entry entry (entry_c_int builtin_types i))
            c_int_types = None ->
  existsb (fun i => same_entry entry (entry_c_int builtin_types i)) c_int_types
  = false.
Proof.
  intros Hfind. apply not_true_is_false. intros Hex.
  apply existsb_exists in Hex as (i & Hin & Hi).
  rewrite (find_none _ _ Hfind i Hin) in Hi. discriminate Hi.
Qed.

Lemma existsb_find_none {A} (p : A -> bool) (l : list A) :
  existsb p l = false -> List.find p l = None.
Proof.
  induction l as [|x l IH]; [reflexivity|]. simpl.
  destruct (p x); [discriminate|]. exact IH.
Qed.

(** The name and the flags when the walk ends at this entry. *)
Lemma get_c_type_here (builtin_types : CBuiltinTypes) (entry : TypeTableEntry)
    (bits : nat) (child : option TypeTree) (g : HeaderFlags) (name : string)
    (g' : HeaderFlags) :
  child = None
  \/ (id entry <> TypeTableEntryIdPointer /\ id entry <> TypeTableEntryIdMaybe) ->
  get_c_type builtin_types (mkTypeTree entry bits child) g = Some (name, g') ->
  c_want_stdint g' = c_want_stdint g || wants_stdint builtin_types entry
  /\ c_want_stdbool g' = c_want_stdbool g || wants_stdbool builtin_types entry.
Proof.
  intros Hhere E. cbn [get_c_type] in E.
  unfold wants_stdint, wants_stdbool, is_c_named, is_c_size.
  destruct (List.find _ c_int_types) as [i|] eqn:Hfind.
  { injection E as _ <-.
    apply find_some in Hfind as [Hin Hi].
    assert (Hex : existsb (fun i => same_entry entry
                                      (entry_c_int builtin_types i))
                          c_int_types = true)
      by (apply existsb_exists; now exists i).
    rewrite Hex. simpl. now rewrite !orb_false_r. }
  rewrite (find_c_int_none _ _ Hfind).
  destruct (same_entry entry (entry_c_long_double builtin_types));
    [injection E as _ <-; simpl; now rewrite !orb_false_r|].
  destruct (same_entry entry (entry_c_void builtin_types));
    [injection E as _ <-; simpl; now rewrite !orb_false_r|].
  destruct (same_entry entry (c_entry_isize builtin_types));
    [injection E as _ <-; simpl; now rewrite orb_true_r, orb_false_r|].
  destruct (same_entry entry (c_entry_usize builtin_types));
    [injection E as _ <-; simpl; now rewrite orb_true_r, orb_false_r|].
  destruct (id entry); try discriminate E; simpl;
    try (injection E as _ <-; simpl;
         now rewrite ?orb_true_r, ?orb_false_r).
  - do 65 (try (destruct bits as [|bits]; try discriminate E));
      injection E as _ <-; simpl; now rewrite !orb_false_r.
  - destruct Hhere as [->|[Hptr _]]; [discriminate E|contradiction].
  - destruct Hhere as [->|[_ Hmaybe]]; [discriminate E|contradiction].
Qed.

(** X29: [get_c_type] asks for the headers the name it yields needs, and
    never takes a request back.  When the pointer and maybe types on the
    way are none of the builtin types, [stdint.h] is wanted afterwards
    exactly when it was wanted before or the base type is [isize],
    [usize] or an integer type without a C name of its own, and
    [stdbool.h] exactly when it was wanted before or the base type is a
    bool. *)
Theorem get_c_type_headers (builtin_types : CBuiltinTypes) (t : TypeTree)
    (g : HeaderFlags) (name : string) (g' : HeaderFlags) :
  plain_pointers builtin_types t = true ->
  get_c_type builtin_types t g = Some (name, g') ->
  c_want_stdint g'
  = c_want_stdint g || wants_stdint builtin_types (c_base_type t)
  /\ c_want_stdbool g'
     = c_want_stdbool g || wants_stdbool builtin_types (c_base_type t).
Proof.
  revert g name g'.
  induction t as [entry bits|entry bits child IH] using TypeTree_induction;
    intros g name g' Hplain E.
  - apply (get_c_type_here _ _ _ _ _ _ _ (or_introl eq_refl) E).
  - cbn [c_base_type plain_pointers] in *.
    assert (Hcases :
      (id entry <> TypeTableEntryIdPointer /\ id entry <> TypeTableEntryIdMaybe)
      \/ id entry = TypeTableEntryIdPointer
      \/ id entry = TypeTableEntryIdMaybe).
    { destruct (id entry); auto; left; split; discriminate. }
    destruct Hcases as [Hother|Hptr].
    + replace (match id entry with
               | TypeTableEntryIdPointer | TypeTableEntryIdMaybe =>
                   c_base_type child
               | _ => entry
               end) with entry
        by (destruct Hother; destruct (id entry); tauto).
      apply (get_c_type_here _ _ _ _ _ _ _ (or_intror Hother) E).
    + assert (Hnot : is_c_named builtin_types entry = false
                     /\ is_c_size builtin_types entry = false
                     /\ plain_pointers builtin_types child = true).
      { destruct Hptr as [Hid|Hid]; rewrite Hid in Hplain;
          apply andb_true_iff in Hplain as [Hplain Hchild];
          apply andb_true_iff in Hplain as [Hnamed Hsize];
          apply negb_true_iff in Hnamed, Hsize; auto. }
      destruct Hnot as (Hnamed & Hsize & Hchild).
      unfold is_c_named in Hnamed. unfold is_c_size in Hsize.
      apply orb_false_iff in Hnamed as [Hnamed Hvoid].
      apply orb_false_iff in Hnamed as [Hints Hdouble].
      apply orb_false_iff in Hsize as [Hisize Husize].
      cbn [get_c_type] in E.
      rewrite (existsb_find_none _ _ Hints), Hdouble, Hvoid, Hisize, Husize
        in E.
      destruct Hptr as [Hid|Hid]; rewrite Hid in *.
      * destruct (get_c_type builtin_types child g) as [[child_buf g1]|] eqn:Ec;
          [|discriminate E].
        injection E as _ <-. exact (IH _ _ _ Hchild Ec).
      * destruct (id (tree_entry child)); try discriminate E;
          exact (IH _ _ _ Hchild E).
Qed.

Lemma get_c_type_headers_witness :
  let g := mkHeaderFlags false false in
  let g' := mkHeaderFlags true false in
  get_c_type Header.builtin_types Header.maybe_const_u8_ptr g
  = Some ("const uint8_t *", g')
  /\ c_want_stdint g' = c_want_stdint g || true
  /\ c_want_stdbool g' = c_want_stdbool g || false.
Proof.
  intros g g'.
  exact (conj eq_refl
           (get_c_type_headers Header.builtin_types Header.maybe_const_u8_ptr g
              "const uint8_t *" g' eq_refl eq_refl)).
Defined.
